(** * Antigravity fetch interceptor: a shallow embedding

    This development embeds the three source files of the Antigravity
    compatibility shim

      - [request.ts]   (the request transformer),
      - [response.ts]  (the response transformer),
      - [fetch.ts]     (the fetch interceptor and its endpoint failover)

    as executable Rocq definitions and proves properties of them.

    Conventions of the embedding.

    - A JavaScript string is a [string]: a sequence of code units.  Every
      string operation of the sources ([startsWith], [slice], [trim],
      [split], [join], [includes], the three regular expressions) works
      unit by unit, and every literal of the sources is ASCII.
    - A JavaScript number is an IEEE 754 binary64 value, [spec_float] of
      the core library, with round-to-nearest-even arithmetic.
    - A value produced by [JSON.parse] is a [json] tree; an object is the
      list of its properties in enumeration order.
    - The builtins of the runtime that convert between text and values
      ([JSON.parse], [JSON.stringify], [parseFloat], [parseInt],
      [String] on a number) are the fields of the class [Platform]; the
      sources are embedded over an arbitrary platform, and [Reference]
      gives an executable one.
    - [await] is sequential composition.  A function that can throw
      returns a [result]; the interceptor, which also owns a cache and
      talks to the network, lives in the state-and-exception monad [M]. *)

From Stdlib Require Import ZArith Ascii String List Lia Bool.
From Stdlib Require Import Floats.SpecFloat.
From stdpp Require Import base option list strings gmap pretty.

Set Warnings "-register-all".
Local Open Scope Z_scope.

(** ** Strings *)

Module Str.

Definition LF : ascii := "010"%char.

(** [s.startsWith(p)] *)
Definition startsWith (s p : string) : bool := String.prefix p s.

(** [s.slice(n)] for a non-negative [n]. *)
Fixpoint slice (n : nat) (s : string) : string :=
  match n, s with
  | O, _ => s
  | S n', String _ t => slice n' t
  | S _, EmptyString => EmptyString
  end.

(** The white space and line terminators of ECMAScript that fit in one
    8-bit unit: TAB, LF, VT, FF, CR, SP and NBSP. *)
Definition is_space (c : ascii) : bool :=
  match c with
  | "009" | "010" | "011" | "012" | "013" | " " | "160" => true
  | _ => false
  end%char.

Fixpoint trimStart (s : string) : string :=
  match s with
  | String c t => if is_space c then trimStart t else s
  | EmptyString => EmptyString
  end.

(** [trimEnd] keeps a unit when it is not a space or when something that is
    kept follows it. *)
Fixpoint trimEnd (s : string) : string :=
  match s with
  | EmptyString => EmptyString
  | String c t =>
      match trimEnd t with
      | EmptyString => if is_space c then EmptyString else String c EmptyString
      | t' => String c t'
      end
  end.

(** [s.trim()] *)
Definition trim (s : string) : string := trimEnd (trimStart s).

(** [s.split(c)] for a separator of one unit: never the empty list. *)
Fixpoint split (c : ascii) (s : string) : list string :=
  match s with
  | EmptyString => [EmptyString]
  | String a t =>
      if Ascii.eqb a c then EmptyString :: split c t
      else match split c t with
           | l :: ls => String a l :: ls
           | [] => [String a EmptyString]
           end
  end.

(** [ls.join(c)] *)
Fixpoint join (sep : string) (ls : list string) : string :=
  match ls with
  | [] => EmptyString
  | [l] => l
  | l :: ls' => l +:+ sep +:+ join sep ls'
  end.

(** [s.includes(sub)] *)
Fixpoint includes (s sub : string) : bool :=
  String.prefix sub s ||
  match s with
  | EmptyString => false
  | String _ t => includes t sub
  end.

Definition nonempty (s : string) : bool :=
  match s with EmptyString => false | _ => true end.

(** The units of [s] before the first one that fails [p], and the rest. *)
Fixpoint span (p : ascii -> bool) (s : string) : string * string :=
  match s with
  | String c t =>
      if p c then let '(a, b) := span p t in (String c a, b) else (EmptyString, s)
  | EmptyString => (EmptyString, EmptyString)
  end.

Definition is_digit (c : ascii) : bool :=
  let n := N_of_ascii c in (48 <=? n)%N && (n <=? 57)%N.

(** The class [\w] of a regular expression: letters, digits and [_]. *)
Definition is_word (c : ascii) : bool :=
  let n := N_of_ascii c in
  is_digit c || ((65 <=? n)%N && (n <=? 90)%N) || ((97 <=? n)%N && (n <=? 122)%N)
  || (n =? 95)%N.

Definition not_colon (c : ascii) : bool := negb (Ascii.eqb c ":"%char).

(** ASCII lower case, as header names are compared. *)
Definition lower_ascii (c : ascii) : ascii :=
  let n := N_of_ascii c in
  if (65 <=? n)%N && (n <=? 90)%N then ascii_of_N (n + 32) else c.

Fixpoint lowercase (s : string) : string :=
  match s with
  | EmptyString => EmptyString
  | String c t => String (lower_ascii c) (lowercase t)
  end.

End Str.

(** ** Numbers: IEEE 754 binary64 *)

Module Num.

Definition number : Type := spec_float.

Definition prec : Z := 53.
Definition emax : Z := 1024.

(** The number nearest to an integer. *)
Definition of_Z (z : Z) : number := binary_normalize prec emax z 0 false.

Definition mul (x y : number) : number := SFmul prec emax x y.
Definition div (x y : number) : number := SFdiv prec emax x y.

(** [isNaN(x)] *)
Definition isNaN (x : number) : bool :=
  match x with S754_nan => true | _ => false end.

(** [x > 0] *)
Definition gt0 (x : number) : bool := SFltb (S754_zero false) x.

(** A number in a condition: [0], [-0] and [NaN] are falsy. *)
Definition truthy (x : number) : bool :=
  match x with S754_zero _ | S754_nan => false | _ => true end.

(** [Math.ceil(x)]: the mantissa of a finite number with a negative
    exponent is divided by the power of two, rounding towards plus
    infinity; the quotient is below [2^53], so [of_Z] is exact on it. *)
Definition ceil (x : number) : number :=
  match x with
  | S754_finite s m e =>
      if 0 <=? e then x
      else
        let d := 2 ^ (- e) in
        if s then
          match Z.pos m / d with
          | 0 => S754_zero true
          | q => of_Z (- q)
          end
        else of_Z (- ((- Z.pos m) / d))
  | _ => x
  end.

End Num.

Abbreviation number := Num.number.

(** ** Values, exceptions and the platform *)

(** The values [JSON.parse] produces.  An object lists its properties in
    enumeration order, each name once. *)
Inductive json : Type :=
| JNull
| JBool (b : bool)
| JNum (x : number)
| JStr (s : string)
| JArr (items : list json)
| JObj (fields : list (string * json)).

(** The properties of an object, [Record<string, V>]. *)
Definition props (V : Type) : Type := list (string * V).

(** [o[k]]: [None] is [undefined]. *)
Fixpoint obj_get {V : Type} (k : string) (o : props V) : option V :=
  match o with
  | [] => None
  | (k', v) :: t => if String.eqb k k' then Some v else obj_get k t
  end.

(** [delete o[k]] *)
Definition obj_delete {V : Type} (k : string) (o : props V) : props V :=
  List.filter (fun kv => negb (String.eqb k (fst kv))) o.

(** [o[k] = v]: an existing property keeps its place, a new one goes last. *)
Fixpoint obj_set {V : Type} (k : string) (v : V) (o : props V) : props V :=
  match o with
  | [] => [(k, v)]
  | (k', v') :: t =>
      if String.eqb k k' then (k, v) :: t else (k', v') :: obj_set k v t
  end.

(** What is thrown: an instance of [Error] (with its class and message),
    or any other value. *)
Inductive ErrorClass : Type := EError | ETypeError | ERangeError | ESyntaxError | EOther.

Inductive exn : Type :=
| Err (c : ErrorClass) (message : string)
| NonError.

Inductive result (A : Type) : Type :=
| Ok (a : A)
| Throw (e : exn).

Arguments Ok {A} a.
Arguments Throw {A} e.

Definition rbind {A B : Type} (r : result A) (f : A -> result B) : result B :=
  match r with
  | Ok a => f a
  | Throw e => Throw e
  end.

(** [try { r } catch { h }] *)
Definition try_catch {A : Type} (r : result A) (h : exn -> result A) : result A :=
  match r with
  | Ok a => Ok a
  | Throw e => h e
  end.

Declare Scope result_scope.
Delimit Scope result_scope with result.
Notation "'do' x <- r ; k" := (rbind r (fun x => k))
  (at level 10, x name, r at level 100, k at level 200) : result_scope.
Notation "'do' ' p <- r ; k" := (rbind r (fun x => let 'p := x in k))
  (at level 10, p pattern, r at level 100, k at level 200) : result_scope.

(** [error instanceof Error ? error.message : "Unknown error"] *)
Definition message_of (e : exn) : string :=
  match e with
  | Err _ m => m
  | NonError => "Unknown error"
  end.

(** [v.k] for a name [k] that no prototype defines (every name the sources
    read is of that kind): reading a property of [null] throws, an object
    gives its own property, any other value gives [undefined]. *)
Definition get (v : json) (k : string) : result (option json) :=
  match v with
  | JNull => Throw (Err ETypeError "Cannot read properties of null")
  | JObj o => Ok (obj_get k o)
  | _ => Ok None
  end.

(** A value in a condition. *)
Definition truthy (v : json) : bool :=
  match v with
  | JNull => false
  | JBool b => b
  | JNum x => Num.truthy x
  | JStr s => Str.nonempty s
  | JArr _ | JObj _ => true
  end.

(** A possibly undefined value in a condition. *)
Definition truthy_opt (v : option json) : bool :=
  match v with Some j => truthy j | None => false end.

(** [typeof v === "object"] (true of [null] as well). *)
Definition is_object_type (v : json) : bool :=
  match v with JNull | JArr _ | JObj _ => true | _ => false end.

(** The builtins of the runtime that convert between text and values. *)
Class Platform : Type := {
  (** [JSON.parse(text)]; [None] when it throws a [SyntaxError]. *)
  JSON_parse : string -> option json;
  (** [JSON.stringify(v)] *)
  JSON_stringify : json -> string;
  (** [parseFloat(s)] *)
  parseFloat : string -> number;
  (** [parseInt(s, 10)] *)
  parseInt10 : string -> number;
  (** [String(x)] for a number [x]. *)
  Number_toString : number -> string
}.

(** [JSON.parse] inside a [try]. *)
Definition JSON_parse_r {P : Platform} (text : string) : result json :=
  match JSON_parse text with
  | Some v => Ok v
  | None => Throw (Err ESyntaxError "Unexpected token in JSON")
  end.

(** [String(v)]: an array joins its elements with commas, [null] elements
    printing as nothing; an object prints as [[object Object]], unless it
    has a [toString] property of its own: a parsed value is never a
    function, so the conversion finds nothing it can call that gives a
    primitive and throws a [TypeError]. *)
Fixpoint ToString {P : Platform} (v : json) : result string :=
  match v with
  | JNull => Ok "null"
  | JBool true => Ok "true"
  | JBool false => Ok "false"
  | JNum x => Ok (Number_toString x)
  | JStr s => Ok s
  | JArr items =>
      (do parts <-
         (fix elements (l : list json) : result (list string) :=
            match l with
            | [] => Ok []
            | e :: rest =>
                do s <- match e with JNull => Ok EmptyString | _ => ToString e end;
                do ss <- elements rest;
                Ok (s :: ss)
            end) items;
       Ok (Str.join "," parts))%result
  | JObj o =>
      match obj_get "toString" o with
      | Some _ => Throw (Err ETypeError "Cannot convert object to primitive value")
      | None => Ok "[object Object]"
      end
  end.

(** [a || b] on strings that may be undefined: the empty string is falsy. *)
Definition or_else (a b : option string) : option string :=
  match a with
  | Some s => if Str.nonempty s then a else b
  | None => b
  end.

(** [a || d] with a string [d] at the end of a chain. *)
Definition or_default (a : option string) (d : string) : string :=
  match a with
  | Some s => if Str.nonempty s then s else d
  | None => d
  end.

(** An undefined string inside a template literal. *)
Definition template (a : option string) : string :=
  match a with Some s => s | None => "undefined" end.

(** ** The constants of [constants.ts]

    The file is not among the sources; its three exports are taken as
    parameters. *)

Record AntigravityHeaders : Type := {
  User_Agent : string;
  X_Goog_Api_Client : string;
  Client_Metadata : string
}.

Class Constants : Type := {
  ANTIGRAVITY_HEADERS : AntigravityHeaders;
  ANTIGRAVITY_ENDPOINT_FALLBACKS : list string;
  ANTIGRAVITY_API_VERSION : string
}.

(** ** The request transformer ([request.ts]) *)

(** [AntigravityRequestBody] *)
Record AntigravityRequestBody : Type := {
  project : string;
  model : string;
  request : props json
}.

Record TransformedRequest : Type := {
  tr_url : string;
  tr_headers : props string;
  tr_body : AntigravityRequestBody;
  tr_streaming : bool
}.

(** The wrapped body as the value given to [JSON.stringify]. *)
Definition json_of_body (b : AntigravityRequestBody) : json :=
  JObj [("project", JStr (project b)); ("model", JStr (model b));
        ("request", JObj (request b))].

Section RequestTransformer.
Context {C : Constants}.

Definition buildRequestHeaders (accessToken : string) : props string :=
  [("Authorization", "Bearer " +:+ accessToken);
   ("Content-Type", "application/json");
   ("User-Agent", User_Agent ANTIGRAVITY_HEADERS);
   ("X-Goog-Api-Client", X_Goog_Api_Client ANTIGRAVITY_HEADERS);
   ("Client-Metadata", Client_Metadata ANTIGRAVITY_HEADERS)].

Definition extractModelFromBody (body : props json) : option string :=
  match obj_get "model" body with
  | Some (JStr model) =>
      if Str.nonempty (Str.trim model) then Some (Str.trim model) else None
  | _ => None
  end.

(** The regular expression [/\/models\/([^:]+):/] tried at the start of
    [s]: the group is the longest run without a colon, which has to be
    non-empty and followed by a colon. *)
Definition match_models_here (s : string) : option (string * string) :=
  if Str.startsWith s "/models/" then
    let '(m, rest) := Str.span Str.not_colon (Str.slice 8 s) in
    match rest with
    | String ":" after => if Str.nonempty m then Some (m, after) else None
    | _ => None
    end
  else None.

(** [url.match(/\/models\/([^:]+):/)]: the leftmost match, its group 1. *)
Fixpoint extractModelFromUrl (url : string) : option string :=
  match match_models_here url with
  | Some (m, _) => Some m
  | None =>
      match url with
      | String _ t => extractModelFromUrl t
      | EmptyString => None
      end
  end.

(** [url.match(/\/models\/[^:]+:(\w+)/)]: as above, and the group is the
    longest run of word units after the colon, non-empty. *)
Fixpoint extractActionFromUrl (url : string) : option string :=
  match
    match match_models_here url with
    | Some (_, after) =>
        let '(a, _) := Str.span Str.is_word after in
        if Str.nonempty a then Some a else None
    | None => None
    end
  with
  | Some a => Some a
  | None =>
      match url with
      | String _ t => extractActionFromUrl t
      | EmptyString => None
      end
  end.

Definition isGenerativeLanguageRequest (url : string) : bool :=
  Str.includes url "generativelanguage.googleapis.com".

Definition buildAntigravityUrl (baseEndpoint action : string) (streaming : bool) : string :=
  let query := if streaming then "?alt=sse" else "" in
  baseEndpoint +:+ "/" +:+ ANTIGRAVITY_API_VERSION +:+ ":" +:+ action +:+ query.

(** [ANTIGRAVITY_ENDPOINT_FALLBACKS[0]], undefined when the list is empty. *)
Definition getDefaultEndpoint : option string := head ANTIGRAVITY_ENDPOINT_FALLBACKS.

(** The copy [{ ...body }] has the properties of [body] in the same order;
    the caller's object is another one (see [Store] for the heap view). *)
Definition wrapRequestBody (body : props json) (projectId modelName : string)
  : AntigravityRequestBody :=
  let requestPayload := body in
  let requestPayload := obj_delete "model" requestPayload in
  {| project := projectId; model := modelName; request := requestPayload |}.

Definition isStreamingRequest (url : string) (body : props json) : bool :=
  let action := extractActionFromUrl url in
  if match action with
     | Some a => String.eqb a "streamGenerateContent"
     | None => false
     end
  then true
  else
    match obj_get "stream" body with
    | Some (JBool true) => true
    | _ => false
    end.

Definition transformRequest (url : string) (body : props json)
    (accessToken projectId : string) (modelName endpointOverride : option string)
  : TransformedRequest :=
  let effectiveModel :=
    or_default
      (or_else (or_else modelName (extractModelFromBody body)) (extractModelFromUrl url))
      "gemini-3-pro-preview" in
  let streaming := isStreamingRequest url body in
  let action := if streaming then "streamGenerateContent" else "generateContent" in
  let endpoint := or_else endpointOverride getDefaultEndpoint in
  let transformedUrl := buildAntigravityUrl (template endpoint) action streaming in
  let headers := buildRequestHeaders accessToken in
  let headers :=
    if streaming then obj_set "Accept" "text/event-stream" headers else headers in
  let wrappedBody := wrapRequestBody body projectId effectiveModel in
  {| tr_url := transformedUrl; tr_headers := headers;
     tr_body := wrappedBody; tr_streaming := streaming |}.

Definition addStreamingHeaders (headers : props string) : props string :=
  obj_set "Accept" "text/event-stream" headers.

End RequestTransformer.

(** ** Responses and headers *)

(** A [Headers] object: names are compared in lower case. *)
Definition Headers_get (h : gmap string string) (name : string) : option string :=
  h !! Str.lowercase name.

Definition Headers_set (h : gmap string string) (name value : string)
  : gmap string string :=
  <[Str.lowercase name := value]> h.

(** The body of a response: none at all, or a stream whose complete read
    gives a text or fails. *)
Inductive Body : Type :=
| NoBody
| Stream (content : option string).

Record Response : Type := {
  status : Z;
  statusText : string;
  headers : gmap string string;
  body : Body;
  bodyUsed : bool
}.

(** [response.ok] *)
Definition ok (r : Response) : bool := (200 <=? status r) && (status r <=? 299).

(** [await response.text()]: the text or the exception, and the response
    afterwards (its stream is then used up). *)
Definition text (r : Response) : result string * Response :=
  match body r with
  | NoBody => (Ok "", r)
  | Stream content =>
      if bodyUsed r then (Throw (Err ETypeError "Body is unusable"), r)
      else
        let r' := {| status := status r; statusText := statusText r;
                     headers := headers r; body := body r; bodyUsed := true |} in
        match content with
        | Some s => (Ok s, r')
        | None => (Throw (Err ETypeError "terminated"), r')
        end
  end.

(** [await response.clone().text()]: the response itself stays unread. *)
Definition clone_text (r : Response) : result string :=
  match body r with
  | NoBody => Ok ""
  | Stream content =>
      if bodyUsed r then Throw (Err ETypeError "Body is unusable")
      else match content with
           | Some s => Ok s
           | None => Throw (Err ETypeError "terminated")
           end
  end.

(** The statuses that forbid a body. *)
Definition null_body_status (s : Z) : bool :=
  (s =? 101) || (s =? 103) || (s =? 204) || (s =? 205) || (s =? 304).

(** [new Response(text, { status, statusText, headers })] with a string
    for the body: a status outside 200..599 is a [RangeError], a status
    that forbids a body a [TypeError]; a missing content type is filled
    in for the string. *)
Definition new_Response (text : string) (st : Z) (stText : string)
    (hs : gmap string string) : result Response :=
  if negb ((200 <=? st) && (st <=? 599)) then
    Throw (Err ERangeError "The status provided is outside the range [200, 599]")
  else if null_body_status st then
    Throw (Err ETypeError "Response with null body status cannot have body")
  else
    Ok {| status := st; statusText := stText;
          headers := match Headers_get hs "content-type" with
                     | Some _ => hs
                     | None => Headers_set hs "content-type" "text/plain;charset=UTF-8"
                     end;
          body := Stream (Some text); bodyUsed := false |}.

(** ** The response transformer ([response.ts]) *)

Record AntigravityUsageMetadata : Type := {
  cachedContentTokenCount : option number;
  totalTokenCount : option number;
  promptTokenCount : option number;
  candidatesTokenCount : option number
}.

(** [AntigravityError] of [types.ts], as [parseErrorBody] fills it. *)
Record AntigravityError : Type := {
  message : string;
  type : option string;
  code : option json
}.

Record TransformResult : Type := {
  response : Response;
  usage : option AntigravityUsageMetadata;
  retryAfterMs : option number;
  error : option AntigravityError
}.

(** [AntigravityUsage] of [types.ts], as [extractUsageFromSsePayload]
    fills it. *)
Record AntigravityUsage : Type := {
  prompt_tokens : number;
  completion_tokens : number;
  total_tokens : number
}.

(** The object [{}] of usage metadata. *)
Definition no_usage : AntigravityUsageMetadata :=
  {| cachedContentTokenCount := None; totalTokenCount := None;
     promptTokenCount := None; candidatesTokenCount := None |}.

(** [Object.keys(usage).length] *)
Definition usage_keys (u : AntigravityUsageMetadata) : nat :=
  length (omap id [cachedContentTokenCount u; totalTokenCount u;
                   promptTokenCount u; candidatesTokenCount u]).

(** A header value in a condition: absent and empty are falsy. *)
Definition present (h : option string) : bool :=
  match h with Some s => Str.nonempty s | None => false end.

(** The normalized error as the object it is. *)
Definition json_of_error (e : AntigravityError) : json :=
  JObj ([("message", JStr (message e))]
        ++ match type e with Some t => [("type", JStr t)] | None => [] end
        ++ match code e with Some c => [("code", c)] | None => [] end).

Definition RetryInfo_type : string := "type.googleapis.com/google.rpc.RetryInfo".

(** The regular expression [/^([\d.]+)s$/]: group 1 when it matches. *)
Definition match_retryDelay (s : string) : option string :=
  let '(m, rest) := Str.span (fun c => Str.is_digit c || Ascii.eqb c ".") s in
  match rest with
  | String "s" EmptyString => if Str.nonempty m then Some m else None
  | _ => None
  end.

Section ResponseTransformer.
Context {P : Platform}.
Local Open Scope result_scope.

Definition extractUsageFromHeaders (headers : gmap string string)
  : option AntigravityUsageMetadata :=
  let cached := Headers_get headers "x-antigravity-cached-content-token-count" in
  let total := Headers_get headers "x-antigravity-total-token-count" in
  let prompt := Headers_get headers "x-antigravity-prompt-token-count" in
  let candidates := Headers_get headers "x-antigravity-candidates-token-count" in
  if negb (present cached) && negb (present total) && negb (present prompt)
     && negb (present candidates)
  then None
  else
    let usage := no_usage in
    let usage :=
      if present cached then
        let parsed := parseInt10 (default "" cached) in
        if negb (Num.isNaN parsed) then
          {| cachedContentTokenCount := Some parsed;
             totalTokenCount := totalTokenCount usage;
             promptTokenCount := promptTokenCount usage;
             candidatesTokenCount := candidatesTokenCount usage |}
        else usage
      else usage in
    let usage :=
      if present total then
        let parsed := parseInt10 (default "" total) in
        if negb (Num.isNaN parsed) then
          {| cachedContentTokenCount := cachedContentTokenCount usage;
             totalTokenCount := Some parsed;
             promptTokenCount := promptTokenCount usage;
             candidatesTokenCount := candidatesTokenCount usage |}
        else usage
      else usage in
    let usage :=
      if present prompt then
        let parsed := parseInt10 (default "" prompt) in
        if negb (Num.isNaN parsed) then
          {| cachedContentTokenCount := cachedContentTokenCount usage;
             totalTokenCount := totalTokenCount usage;
             promptTokenCount := Some parsed;
             candidatesTokenCount := candidatesTokenCount usage |}
        else usage
      else usage in
    let usage :=
      if present candidates then
        let parsed := parseInt10 (default "" candidates) in
        if negb (Num.isNaN parsed) then
          {| cachedContentTokenCount := cachedContentTokenCount usage;
             totalTokenCount := totalTokenCount usage;
             promptTokenCount := promptTokenCount usage;
             candidatesTokenCount := Some parsed |}
        else usage
      else usage in
    if (0 <? usage_keys usage)%nat then Some usage else None.

(** [details.find((detail) => detail["@type"] === RetryInfo_type)]: the
    callback reads a property of every element up to the first match. *)
Fixpoint find_RetryInfo (details : list json) : result (option json) :=
  match details with
  | [] => Ok None
  | detail :: rest =>
      do ty <- get detail "@type";
      match ty with
      | Some (JStr s) =>
          if String.eqb s RetryInfo_type then Ok (Some detail) else find_RetryInfo rest
      | _ => find_RetryInfo rest
      end
  end.

(** [v?.k]: nothing is read from [undefined] or [null]. *)
Definition get_opt (v : option json) (k : string) : result (option json) :=
  match v with
  | None | Some JNull => Ok None
  | Some j => get j k
  end.

Definition extractRetryAfterMs (r : Response) (errorBody : option json)
  : result (option number) :=
  let retryAfterHeader := Headers_get (headers r) "Retry-After" in
  let fromHeader :=
    if present retryAfterHeader then
      let seconds := parseFloat (default "" retryAfterHeader) in
      if negb (Num.isNaN seconds) && Num.gt0 seconds
      then Some (Num.ceil (Num.mul seconds (Num.of_Z 1000)))
      else None
    else None in
  match fromHeader with
  | Some ms => Ok (Some ms)
  | None =>
  let retryAfterMsHeader := Headers_get (headers r) "retry-after-ms" in
  let fromMsHeader :=
    if present retryAfterMsHeader then
      let ms := parseInt10 (default "" retryAfterMsHeader) in
      if negb (Num.isNaN ms) && Num.gt0 ms then Some ms else None
    else None in
  match fromMsHeader with
  | Some ms => Ok (Some ms)
  | None =>
  match errorBody with
  | None => Ok None
  | Some errorBody =>
  if negb (truthy errorBody) then Ok None
  else
    do error <- get errorBody "error";
    do details <- get_opt error "details";
    match details with
    | Some (JArr items) =>
        do retryInfo <- find_RetryInfo items;
        do retryDelay <- get_opt retryInfo "retryDelay";
        match retryDelay with
        | Some (JStr delay) =>
            if negb (Str.nonempty delay) then Ok None
            else
              match match_retryDelay delay with
              | Some digits =>
                  let seconds := parseFloat digits in
                  if negb (Num.isNaN seconds) && Num.gt0 seconds
                  then Ok (Some (Num.ceil (Num.mul seconds (Num.of_Z 1000))))
                  else Ok None
              | None => Ok None
              end
        | _ => Ok None
        end
    | _ => Ok None
    end
  end
  end
  end.

(** [typeof v === "object"] of a truthy [v], as in [v && typeof v === "object"]. *)
Definition truthy_object (v : option json) : option json :=
  match v with
  | Some j => if truthy j && is_object_type j then Some j else None
  | None => None
  end.

(** [x ? String(x) : undefined] *)
Definition String_if_truthy (v : option json) : result (option string) :=
  match v with
  | Some j => if truthy j then do s <- ToString j; Ok (Some s) else Ok None
  | None => Ok None
  end.

Definition parseErrorBody (text : string) : option AntigravityError :=
  let attempt : result (option AntigravityError) :=
    do parsed <- JSON_parse_r text;
    do error <- get parsed "error";
    match truthy_object error with
    | Some errorObj =>
        do message <- get errorObj "message";
        do message <- String_if_truthy message;
        do type <- get errorObj "type";
        do type <- String_if_truthy type;
        do code <- get errorObj "code";
        Ok (Some {| message := default "Unknown error" message;
                    type := type;
                    code := code |})
    | None =>
        do message <- get parsed "message";
        match message with
        | Some (JStr m) =>
            if Str.nonempty m then
              do type <- get parsed "type";
              do type <- String_if_truthy type;
              do code <- get parsed "code";
              Ok (Some {| message := m; type := type; code := code |})
            else Ok None
        | _ => Ok None
        end
    end in
  match attempt with
  | Ok e => e
  | Throw _ =>
      Some {| message := if Str.nonempty text then text else "Unknown error";
              type := None; code := None |}
  end.

(** [retryMs] when it is truthy: the two headers are set on the copy. *)
Definition set_retry_headers (hs : gmap string string) (retryMs : option number)
  : gmap string string :=
  match retryMs with
  | Some ms =>
      if Num.truthy ms then
        let hs :=
          Headers_set hs "Retry-After"
            (Number_toString (Num.ceil (Num.div ms (Num.of_Z 1000)))) in
        Headers_set hs "retry-after-ms" (Number_toString ms)
      else hs
  | None => hs
  end.

(** The unwrapping of [{ response: ... }]: [parsed.response] when it is
    not [undefined], else [parsed]. *)
Definition unwrap (parsed : json) : result json :=
  do inner <- get parsed "response";
  Ok (match inner with Some v => v | None => parsed end).

Definition transformResponse (res : Response) : result TransformResult :=
  let hs := headers res in
  let usage' := extractUsageFromHeaders hs in
  if negb (ok res) then
    let '(read, res) := text res in
    do txt <- read;
    let error' := parseErrorBody txt in
    do retryAfterMs' <-
      extractRetryAfterMs res
        (match error' with
         | Some e => Some (JObj [("error", json_of_error e)])
         | None => None
         end);
    let errorBody :=
      match JSON_parse txt with
      | Some v => v
      | None => JObj [("error", JObj [("message", JStr txt)])]
      end in
    do fromBody <- extractRetryAfterMs res (Some errorBody);
    let retryMs := match fromBody with Some ms => Some ms | None => retryAfterMs' end in
    let hs := set_retry_headers hs retryMs in
    do fresh <- new_Response txt (status res) (statusText res) hs;
    Ok {| response := fresh; usage := usage'; retryAfterMs := retryMs; error := error' |}
  else
    let contentType := default "" (Headers_get (headers res) "content-type") in
    let isJson := Str.includes contentType "application/json" in
    if negb isJson then
      Ok {| response := res; usage := usage'; retryAfterMs := None; error := None |}
    else
      let '(read, res) := text res in
      try_catch
        (do txt <- read;
         do parsed <- JSON_parse_r txt;
         do transformedBody <- unwrap parsed;
         do fresh <- new_Response (JSON_stringify transformedBody)
                       (status res) (statusText res) hs;
         Ok {| response := fresh; usage := usage'; retryAfterMs := None; error := None |})
        (fun _ =>
           Ok {| response := res; usage := usage'; retryAfterMs := None; error := None |}).

Definition transformSseLine (line : string) : string :=
  if negb (Str.startsWith line "data:") then line
  else
    let json := Str.trim (Str.slice 5 line) in
    if negb (Str.nonempty json) || String.eqb json "[DONE]" then line
    else
      match
        (do parsed <- JSON_parse_r json;
         do inner <- get parsed "response";
         match inner with
         | Some v => Ok ("data: " +:+ JSON_stringify v)
         | None => Ok line
         end)
      with
      | Ok l => l
      | Throw _ => line
      end.

Definition transformStreamingPayload (payload : string) : string :=
  Str.join (String Str.LF "") (List.map transformSseLine (Str.split Str.LF payload)).

Definition transformStreamingResponse (res : Response) : result TransformResult :=
  let hs := headers res in
  let usage' := extractUsageFromHeaders hs in
  if negb (ok res) then
    let '(read, res) := text res in
    do txt <- read;
    let error' := parseErrorBody txt in
    let errorBody :=
      match JSON_parse txt with
      | Some v => v
      | None => JObj [("error", JObj [("message", JStr txt)])]
      end in
    do retryAfterMs' <- extractRetryAfterMs res (Some errorBody);
    let hs := set_retry_headers hs retryAfterMs' in
    do fresh <- new_Response txt (status res) (statusText res) hs;
    Ok {| response := fresh; usage := usage';
          retryAfterMs := retryAfterMs'; error := error' |}
  else
    let contentType := default "" (Headers_get (headers res) "content-type") in
    let isEventStream := Str.includes contentType "text/event-stream" in
    if negb isEventStream then
      let '(read, res) := text res in
      do txt <- read;
      try_catch
        (do parsed <- JSON_parse_r txt;
         do transformedBody <- unwrap parsed;
         do fresh <- new_Response (JSON_stringify transformedBody)
                       (status res) (statusText res) hs;
         Ok {| response := fresh; usage := usage'; retryAfterMs := None; error := None |})
        (fun _ =>
           do fresh <- new_Response txt (status res) (statusText res) hs;
           Ok {| response := fresh; usage := usage';
                 retryAfterMs := None; error := None |})
    else
      let '(read, res) := text res in
      try_catch
        (do txt <- read;
         let transformed := transformStreamingPayload txt in
         do fresh <- new_Response transformed (status res) (statusText res) hs;
         Ok {| response := fresh; usage := usage'; retryAfterMs := None; error := None |})
        (fun _ =>
           Ok {| response := res; usage := usage'; retryAfterMs := None; error := None |}).

Definition isStreamingResponse (res : Response) : bool :=
  let contentType := default "" (Headers_get (headers res) "content-type") in
  Str.includes contentType "text/event-stream".

(** [typeof v === "number" ? v : 0] *)
Definition number_or_zero (v : option json) : number :=
  match v with
  | Some (JNum x) => x
  | _ => Num.of_Z 0
  end.

(** The object literal that [extractUsageFromSsePayload] returns, its three
    counters read from [meta] under the given names. *)
Definition read_counters (meta : json) (prompt completion total : string)
  : result AntigravityUsage :=
  do p <- get meta prompt;
  do c <- get meta completion;
  do t <- get meta total;
  Ok {| prompt_tokens := number_or_zero p;
        completion_tokens := number_or_zero c;
        total_tokens := number_or_zero t |}.

(** The body of the loop of [extractUsageFromSsePayload] for one line:
    [Some u] is [return u], and [None] goes on with the next line, by a
    [continue], by the end of the [try] block or by its [catch]. *)
Definition usage_of_line (line : string) : option AntigravityUsage :=
  if negb (Str.startsWith line "data:") then None
  else
    let json := Str.trim (Str.slice 5 line) in
    if negb (Str.nonempty json) || String.eqb json "[DONE]" then None
    else
      match
        (do parsed <- JSON_parse_r json;
         do usageMetadata <- get parsed "usageMetadata";
         match truthy_object usageMetadata with
         | Some meta =>
             do u <- read_counters meta
                       "promptTokenCount" "candidatesTokenCount" "totalTokenCount";
             Ok (Some u)
         | None =>
             do wrapper <- get parsed "response";
             do wrapped <-
               match truthy_object wrapper with
               | Some resp =>
                   do usageMetadata <- get resp "usageMetadata";
                   match truthy_object usageMetadata with
                   | Some meta =>
                       do u <- read_counters meta
                                 "promptTokenCount" "candidatesTokenCount" "totalTokenCount";
                       Ok (Some u)
                   | None => Ok None
                   end
               | None => Ok None
               end;
             match wrapped with
             | Some u => Ok (Some u)
             | None =>
                 do openai <- get parsed "usage";
                 match truthy_object openai with
                 | Some u =>
                     do r <- read_counters u
                               "prompt_tokens" "completion_tokens" "total_tokens";
                     Ok (Some r)
                 | None => Ok None
                 end
             end
         end)
      with
      | Ok found => found
      | Throw _ => None
      end.

(** The [for] loop over the lines. *)
Fixpoint usage_of_lines (lines : list string) : option AntigravityUsage :=
  match lines with
  | [] => None
  | line :: rest =>
      match usage_of_line line with
      | Some u => Some u
      | None => usage_of_lines rest
      end
  end.

Definition extractUsageFromSsePayload (payload : string) : option AntigravityUsage :=
  usage_of_lines (Str.split Str.LF payload).

End ResponseTransformer.

(** ** The fetch interceptor ([fetch.ts]) *)

(** [Auth]: what the auth system of the host hands over. *)
Record Auth : Type := {
  access : option string;
  refresh : option string;
  expires : option Z
}.

(** [AntigravityTokens] of [types.ts]. *)
Record AntigravityTokens : Type := {
  tokens_type : string;
  access_token : string;
  refresh_token : string;
  expires_in : Z;
  timestamp : Z
}.

(** What [parseStoredToken] returns. *)
Record StoredToken : Type := {
  refreshToken : string;
  projectId : option string;
  managedProjectId : option string
}.

(** What [refreshAccessToken] resolves to. *)
Record TokenExchangeResult : Type := {
  new_access_token : string;
  new_refresh_token : string;
  new_expires_in : Z
}.

(** What [fetchProjectContext] resolves to. *)
Record ProjectContext : Type := {
  cloudaicompanionProject : option string
}.

(** [init.body]: a string, or a value used as it is. *)
Inductive InitBody : Type :=
| BodyText (s : string)
| BodyValue (v : json).

(** The fields of [RequestInit] the interceptor reads; the signal is an
    opaque token handed on to the live call. *)
Record RequestInit : Type := {
  method : option string;
  init_body : option InitBody;
  signal : option nat
}.

(** The arguments of one call of the global [fetch]. *)
Record Request : Type := {
  req_url : string;
  req_method : string;
  req_headers : props string;
  req_body : string;
  req_signal : option nat
}.

(** The modules the interceptor imports and that are not among the
    sources ([project.ts], [token.ts], [tools.ts], [thinking.ts]), the
    clock and the network.  An operation that the interceptor calls
    inside a [try] may throw; the network answers a request knowing the
    requests it has received before.  The token parser, the expiry test
    and the project lookup are called outside any [try] ([fetch.ts] 218,
    236, 277) and are taken to return: a call whose prelude throws in
    one of them is outside this model, and no statement below lists the
    exceptions of a whole call. *)
Class Collaborators : Type := {
  Date_now : Z;
  parseStoredToken : string -> StoredToken;
  isTokenExpired : AntigravityTokens -> bool;
  refreshAccessToken : string -> result TokenExchangeResult;
  formatTokenForStorage : string -> string -> option string -> string;
  fetchProjectContext : string -> ProjectContext;
  normalizeToolsForGemini : json -> result (option json);
  shouldIncludeThinking : string -> bool;
  extractThinkingBlocks : json -> result bool;
  transformResponseThinking : json -> result json;
  fetch : list Request -> Request -> result Response
}.

(** The state of one interceptor: the two variables its closure captures,
    and two ghost logs, the endpoints tried and the live calls made, in
    order. *)
Record State : Type := {
  cachedTokens : option AntigravityTokens;
  cachedProjectId : option string;
  tried : list string;
  sent : list Request
}.

Definition initial_state : State :=
  {| cachedTokens := None; cachedProjectId := None; tried := []; sent := [] |}.

(** Computations of the interceptor: a result or an exception, and the
    state afterwards. *)
Definition M (A : Type) : Type := State -> result A * State.

Definition ret {A : Type} (a : A) : M A := fun s => (Ok a, s).

Definition throw {A : Type} (e : exn) : M A := fun s => (Throw e, s).

Definition bind {A B : Type} (m : M A) (f : A -> M B) : M B :=
  fun s => match m s with
           | (Ok a, s') => f a s'
           | (Throw e, s') => (Throw e, s')
           end.

Definition lift {A : Type} (r : result A) : M A := fun s => (r, s).

(** [try { m } catch (e) { h e }] *)
Definition catch {A : Type} (m : M A) (h : exn -> M A) : M A :=
  fun s => match m s with
           | (Ok a, s') => (Ok a, s')
           | (Throw e, s') => h e s'
           end.

Definition read_state : M State := fun s => (Ok s, s).

Definition set_cachedTokens (t : AntigravityTokens) : M unit :=
  fun s => (Ok tt, {| cachedTokens := Some t; cachedProjectId := cachedProjectId s;
                     tried := tried s; sent := sent s |}).

Definition set_cachedProjectId (p : string) : M unit :=
  fun s => (Ok tt, {| cachedTokens := cachedTokens s; cachedProjectId := Some p;
                     tried := tried s; sent := sent s |}).

Definition log_tried (endpoint : string) : M unit :=
  fun s => (Ok tt, {| cachedTokens := cachedTokens s; cachedProjectId := cachedProjectId s;
                     tried := tried s ++ [endpoint]; sent := sent s |}).

Declare Scope M_scope.
Delimit Scope M_scope with M.
Notation "'do' x <- m ; k" := (bind m (fun x => k))
  (at level 10, x name, m at level 100, k at level 200) : M_scope.
Notation "'do' ' p <- m ; k" := (bind m (fun x => let 'p := x in k))
  (at level 10, p pattern, m at level 100, k at level 200) : M_scope.

(** [fetch(url, options)]: the call is logged and the network answers. *)
Definition live_fetch {W : Collaborators} (rq : Request) : M Response :=
  fun s =>
    (fetch (sent s) rq,
     {| cachedTokens := cachedTokens s; cachedProjectId := cachedProjectId s;
        tried := tried s; sent := sent s ++ [rq] |}).

(** [init.body] in a condition. *)
Definition body_truthy (b : option InitBody) : bool :=
  match b with
  | Some (BodyText s) => Str.nonempty s
  | Some (BodyValue v) => truthy v
  | None => false
  end.

(** The own enumerable properties of a value that is not [null], which is
    what a property read and the copy [{ ...v }] see: an array and a string
    have their indices, a number and a boolean have none. *)
Definition record_view (v : json) : props json :=
  match v with
  | JObj o => o
  | JArr items => imap (fun i e => (pretty i, e)) items
  | JStr s =>
      imap (fun i c => (pretty i, JStr (String c EmptyString))) (list_ascii_of_string s)
  | _ => []
  end.

(** [isRetryableError] *)
Definition isRetryableError (st : Z) : bool :=
  if st =? 0 then true
  else if st =? 429 then true
  else if (500 <=? st) && (st <? 600) then true
  else false.

Section Interceptor.
Context {P : Platform} {C : Constants} {W : Collaborators}.

(** The [body] that [attemptFetch] starts from: [{}] without an
    [init.body], the parse of a string (an unparsable one counts as [{}]),
    or the value itself. *)
Definition body_of_init (init : RequestInit) : json :=
  if body_truthy (init_body init) then
    match init_body init with
    | Some (BodyText s) =>
        match JSON_parse s with
        | Some v => v
        | None => JObj []
        end
    | Some (BodyValue v) => v
    | None => JObj []
    end
  else JObj [].

(** The first statements of [attemptFetch], up to the request it sends:
    the body is parsed, the tools are normalized in place, the request is
    transformed.  An [init.body] that is an object is that same object, so
    the normalized tools are written into it: the second component is
    [init] afterwards. *)
Definition prepareAttempt (endpoint url : string) (init : RequestInit)
    (accessToken projectId : string) (modelName : option string)
  : result (Request * RequestInit) :=
  let body : json := body_of_init init in
  (do tools <- get body "tools";
   do '(body, init) <-
     match tools, body with
     | Some (JArr items), JObj o =>
         do normalizedTools <- normalizeToolsForGemini (JArr items);
         match normalizedTools with
         | Some nt =>
             if truthy nt then
               let body' := JObj (obj_set "tools" nt o) in
               Ok (body',
                   match init_body init with
                   | Some (BodyValue _) =>
                       {| method := method init; init_body := Some (BodyValue body');
                          signal := signal init |}
                   | _ => init
                   end)
             else Ok (body, init)
         | None => Ok (body, init)
         end
     | _, _ => Ok (body, init)
     end;
   let transformed :=
     transformRequest url (record_view body) accessToken projectId modelName
       (Some endpoint) in
   Ok ({| req_url := tr_url transformed;
          req_method := or_default (method init) "POST";
          req_headers := tr_headers transformed;
          req_body := JSON_stringify (json_of_body (tr_body transformed));
          req_signal := signal init |}, init))%result.

Local Open Scope M_scope.

(** [attemptFetch]: [None] is [null], the sign to try the next endpoint.
    Whatever is thrown inside is caught. *)
Definition attemptFetch (endpoint url : string) (init : RequestInit)
    (accessToken projectId : string) (modelName : option string)
  : M (option Response * RequestInit) :=
  do _ <- log_tried endpoint;
  match prepareAttempt endpoint url init accessToken projectId modelName with
  | Throw _ => ret (None, init)
  | Ok (rq, init') =>
      catch
        (do res <- live_fetch rq;
         if negb (ok res) && isRetryableError (status res)
         then ret (None, init')
         else ret (Some res, init'))
        (fun _ => ret (None, init'))
  end.

Definition transformResponseWithThinking (res : Response) (modelName : string)
  : result Response :=
  (let streaming := isStreamingResponse res in
   do result <-
     (if streaming then transformStreamingResponse res else transformResponse res);
   if negb streaming && shouldIncludeThinking modelName then
     match
       (do txt <- clone_text (response result);
        do parsed <- JSON_parse_r txt;
        do hasThinking <- extractThinkingBlocks parsed;
        if hasThinking : bool then
          do transformed <- transformResponseThinking parsed;
          do fresh <- new_Response (JSON_stringify transformed)
                        (status (response result)) (statusText (response result))
                        (headers (response result));
          Ok (Some fresh)
        else Ok None)
     with
     | Ok (Some fresh) => Ok fresh
     | _ => Ok (response result)
     end
   else Ok (response result))%result.

(** [Math.min(ANTIGRAVITY_ENDPOINT_FALLBACKS.length, 3)] *)
Definition maxEndpoints : nat := Nat.min (length ANTIGRAVITY_ENDPOINT_FALLBACKS) 3.

(** The [for] loop over the endpoints of index below [maxEndpoints]: the
    first response that [attemptFetch] lets through ends it. *)
Fixpoint tryEndpoints (endpoints : list string) (url : string) (init : RequestInit)
    (accessToken projectId : string) (modelName : option string)
  : M (option Response) :=
  match endpoints with
  | [] => ret None
  | endpoint :: rest =>
      do '(res, init') <- attemptFetch endpoint url init accessToken projectId modelName;
      match res with
      | Some r => ret (Some r)
      | None => tryEndpoints rest url init' accessToken projectId modelName
      end
  end.

(** The body of the error response when no endpoint is left. *)
Definition all_failed_body (n : nat) : json :=
  JObj [("error",
         JObj [("message",
                JStr ("All Antigravity endpoints failed after " +:+ pretty n +:+ " attempts"));
               ("type", JStr "endpoint_failure");
               ("code", JStr "all_endpoints_failed")])].

(** The model name the interceptor reads from [init.body], if any. *)
Definition modelName_of_init (init : RequestInit) : option string :=
  if body_truthy (init_body init) then
    match
      (do body <-
         match init_body init with
         | Some (BodyText s) => JSON_parse_r s
         | Some (BodyValue v) => Ok v
         | None => Ok (JObj [])
         end;
       do m <- get body "model";
       match m with
       | Some (JStr name) => Ok (Some name)
       | _ => Ok None
       end)%result
    with
    | Ok name => name
    | Throw _ => None
    end
  else None.

(** An optional number in a condition, as [auth.expires ? a : b]. *)
Definition if_expires {A : Type} (e : option Z) (a : Z -> A) (b : A) : A :=
  match e with
  | Some t => if t =? 0 then b else a t
  | None => b
  end.

(** [createAntigravityFetch(getAuth, client, providerId)]: the function it
    returns.  [getAuth] is the outcome of [await getAuth()] and
    [client_set] is [client.set]. *)
Definition createAntigravityFetch (getAuth : result Auth)
    (client_set : string -> Auth -> result unit) (providerId : string)
    (url : string) (init : RequestInit) : M Response :=
  do auth <- lift getAuth;
  if negb (present (access auth)) || negb (present (refresh auth)) then
    throw (Err EError "Antigravity: No authentication tokens available")
  else
  let auth_access := default "" (access auth) in
  let refreshParts := parseStoredToken (default "" (refresh auth)) in
  do s <- read_state;
  let tokens :=
    match cachedTokens s with
    | None =>
        {| tokens_type := "antigravity";
           access_token := auth_access;
           refresh_token := refreshToken refreshParts;
           expires_in := if_expires (expires auth) (fun e => (e - Date_now) / 1000) 3600;
           timestamp := if_expires (expires auth) (fun e => e - 3600 * 1000) Date_now |}
    | Some c =>
        {| tokens_type := tokens_type c;
           access_token := auth_access;
           refresh_token := refreshToken refreshParts;
           expires_in := expires_in c;
           timestamp := timestamp c |}
    end in
  do _ <- set_cachedTokens tokens;
  do tokens <-
    (if isTokenExpired tokens then
       catch
         (do newTokens <- lift (refreshAccessToken (refreshToken refreshParts));
          let tokens' :=
            {| tokens_type := "antigravity";
               access_token := new_access_token newTokens;
               refresh_token := new_refresh_token newTokens;
               expires_in := new_expires_in newTokens;
               timestamp := Date_now |} in
          do _ <- set_cachedTokens tokens';
          let formattedRefresh :=
            formatTokenForStorage (new_refresh_token newTokens)
              (or_default (projectId refreshParts) "") (managedProjectId refreshParts) in
          do _ <- lift (client_set providerId
                          {| access := Some (new_access_token newTokens);
                             refresh := Some formattedRefresh;
                             expires := Some (Date_now + new_expires_in newTokens * 1000) |});
          ret tokens')
         (fun error =>
            throw (Err EError ("Antigravity: Token refresh failed: " +:+ message_of error)))
     else ret tokens);
  do s <- read_state;
  do cachedProject <-
    (if negb (present (cachedProjectId s)) then
       let projectContext := fetchProjectContext (access_token tokens) in
       let p := or_default (cloudaicompanionProject projectContext) "" in
       do _ <- set_cachedProjectId p;
       ret p
     else ret (default "" (cachedProjectId s)));
  let project_id := or_default (projectId refreshParts) cachedProject in
  let modelName := modelName_of_init init in
  do found <- tryEndpoints (take maxEndpoints ANTIGRAVITY_ENDPOINT_FALLBACKS) url init
                (access_token tokens) project_id modelName;
  match found with
  | Some res => lift (transformResponseWithThinking res (or_default modelName ""))
  | None =>
      lift (new_Response (JSON_stringify (all_failed_body maxEndpoints)) 503
              "Service Unavailable" (Headers_set ∅ "Content-Type" "application/json"))
  end.

End Interceptor.

(** ** The heap view of [wrapRequestBody]

    [wrapRequestBody] copies its argument and deletes a property of the
    copy.  Here objects live in a heap and are named by locations, so that
    the copy and the caller's object are told apart. *)

Module Store.

(** A value: a primitive, or the location of an object. *)
Inductive value : Type :=
| VUndefined
| VNull
| VBool (b : bool)
| VNum (x : number)
| VStr (s : string)
| VRef (l : positive).

(** [{ ...o }]: a new object with the properties of the object at [l] (of
    no property when [l] is not allocated). *)
Definition spread (h : gmap positive (props value)) (l : positive)
  : gmap positive (props value) * positive :=
  let l' := fresh (dom h) in
  (<[l' := default [] (h !! l)]> h, l').

(** [delete o[k]] on the object at [l]. *)
Definition delete_property (h : gmap positive (props value)) (l : positive) (k : string)
  : gmap positive (props value) :=
  alter (obj_delete k) l h.

(** An object literal. *)
Definition alloc (h : gmap positive (props value)) (o : props value)
  : gmap positive (props value) * positive :=
  let l := fresh (dom h) in (<[l := o]> h, l).

Definition wrapRequestBody (h : gmap positive (props value)) (body : positive)
    (projectId modelName : string) : gmap positive (props value) * positive :=
  let '(h, requestPayload) := spread h body in
  let h := delete_property h requestPayload "model" in
  alloc h [("project", VStr projectId); ("model", VStr modelName);
           ("request", VRef requestPayload)].

End Store.

(** ** A reference platform

    Executable versions of the five builtins, following ECMAScript, on
    strings of 8-bit units: a [\u] escape of [JSON.parse] above [00ff] is
    outside this view and makes the reference parser fail.  Numbers are
    converted in both directions with exact integer arithmetic. *)

Module Reference.

(** The value of a run of decimal digits. *)
Fixpoint digits_value_from (acc : Z) (s : string) : Z :=
  match s with
  | String c t => digits_value_from (10 * acc + (Z.of_N (N_of_ascii c) - 48)) t
  | EmptyString => acc
  end.

Definition digits_value (s : string) : Z := digits_value_from 0 s.

(** The number nearest to [m * 10^e] for [m >= 0], ties to even, with the
    given sign: one rounding of the exact product or quotient. *)
Definition decimal_to_number (neg : bool) (m e : Z) : number :=
  match m with
  | Z.pos p =>
      if 0 <=? e then binary_round Num.prec Num.emax neg (Pos.mul p (Z.to_pos (10 ^ e))) 0
      else
        let '(q, e', l) :=
          SFdiv_core_binary Num.prec Num.emax (Z.pos p) 0 (10 ^ (- e)) 0 in
        binary_round_aux Num.prec Num.emax neg q e' l
  | _ => S754_zero neg
  end.

(** An optional sign. *)
Definition take_sign (s : string) : bool * string :=
  match s with
  | String "-" t => (true, t)
  | String "+" t => (false, t)
  | _ => (false, s)
  end.

(** An exponent part [e], [e+] or [e-] followed by digits: its value and
    what follows it; a part without digits is not one. *)
Definition take_exponent (s : string) : Z * string :=
  match s with
  | String c t =>
      if Ascii.eqb c "e" || Ascii.eqb c "E" then
        let '(neg, t') := take_sign t in
        let '(ds, rest) := Str.span Str.is_digit t' in
        if Str.nonempty ds
        then ((if neg then - digits_value ds else digits_value ds), rest)
        else (0, s)
      else (0, s)
  | EmptyString => (0, s)
  end.

(** [parseFloat]: leading white space is skipped and the longest prefix
    that is a decimal literal is converted. *)
Definition ref_parseFloat (s : string) : number :=
  let '(neg, s) := take_sign (Str.trimStart s) in
  if Str.startsWith s "Infinity" then S754_infinity neg
  else
    let '(ip, r1) := Str.span Str.is_digit s in
    let '(fp, r2) :=
      match r1 with
      | String "." t => Str.span Str.is_digit t
      | _ => (EmptyString, r1)
      end in
    if negb (Str.nonempty ip) && negb (Str.nonempty fp) then S754_nan
    else
      let '(ex, _) := take_exponent r2 in
      decimal_to_number neg (digits_value (ip +:+ fp)) (ex - Z.of_nat (String.length fp)).

(** [parseInt(s, 10)] *)
Definition ref_parseInt10 (s : string) : number :=
  let '(neg, s) := take_sign (Str.trimStart s) in
  let '(ds, _) := Str.span Str.is_digit s in
  if Str.nonempty ds then decimal_to_number neg (digits_value ds) 0 else S754_nan.

(** The decimal digits of a natural number. *)
Definition digits_of (z : Z) : string := pretty (Z.to_N z).

Fixpoint zeros (n : nat) : string :=
  match n with O => EmptyString | S n' => String "0" (zeros n') end.

(** The exact value of a positive finite number, as a fraction. *)
Definition fraction_of (m : positive) (e : Z) : Z * Z :=
  if 0 <=? e then (Z.pos m * 2 ^ e, 1) else (Z.pos m, 2 ^ (- e)).

(** The [n] with [10^(n-1) <= num/den < 10^n], searched from [n] upwards
    and then downwards. *)
Fixpoint magnitude_up (fuel : nat) (num den n : Z) : Z :=
  match fuel with
  | O => n
  | S f => if den * 10 ^ n <=? num then magnitude_up f num den (n + 1) else n
  end.

Fixpoint magnitude_down (fuel : nat) (num den n : Z) : Z :=
  match fuel with
  | O => n
  | S f =>
      (* [num/den < 10^(n-1)], with the power moved to the other side when
         its exponent is negative *)
      if (if 1 <=? n then num <? den * 10 ^ (n - 1) else num * 10 ^ (1 - n) <? den)
      then magnitude_down f num den (n - 1) else n
  end.

Definition magnitude (num den : Z) : Z :=
  magnitude_down 400 num den (magnitude_up 400 num den 0).

(** The candidates with [k] digits for a number [x = num/den] of magnitude
    [n]: the multiples of [10^(n-k)] just below and just above it.  The
    result is the closer one among those that convert back to [x] (the
    even one on a tie), with its magnitude. *)
Definition candidate (x : number) (num den n : Z) (k : Z) : option (Z * Z) :=
  let scale := n - k in
  (* x / 10^scale = a / b *)
  let '(a, b) := if 0 <=? scale then (num, den * 10 ^ scale)
                 else (num * 10 ^ (- scale), den) in
  let lo := a / b in
  let hi := lo + 1 in
  let back s := SFeqb (decimal_to_number false s scale) x in
  let lo_ok := (0 <? lo) && back lo in
  let hi_ok := back hi in
  (* twice the distance of [x] to [lo], against the gap *)
  let r := a - lo * b in
  let pick_hi := if 2 * r =? b then Z.odd lo else b <? 2 * r in
  let norm s := if s =? 10 ^ k then (10 ^ (k - 1), n + 1) else (s, n) in
  if lo_ok && hi_ok then Some (norm (if pick_hi then hi else lo))
  else if lo_ok then Some (norm lo)
  else if hi_ok then Some (norm hi)
  else None.

Fixpoint shortest (fuel : nat) (x : number) (num den n : Z) (k : Z) : Z * Z * Z :=
  match fuel with
  | O => (num / den, n, k)
  | S f =>
      match candidate x num den n k with
      | Some (s, n') => (s, n', k)
      | None => shortest f x num den n (k + 1)
      end
  end.

(** The text of a positive finite number from its shortest digits [s]
    (there are [k] of them) and its magnitude [n]. *)
Definition format_number (s n k : Z) : string :=
  let ds := digits_of s in
  if (k <=? n) && (n <=? 21) then ds +:+ zeros (Z.to_nat (n - k))
  else if (0 <? n) && (n <=? 21) then
    String.substring 0 (Z.to_nat n) ds +:+ "." +:+ Str.slice (Z.to_nat n) ds
  else if (-6 <? n) && (n <=? 0) then "0." +:+ zeros (Z.to_nat (- n)) +:+ ds
  else
    let ex := n - 1 in
    let exs := (if 0 <=? ex then "+" else "-") +:+ digits_of (Z.abs ex) in
    if k =? 1 then ds +:+ "e" +:+ exs
    else String.substring 0 1 ds +:+ "." +:+ Str.slice 1 ds +:+ "e" +:+ exs.

(** [String(x)] *)
Definition ref_Number_toString (x : number) : string :=
  match x with
  | S754_nan => "NaN"
  | S754_zero _ => "0"
  | S754_infinity s => if s then "-Infinity" else "Infinity"
  | S754_finite sg m e =>
      let x' := binary_round Num.prec Num.emax false m e in
      let '(num, den) := fraction_of m e in
      let n := magnitude num den in
      let '(s, n', k) := shortest 17 x' num den n 1 in
      (if sg then "-" else "") +:+ format_number s n' k
  end.

(** *** [JSON.parse] *)

Definition QUOTE : ascii := "034"%char.

Definition is_json_space (c : ascii) : bool :=
  match c with
  | " " | "009" | "010" | "013" => true
  | _ => false
  end%char.

Fixpoint skip_ws (s : string) : string :=
  match s with
  | String c t => if is_json_space c then skip_ws t else s
  | EmptyString => EmptyString
  end.

Definition hex_value (c : ascii) : option N :=
  let n := N_of_ascii c in
  if Str.is_digit c then Some (n - 48)%N
  else if (97 <=? n)%N && (n <=? 102)%N then Some (n - 87)%N
  else if (65 <=? n)%N && (n <=? 70)%N then Some (n - 55)%N
  else None.

(** The characters of a string literal after its opening quote, and what
    follows the closing quote. *)
Fixpoint parse_chars (s : string) : option (string * string) :=
  match s with
  | EmptyString => None
  | String c t =>
      if Ascii.eqb c QUOTE then Some (EmptyString, t)
      else if Ascii.eqb c "\" then
        match t with
        | String "u" (String h1 (String h2 (String h3 (String h4 t')))) =>
            match hex_value h1, hex_value h2, hex_value h3, hex_value h4 with
            | Some 0%N, Some 0%N, Some a, Some b =>
                match parse_chars t' with
                | Some (str, rest) => Some (String (ascii_of_N (16 * a + b)) str, rest)
                | None => None
                end
            | _, _, _, _ => None
            end
        | String e t' =>
            let unescaped : option ascii :=
              if Ascii.eqb e QUOTE then Some QUOTE
              else match e with
                   | "\" => Some "\"
                   | "/" => Some "/"
                   | "b" => Some "008"
                   | "f" => Some "012"
                   | "n" => Some "010"
                   | "r" => Some "013"
                   | "t" => Some "009"
                   | _ => None
                   end%char in
            match unescaped, parse_chars t' with
            | Some a, Some (str, rest) => Some (String a str, rest)
            | _, _ => None
            end
        | EmptyString => None
        end
      else if (N_of_ascii c <? 32)%N then None
      else
        match parse_chars t with
        | Some (str, rest) => Some (String c str, rest)
        | None => None
        end
  end.

(** A number literal at the start of [s]: [-]? int frac? exp? *)
Definition parse_number (s : string) : option (number * string) :=
  let '(neg, s1) := match s with String "-" t => (true, t) | _ => (false, s) end in
  let '(ip, r1) := Str.span Str.is_digit s1 in
  let int_ok :=
    match ip with
    | EmptyString => false
    | String "0" (String _ _) => false
    | _ => true
    end in
  if negb int_ok then None
  else
    let frac : option (string * string) :=
      match r1 with
      | String "." t =>
          let '(fp, r) := Str.span Str.is_digit t in
          if Str.nonempty fp then Some (fp, r) else None
      | _ => Some (EmptyString, r1)
      end in
    match frac with
    | None => None
    | Some (fp, r2) =>
        let ex : option (Z * string) :=
          match r2 with
          | String c t =>
              if Ascii.eqb c "e" || Ascii.eqb c "E" then
                let '(eneg, t') := take_sign t in
                let '(ds, rest) := Str.span Str.is_digit t' in
                if Str.nonempty ds
                then Some ((if eneg then - digits_value ds else digits_value ds), rest)
                else None
              else Some (0, r2)
          | EmptyString => Some (0, r2)
          end in
        match ex with
        | None => None
        | Some (e, rest) =>
            Some (decimal_to_number neg (digits_value (ip +:+ fp))
                    (e - Z.of_nat (String.length fp)), rest)
        end
    end.

(** A property name that is an array index: a canonical numeric string
    below [2^32 - 1]. *)
Definition array_index (k : string) : option Z :=
  match k with
  | EmptyString => None
  | String "0" EmptyString => Some 0
  | String "0" _ => None
  | _ =>
      if forallb Str.is_digit (list_ascii_of_string k)
         && (String.length k <=? 10)%nat && (digits_value k <? 2 ^ 32 - 1)
      then Some (digits_value k) else None
  end.

(** A new property whose name is an array index goes before the names that
    are not and before the larger indices; any other new property goes
    last. *)
Fixpoint insert_property (k : string) (v : json) (o : props json) : props json :=
  match o with
  | [] => [(k, v)]
  | (k', v') :: t =>
      match array_index k, array_index k' with
      | Some i, Some i' =>
          if i <? i' then (k, v) :: o else (k', v') :: insert_property k v t
      | Some _, None => (k, v) :: o
      | None, _ => (k', v') :: insert_property k v t
      end
  end.

(** The definition of a property while an object is parsed: a name seen
    before keeps its place and takes the new value. *)
Definition define_property (k : string) (v : json) (o : props json) : props json :=
  match obj_get k o with
  | Some _ => obj_set k v o
  | None => insert_property k v o
  end.

(** A value at the start of [s] (after white space) and what follows it.
    [parse_elements] reads the elements of an array after its bracket or
    a comma, [parse_members] the members of an object; every call uses up
    one unit of fuel. *)
Fixpoint parse_value (fuel : nat) (s : string) : option (json * string) :=
  match fuel with
  | O => None
  | S f =>
      let s := skip_ws s in
      match s with
      | EmptyString => None
      | String c t =>
          if Ascii.eqb c QUOTE then
            match parse_chars t with
            | Some (str, rest) => Some (JStr str, rest)
            | None => None
            end
          else if Ascii.eqb c "[" then
            match skip_ws t with
            | String "]" rest => Some (JArr [], rest)
            | _ =>
                match parse_elements f t with
                | Some (items, rest) => Some (JArr items, rest)
                | None => None
                end
            end
          else if Ascii.eqb c "{" then
            match skip_ws t with
            | String "}" rest => Some (JObj [], rest)
            | _ =>
                match parse_members f t [] with
                | Some (fields, rest) => Some (JObj fields, rest)
                | None => None
                end
            end
          else if Str.startsWith s "null" then Some (JNull, Str.slice 4 s)
          else if Str.startsWith s "true" then Some (JBool true, Str.slice 4 s)
          else if Str.startsWith s "false" then Some (JBool false, Str.slice 5 s)
          else
            match parse_number s with
            | Some (x, rest) => Some (JNum x, rest)
            | None => None
            end
      end
  end
with parse_elements (fuel : nat) (s : string) : option (list json * string) :=
  match fuel with
  | O => None
  | S f =>
      match parse_value f s with
      | Some (v, rest) =>
          match skip_ws rest with
          | String "," rest' =>
              match parse_elements f rest' with
              | Some (vs, rest'') => Some (v :: vs, rest'')
              | None => None
              end
          | String "]" rest' => Some ([v], rest')
          | _ => None
          end
      | None => None
      end
  end
with parse_members (fuel : nat) (s : string) (acc : props json)
  : option (props json * string) :=
  match fuel with
  | O => None
  | S f =>
      match skip_ws s with
      | String c t =>
          if Ascii.eqb c QUOTE then
            match parse_chars t with
            | Some (k, rest) =>
                match skip_ws rest with
                | String ":" rest' =>
                    match parse_value f rest' with
                    | Some (v, rest'') =>
                        let acc' := define_property k v acc in
                        match skip_ws rest'' with
                        | String "," r => parse_members f r acc'
                        | String "}" r => Some (acc', r)
                        | _ => None
                        end
                    | None => None
                    end
                | _ => None
                end
            | None => None
            end
          else None
      | EmptyString => None
      end
  end.

Definition ref_JSON_parse (s : string) : option json :=
  match parse_value (2 * String.length s + 2) s with
  | Some (v, rest) =>
      match skip_ws rest with
      | EmptyString => Some v
      | _ => None
      end
  | None => None
  end.

(** *** [JSON.stringify] *)

Definition hex_digit (n : N) : ascii :=
  if (n <? 10)%N then ascii_of_N (48 + n) else ascii_of_N (87 + n).

(** One unit of a string inside its quotes. *)
Definition escape (c : ascii) : string :=
  if Ascii.eqb c QUOTE then String "\" (String QUOTE EmptyString)
  else
    match c with
    | "\"%char => "\\"
    | "008"%char => "\b"
    | "009"%char => "\t"
    | "010"%char => "\n"
    | "012"%char => "\f"
    | "013"%char => "\r"
    | _ =>
        let n := N_of_ascii c in
        if (n <? 32)%N
        then "\u00" +:+ String (hex_digit (n / 16)) (String (hex_digit (n mod 16)) EmptyString)
        else String c EmptyString
    end.

Fixpoint escape_all (s : string) : string :=
  match s with
  | EmptyString => EmptyString
  | String c t => escape c +:+ escape_all t
  end.

Definition quote (s : string) : string :=
  String QUOTE (escape_all s +:+ String QUOTE EmptyString).

Fixpoint ref_JSON_stringify (v : json) : string :=
  match v with
  | JNull => "null"
  | JBool true => "true"
  | JBool false => "false"
  | JNum x =>
      match x with
      | S754_nan | S754_infinity _ => "null"
      | _ => ref_Number_toString x
      end
  | JStr s => quote s
  | JArr items => "[" +:+ Str.join "," (List.map ref_JSON_stringify items) +:+ "]"
  | JObj fields =>
      "{" +:+ Str.join ","
                (List.map (fun kv => let '(k, e) := kv in
                                     quote k +:+ ":" +:+ ref_JSON_stringify e) fields)
      +:+ "}"
  end.

#[export] Instance platform : Platform := {
  JSON_parse := ref_JSON_parse;
  JSON_stringify := ref_JSON_stringify;
  parseFloat := ref_parseFloat;
  parseInt10 := ref_parseInt10;
  Number_toString := ref_Number_toString
}.

End Reference.

(** ** Sample worlds

    Concrete constants, collaborators and networks on the reference
    platform, used to run the interceptor. *)

Module Demo.

#[local] Existing Instance Reference.platform.

(** [s] with every apostrophe replaced by a double quote. *)
Fixpoint dq (s : string) : string :=
  match s with
  | EmptyString => EmptyString
  | String c t => String (if Ascii.eqb c "'" then Reference.QUOTE else c) (dq t)
  end.

#[export] Instance constants : Constants := {
  ANTIGRAVITY_HEADERS :=
    {| User_Agent := "google-api-nodejs-client/9.15.1";
       X_Goog_Api_Client := "google-cloud-sdk vscode_cloudshelleditor/0.1";
       Client_Metadata := "ideType=IDE_UNSPECIFIED" |};
  ANTIGRAVITY_ENDPOINT_FALLBACKS :=
    ["https://daily.example"; "https://autopush.example"; "https://prod.example"];
  ANTIGRAVITY_API_VERSION := "v1internal"
}.

(** A response of the network: a status, a content type and a text. *)
Definition answer (st : Z) (contentType txt : string) : Response :=
  {| status := st; statusText := ""; 
     headers := Headers_set ∅ "content-type" contentType;
     body := Stream (Some txt); bodyUsed := false |}.

(** A network that answers its [i]-th request with the [i]-th entry of a
    script, and fails once the script is over. *)
Definition scripted (script : list (result Response)) (history : list Request)
    (rq : Request) : result Response :=
  match script !! length history with
  | Some r => r
  | None => Throw (Err ETypeError "fetch failed")
  end.

(** Collaborators with a token that is still valid (or, with
    [expired], one that needs the given refresh and store outcomes). *)
Definition collaborators (expired : bool) (refreshed : result TokenExchangeResult)
    (net : list Request -> Request -> result Response) : Collaborators := {|
  Date_now := 1700000000000;
  parseStoredToken := fun stored =>
    {| refreshToken := stored; projectId := Some "demo-project";
       managedProjectId := None |};
  isTokenExpired := fun _ => expired;
  refreshAccessToken := fun _ => refreshed;
  formatTokenForStorage := fun token project _ => token +:+ "|" +:+ project;
  fetchProjectContext := fun _ => {| cloudaicompanionProject := Some "fetched-project" |};
  normalizeToolsForGemini := fun tools => Ok (Some tools);
  shouldIncludeThinking := fun _ => false;
  extractThinkingBlocks := fun _ => Ok false;
  transformResponseThinking := fun v => Ok v;
  fetch := net
|}.

Definition auth : Auth :=
  {| access := Some "access-1"; refresh := Some "refresh-1";
     expires := Some 1700003600000 |}.

Definition client_set_ok (providerId : string) (a : Auth) : result unit := Ok tt.

Definition init_with (b : option InitBody) : RequestInit :=
  {| method := None; init_body := b; signal := None |}.

Definition chat_url : string :=
  "https://generativelanguage.googleapis.com/v1beta/models/gemini-2.5-flash:generateContent".

(** One call of a fresh interceptor in a world with the given network. *)
Definition run (net : list Request -> Request -> result Response) (init : RequestInit)
  : result Response * State :=
  createAntigravityFetch (W := collaborators false (Throw NonError) net)
    (Ok auth) client_set_ok "google" chat_url init initial_state.

(** The body of a rate-limit error with an embedded RetryInfo detail. *)
Definition rate_limit_text : string :=
  dq "{'error':{'code':429,'message':'quota','details':[{'@type':'type.googleapis.com/google.rpc.RetryInfo','retryDelay':'5.123s'}]}}".

(** A 429 response with that body and, optionally, a [Retry-After]
    header. *)
Definition rate_limited (retryAfter : option string) : Response :=
  {| status := 429; statusText := "Too Many Requests";
     headers :=
       match retryAfter with
       | Some v => Headers_set (Headers_set ∅ "content-type" "application/json")
                     "Retry-After" v
       | None => Headers_set ∅ "content-type" "application/json"
       end;
     body := Stream (Some rate_limit_text); bodyUsed := false |}.

(** A network that gives the same outcome to every request. *)
Definition always (outcome : result Response) (history : list Request) (rq : Request)
  : result Response := outcome.

(** A world whose token is still valid, with the given network. *)
Definition world (net : list Request -> Request -> result Response) : Collaborators :=
  collaborators false (Throw NonError) net.

(** The network of the failover example: two answers of status 500, then
    a wrapped JSON answer of status 200. *)
Definition failing_twice : list Request -> Request -> result Response :=
  scripted [Ok (answer 500 "text/plain" "down"); Ok (answer 500 "text/plain" "down");
            Ok (answer 200 "application/json" (dq "{'response':{'a':1}}"))].

(** A client error whose [details] holds a [null]. *)
Definition null_detail_error : Response :=
  answer 400 "application/json" (dq "{'error':{'message':'bad request','details':[null]}}").

(** A client error whose body cannot be read to its end. *)
Definition unreadable_error : Response :=
  {| status := 400; statusText := "Bad Request";
     headers := Headers_set ∅ "content-type" "application/json";
     body := Stream None; bodyUsed := false |}.

(** The collaborators [w] with other thinking routines: thinking is
    included for every model, every body has thinking blocks, and the
    rewrite files the body under [content]. *)
Definition thinking (w : Collaborators) : Collaborators := {|
  Date_now := @Date_now w;
  parseStoredToken := @parseStoredToken w;
  isTokenExpired := @isTokenExpired w;
  refreshAccessToken := @refreshAccessToken w;
  formatTokenForStorage := @formatTokenForStorage w;
  fetchProjectContext := @fetchProjectContext w;
  normalizeToolsForGemini := @normalizeToolsForGemini w;
  shouldIncludeThinking := fun _ => true;
  extractThinkingBlocks := fun _ => Ok true;
  transformResponseThinking := fun v => Ok (JObj [("content", v)]);
  fetch := @fetch w
|}.

(** The collaborators [w] with a tool normalizer that puts the tools it
    is given into one declaration group. *)
Definition grouping_tools (w : Collaborators) : Collaborators := {|
  Date_now := @Date_now w;
  parseStoredToken := @parseStoredToken w;
  isTokenExpired := @isTokenExpired w;
  refreshAccessToken := @refreshAccessToken w;
  formatTokenForStorage := @formatTokenForStorage w;
  fetchProjectContext := @fetchProjectContext w;
  normalizeToolsForGemini :=
    fun tools => Ok (Some (JArr [JObj [("functionDeclarations", tools)]]));
  shouldIncludeThinking := @shouldIncludeThinking w;
  extractThinkingBlocks := @extractThinkingBlocks w;
  transformResponseThinking := @transformResponseThinking w;
  fetch := @fetch w
|}.

(** A wrapped JSON answer and what is inside the wrapper. *)
Definition wrapped_text : string := dq "{'response':{'text':'hello'}}".

Definition wrapped_value : json :=
  JObj [("response", JObj [("text", JStr "hello")])].

(** An event stream of two events, the first one wrapped. *)
Definition sse_text : string :=
  dq "data: {'response':{'text':'hel'}}" +:+ String Str.LF (String Str.LF
    ("data: [DONE]" +:+ String Str.LF EmptyString)).

(** A body object with a model, a flag and one tool. *)
Definition body_with_tools : props json :=
  [("model", JStr "gemini-2.5-pro"); ("stream", JBool true);
   ("tools", JArr [JObj [("name", JStr "search")]])].

(** The outcome of a refresh. *)
Definition renewed : TokenExchangeResult :=
  {| new_access_token := "access-2"; new_refresh_token := "refresh-2";
     new_expires_in := 3600 |}.

(** A store that is out of order. *)
Definition client_set_failing (providerId : string) (a : Auth) : result unit :=
  Throw (Err EError "disk full").

(** A rate-limit error whose first RetryInfo entry has a delay that is
    not of the form [<number>s], before one that is. *)
Definition shadowed_retry_text : string :=
  dq "{'error':{'code':429,'message':'quota','details':[{'@type':'type.googleapis.com/google.rpc.RetryInfo','retryDelay':'soon'},{'@type':'type.googleapis.com/google.rpc.RetryInfo','retryDelay':'5s'}]}}".

Definition shadowed_retry_info : Response :=
  answer 429 "application/json" shadowed_retry_text.

(** A rate-limit error whose delay has two dots. *)
Definition dotted_retry_info : Response :=
  answer 429 "application/json"
    (dq "{'error':{'details':[{'@type':'type.googleapis.com/google.rpc.RetryInfo','retryDelay':'1.2.3s'}]}}").
End Demo.

(** ** The statements of the specification, as definitions *)

Section Specification.
Context {P : Platform}.

(** A usage header that is present and numeric: its number. *)
Definition usage_field (hs : gmap string string) (name : string) : option number :=
  match Headers_get hs name with
  | Some v =>
      if Str.nonempty v && negb (Num.isNaN (parseInt10 v)) then Some (parseInt10 v)
      else None
  | None => None
  end.

(** The first of the candidates that is a non-empty string, else the
    fallback. *)
Fixpoint first_nonempty (candidates : list (option string)) (fallback : string) : string :=
  match candidates with
  | [] => fallback
  | Some s :: rest => if Str.nonempty s then s else first_nonempty rest fallback
  | None :: rest => first_nonempty rest fallback
  end.

(** [v.k] where it cannot throw: the property of an object, [undefined]
    on any other value. *)
Definition field (v : json) (k : string) : option json :=
  match v with
  | JObj o => obj_get k o
  | _ => None
  end.

(** A value that [String] converts: no object with a [toString] property
    of its own is met, in the value or in the arrays it is made of. *)
Fixpoint convertible (v : json) : bool :=
  match v with
  | JObj o => match obj_get "toString" o with Some _ => false | None => true end
  | JArr items => forallb convertible items
  | _ => true
  end.

(** The error made of the raw text. *)
Definition raw_text_error (text : string) : AntigravityError :=
  {| message := if Str.nonempty text then text else "Unknown error";
     type := None; code := None |}.

(** The payload of an SSE [data:] line: what follows the five units of
    the field name, trimmed; no payload on any other line. *)
Definition data_payload (line : string) : option string :=
  if Str.startsWith line "data:" then Some (Str.trim (Str.slice 5 line)) else None.

(** A number of seconds as milliseconds, rounded up; only a positive
    number counts. *)
Definition seconds_to_ms (seconds : number) : option number :=
  if negb (Num.isNaN seconds) && Num.gt0 seconds
  then Some (Num.ceil (Num.mul seconds (Num.of_Z 1000)))
  else None.

(** Source (a): the standard [Retry-After] header, parsed as seconds. *)
Definition hit_Retry_After (hs : gmap string string) : option number :=
  match Headers_get hs "Retry-After" with
  | Some v => if Str.nonempty v then seconds_to_ms (parseFloat v) else None
  | None => None
  end.

(** Source (b): the [retry-after-ms] header, parsed as integer
    milliseconds. *)
Definition hit_retry_after_ms (hs : gmap string string) : option number :=
  match Headers_get hs "retry-after-ms" with
  | Some v =>
      if Str.nonempty v && negb (Num.isNaN (parseInt10 v)) && Num.gt0 (parseInt10 v)
      then Some (parseInt10 v) else None
  | None => None
  end.

(** An entry of [error.details] whose [@type] is the RetryInfo type URL. *)
Definition is_RetryInfo (detail : json) : bool :=
  match field detail "@type" with
  | Some (JStr t) => String.eqb t RetryInfo_type
  | _ => false
  end.

(** Source (c): the RetryInfo entry of [error.details], when its
    [retryDelay] is a string of the form [<number>s]. *)
Definition hit_RetryInfo (errorBody : json) : option number :=
  match field errorBody "error" with
  | Some error =>
      match field error "details" with
      | Some (JArr details) =>
          match List.find is_RetryInfo details with
          | Some entry =>
              match field entry "retryDelay" with
              | Some (JStr delay) =>
                  match match_retryDelay delay with
                  | Some digits => seconds_to_ms (parseFloat digits)
                  | None => None
                  end
              | _ => None
              end
          | None => None
          end
      | _ => None
      end
  | None => None
  end.

(** The first source that hits, in the order (a), (b), (c). *)
Definition first_hit (a b c : option number) : option number :=
  match a with
  | Some _ => a
  | None => match b with Some _ => b | None => c end
  end.

(** The entries of [details] up to its RetryInfo entry are values whose
    properties can be read: none of them is [null]. *)
Fixpoint readable_details (details : list json) : bool :=
  match details with
  | [] => true
  | JNull :: _ => false
  | d :: rest => is_RetryInfo d || readable_details rest
  end.

Definition readable_body (errorBody : json) : bool :=
  match field errorBody "error" with
  | Some error =>
      match field error "details" with
      | Some (JArr details) => readable_details details
      | _ => true
      end
  | None => true
  end.

(** The error body [transformResponse] hands to the extraction: the
    parsed text, or [{error: {message: text}}] when it does not parse. *)
Definition errorBody_of (txt : string) : json :=
  match JSON_parse txt with
  | Some v => v
  | None => JObj [("error", JObj [("message", JStr txt)])]
  end.

(** Every unit of a string passes a test. *)
Fixpoint all_units (p : ascii -> bool) (s : string) : bool :=
  match s with
  | EmptyString => true
  | String c t => p c && all_units p t
  end.

(** A string without a newline. *)
Definition single_line (s : string) : bool :=
  all_units (fun c => negb (Ascii.eqb c Str.LF)) s.

(** A value that holds properties and counts as true: an object or an
    array. *)
Definition container (v : option json) : option json :=
  match v with
  | Some (JObj o) => Some (JObj o)
  | Some (JArr items) => Some (JArr items)
  | _ => None
  end.

(** The three counters of a usage object; one that is missing or not a
    number reads as 0. *)
Definition counters (meta : json) (prompt completion total : string) : AntigravityUsage :=
  {| prompt_tokens := number_or_zero (field meta prompt);
     completion_tokens := number_or_zero (field meta completion);
     total_tokens := number_or_zero (field meta total) |}.

(** The usage an SSE event carries: its [usageMetadata], or else the
    [usageMetadata] of its [response], or else its [usage]. *)
Definition event_usage (event : json) : option AntigravityUsage :=
  match container (field event "usageMetadata") with
  | Some meta =>
      Some (counters meta "promptTokenCount" "candidatesTokenCount" "totalTokenCount")
  | None =>
      match
        match container (field event "response") with
        | Some wrapper => container (field wrapper "usageMetadata")
        | None => None
        end
      with
      | Some meta =>
          Some (counters meta "promptTokenCount" "candidatesTokenCount" "totalTokenCount")
      | None =>
          match container (field event "usage") with
          | Some u => Some (counters u "prompt_tokens" "completion_tokens" "total_tokens")
          | None => None
          end
      end
  end.

(** The usage a line carries: that of the event its [data:] payload parses
    to, a payload that is empty or [[DONE]] carrying none. *)
Definition line_usage (line : string) : option AntigravityUsage :=
  match data_payload line with
  | Some payload =>
      if Str.nonempty payload && negb (String.eqb payload "[DONE]") then
        match JSON_parse payload with
        | Some event => event_usage event
        | None => None
        end
      else None
  | None => None
  end.

(** The body a JSON response is rewritten to: the [response] field of the
    parsed value when it has one, else the parsed value. *)
Definition unwrapped (parsed : json) : json :=
  default parsed (field parsed "response").

(** The rewrite of a successful JSON body cannot be completed: the body
    cannot be read to its end, is not JSON or is [null], or the status
    forbids a body. *)
Definition rewrite_fails (st : Z) (read : result string) : bool :=
  match read with
  | Throw _ => true
  | Ok txt =>
      match JSON_parse txt with
      | None | Some JNull => true
      | Some _ => null_body_status st
      end
  end.

(** The response with its body read. *)
Definition consumed (r : Response) : Response :=
  {| status := status r; statusText := statusText r; headers := headers r;
     body := body r; bodyUsed := true |}.

(** The headers of a response made from a string: a content type is filled
    in when there is none. *)
Definition with_content_type (hs : gmap string string) : gmap string string :=
  match Headers_get hs "content-type" with
  | Some _ => hs
  | None => Headers_set hs "content-type" "text/plain;charset=UTF-8"
  end.

(** A line of an event stream that carries no event: anything but a
    [data:] line, or a [data:] line whose payload is empty or [[DONE]]. *)
Definition control_line (line : string) : bool :=
  match data_payload line with
  | Some payload => negb (Str.nonempty payload) || String.eqb payload "[DONE]"
  | None => true
  end.

(** The URL has a model segment after [before]: it goes on with
    [/models/], a non-empty [model] without a colon, and a colon. *)
Definition model_segment (url before model : string) : Prop :=
  exists after,
    url = before +:+ "/models/" +:+ model +:+ ":" +:+ after
    /\ model <> EmptyString /\ all_units Str.not_colon model = true.

(** A digit or a dot. *)
Definition digit_or_dot (c : ascii) : bool :=
  existsb (Ascii.eqb c) (list_ascii_of_string "0123456789.").

(** The form [<number>s] of a delay: a run of digits and dots that is
    not empty, then [s] and nothing more.  The run, when the delay has
    the form. *)
Definition seconds_text (delay : string) : option string :=
  let run := substring 0 (String.length delay - 1) delay in
  if String.eqb delay (run +:+ "s") && negb (String.eqb run "")
     && all_units digit_or_dot run
  then Some run else None.

(** The entries of [error.details] of an error body; none when
    [details] is not an array. *)
Definition details_of (errorBody : json) : list json :=
  match field errorBody "error" with
  | Some error =>
      match field error "details" with
      | Some (JArr details) => details
      | _ => []
      end
  | None => []
  end.

(** The seconds an entry of [details] names: the run of its
    [retryDelay], when that is a string of the form [<number>s]. *)
Definition delay_text (entry : json) : option string :=
  match field entry "retryDelay" with
  | Some (JStr delay) => seconds_text delay
  | _ => None
  end.

(** The delay of an entry in milliseconds, rounded up. *)
Definition delay_ms (entry : json) : option number :=
  match delay_text entry with
  | Some run => seconds_to_ms (parseFloat run)
  | None => None
  end.

(** Source (c) as the code has it: the first entry of [error.details]
    whose [@type] is the RetryInfo type URL decides, whatever its
    [retryDelay] is; no later entry is looked at. *)
Definition first_RetryInfo_ms (errorBody : json) : option number :=
  match List.filter is_RetryInfo (details_of errorBody) with
  | entry :: _ => delay_ms entry
  | [] => None
  end.

(** Source (c) as the specification words it: an entry of
    [error.details] whose [@type] is the RetryInfo type URL and whose
    [retryDelay] has the form [<number>s]. *)
Definition claimed_RetryInfo_ms (errorBody : json) : option number :=
  match List.filter (fun entry => is_RetryInfo entry && bool_decide (is_Some (delay_text entry)))
          (details_of errorBody) with
  | entry :: _ => delay_ms entry
  | [] => None
  end.

(** A number of the binary64 format. *)
Definition binary64 (x : number) : bool := valid_binary Num.prec Num.emax x.

(** The numbers [parseFloat] gives for the texts that are read as
    seconds on a response: the [Retry-After] header and the delay of the
    first RetryInfo entry. *)
Definition seconds_read (hs : gmap string string) (errorBody : json) : list number :=
  match Headers_get hs "Retry-After" with
  | Some v => [parseFloat v]
  | None => []
  end
  ++ match List.filter is_RetryInfo (details_of errorBody) with
     | entry :: _ =>
         match delay_text entry with
         | Some run => [parseFloat run]
         | None => []
         end
     | [] => []
     end.

(** No source of the headers hits. *)
Definition headers_miss (hs : gmap string string) : bool :=
  match hit_Retry_After hs, hit_retry_after_ms hs with
  | None, None => true
  | _, _ => false
  end.

(** A positive number. *)
Definition positive_number (x : number) : Prop :=
  x = S754_infinity false \/ exists m e, x = S754_finite false m e.

End Specification.

Section InterceptorSpecification.
Context {P : Platform} {C : Constants} {W : Collaborators}.

(** The auth credentials are present: access and refresh both non-empty. *)
Definition credentials_present (getAuth : result Auth) : Prop :=
  exists auth,
    getAuth = Ok auth /\ present (access auth) = true /\ present (refresh auth) = true.

(** The refresh step does not fail: the token is not expired, or the
    refresh routine and the credential store both succeed. *)
Definition refresh_step_succeeds (client_set : string -> Auth -> result unit)
    (providerId : string) : Prop :=
  (forall tokens, isTokenExpired tokens = false)
  \/ ((forall token, exists renewed, refreshAccessToken token = Ok renewed)
      /\ forall a, client_set providerId a = Ok tt).

(** The outcome of a live call sends the loop to the next endpoint: no
    response at all, or a response whose status is retryable. *)
Definition retryable_outcome (o : result Response) : bool :=
  match o with
  | Throw _ => true
  | Ok r => isRetryableError (status r)
  end.

(** The state after more endpoints were tried and more requests sent. *)
Definition logged (s : State) (endpoints : list string) (requests : list Request) : State :=
  {| cachedTokens := cachedTokens s; cachedProjectId := cachedProjectId s;
     tried := tried s ++ endpoints; sent := sent s ++ requests |}.

(** The end of a call, from the outcome of the loop: the response that
    was let through is transformed, and no response gives the 503. *)
Definition finish_call (modelName : option string)
    (run : result (option Response) * State) : result Response * State :=
  match run with
  | (Ok (Some res), s') =>
      (transformResponseWithThinking res (or_default modelName ""), s')
  | (Ok None, s') =>
      (new_Response (JSON_stringify (all_failed_body maxEndpoints)) 503
         "Service Unavailable" (Headers_set ∅ "Content-Type" "application/json"), s')
  | (Throw e, s') => (Throw e, s')
  end.

(** The requests of the caller can be built: normalizing tools does not
    throw and the body is not [null]. *)
Definition tools_normalize : Prop :=
  forall tools, exists normalized, normalizeToolsForGemini tools = Ok normalized.

(** The token state a call works with before it looks at the expiry: the
    one built from the credentials when nothing is cached, else the cached
    one with the two tokens of the credentials written into it. *)
Definition starting_tokens (auth : Auth) (s : State) : AntigravityTokens :=
  match cachedTokens s with
  | None =>
      {| tokens_type := "antigravity";
         access_token := default "" (access auth);
         refresh_token := refreshToken (parseStoredToken (default "" (refresh auth)));
         expires_in := if_expires (expires auth) (fun e => (e - Date_now) / 1000) 3600;
         timestamp := if_expires (expires auth) (fun e => e - 3600 * 1000) Date_now |}
  | Some c =>
      {| tokens_type := tokens_type c;
         access_token := default "" (access auth);
         refresh_token := refreshToken (parseStoredToken (default "" (refresh auth)));
         expires_in := expires_in c;
         timestamp := timestamp c |}
  end.

(** The token state made of the outcome of a refresh. *)
Definition renewed_tokens (renewed : TokenExchangeResult) : AntigravityTokens :=
  {| tokens_type := "antigravity";
     access_token := new_access_token renewed;
     refresh_token := new_refresh_token renewed;
     expires_in := new_expires_in renewed;
     timestamp := Date_now |}.

(** The credentials handed to the store after a refresh. *)
Definition stored_auth (auth : Auth) (renewed : TokenExchangeResult) : Auth :=
  let parts := parseStoredToken (default "" (refresh auth)) in
  {| access := Some (new_access_token renewed);
     refresh := Some (formatTokenForStorage (new_refresh_token renewed)
                        (or_default (projectId parts) "") (managedProjectId parts));
     expires := Some (Date_now + new_expires_in renewed * 1000) |}.

(** The state with another token state cached. *)
Definition with_tokens (s : State) (t : AntigravityTokens) : State :=
  {| cachedTokens := Some t; cachedProjectId := cachedProjectId s;
     tried := tried s; sent := sent s |}.

(** The project id of a call made with the given access token: the one
    of the stored refresh token, else the cached one, else the one of the
    project context, else the empty string. *)
Definition project_of_call (auth : Auth) (s : State) (accessToken : string) : string :=
  first_nonempty
    [projectId (parseStoredToken (default "" (refresh auth)));
     cachedProjectId s;
     cloudaicompanionProject (fetchProjectContext accessToken)] "".

(** The project id cached once a call has looked for one. *)
Definition project_cached (s : State) (accessToken : string) : option string :=
  if present (cachedProjectId s) then cachedProjectId s
  else Some (or_default (cloudaicompanionProject (fetchProjectContext accessToken)) "").

(** The state in which a call enters the loop over the endpoints. *)
Definition entering_loop (s : State) (t : AntigravityTokens) : State :=
  {| cachedTokens := Some t; cachedProjectId := project_cached s (access_token t);
     tried := tried s; sent := sent s |}.

(** The error of a failed refresh step. *)
Definition refresh_failure (cause : exn) : exn :=
  Err EError ("Antigravity: Token refresh failed: " +:+ message_of cause).

(** The token state a call sends its requests with, when it gets that
    far: the starting one, or the renewed one when the starting one is
    expired and the refresh step succeeds. *)
Definition tokens_of_call (client_set : string -> Auth -> result unit)
    (providerId : string) (auth : Auth) (s : State) : option AntigravityTokens :=
  if negb (present (access auth)) || negb (present (refresh auth)) then None
  else if isTokenExpired (starting_tokens auth s) then
    match refreshAccessToken (refreshToken (parseStoredToken (default "" (refresh auth)))) with
    | Ok renewed =>
        match client_set providerId (stored_auth auth renewed) with
        | Ok _ => Some (renewed_tokens renewed)
        | Throw _ => None
        end
    | Throw _ => None
    end
  else Some (starting_tokens auth s).

(** The data of [init] that one attempt hands on to the next: the method,
    the signal, and every field of the body but [tools]. *)
Definition same_request_data (init init' : RequestInit) : Prop :=
  method init' = method init /\ signal init' = signal init
  /\ forall k, k <> "tools" ->
       obj_get k (record_view (body_of_init init'))
       = obj_get k (record_view (body_of_init init)).

(** Where the request for [endpoint] goes: to [endpoint], or to the default
    endpoint when [endpoint] is the empty string. *)
Definition endpoint_used (endpoint : string) : string :=
  if Str.nonempty endpoint then endpoint else template getDefaultEndpoint.

(** The request of one attempt at [endpoint]. *)
Definition request_for (url : string) (init : RequestInit) (accessToken project_id : string)
    (modelName : option string) (endpoint : string) (rq : Request) : Prop :=
  let body := record_view (body_of_init init) in
  let streaming := isStreamingRequest url body in
  req_url rq
  = buildAntigravityUrl (endpoint_used endpoint)
      (if streaming then "streamGenerateContent" else "generateContent") streaming
  /\ req_method rq = or_default (method init) "POST"
  /\ req_headers rq
     = (if streaming then addStreamingHeaders (buildRequestHeaders accessToken)
        else buildRequestHeaders accessToken)
  /\ req_signal rq = signal init
  /\ exists payload,
       req_body rq
       = JSON_stringify
           (JObj [("project", JStr project_id);
                  ("model",
                   JStr (first_nonempty
                           [modelName; extractModelFromBody body; extractModelFromUrl url]
                           "gemini-3-pro-preview"));
                  ("request", JObj payload)])
       /\ obj_get "model" payload = None
       /\ forall k, k <> "model" -> k <> "tools" -> obj_get k payload = obj_get k body.

End InterceptorSpecification.

(** * Properties *)

(** ** Usage headers *)

Section UsageHeaders.
Context {P : Platform}.

Lemma usage_field_absent (hs : gmap string string) (name : string) :
  Headers_get hs name = None -> usage_field hs name = None.
Proof. intros E. unfold usage_field. now rewrite E. Qed.

(** C9.  Usage extraction from the four [x-antigravity-*-token-count]
    headers: when all four are absent the result is [undefined]; in every
    case the result is [undefined] when no header is present and numeric,
    and otherwise the object that has exactly the fields whose headers
    are present and parse as integers. *)
Theorem extractUsageFromHeaders_spec (hs : gmap string string) :
  let cached := usage_field hs "x-antigravity-cached-content-token-count" in
  let total := usage_field hs "x-antigravity-total-token-count" in
  let prompt := usage_field hs "x-antigravity-prompt-token-count" in
  let candidates := usage_field hs "x-antigravity-candidates-token-count" in
  (Headers_get hs "x-antigravity-cached-content-token-count" = None /\
   Headers_get hs "x-antigravity-total-token-count" = None /\
   Headers_get hs "x-antigravity-prompt-token-count" = None /\
   Headers_get hs "x-antigravity-candidates-token-count" = None ->
   extractUsageFromHeaders hs = None)
  /\
  extractUsageFromHeaders hs =
    match cached, total, prompt, candidates with
    | None, None, None, None => None
    | _, _, _, _ =>
        Some {| cachedContentTokenCount := cached; totalTokenCount := total;
                promptTokenCount := prompt; candidatesTokenCount := candidates |}
    end.
Proof.
  cbv zeta. unfold extractUsageFromHeaders, usage_field.
  split.
  - intros (-> & -> & -> & ->). reflexivity.
  - destruct (Headers_get hs "x-antigravity-cached-content-token-count") as [c|];
    destruct (Headers_get hs "x-antigravity-total-token-count") as [t|];
    destruct (Headers_get hs "x-antigravity-prompt-token-count") as [p|];
    destruct (Headers_get hs "x-antigravity-candidates-token-count") as [d|];
    cbn;
    repeat (match goal with
            | |- context [Str.nonempty ?s] => destruct (Str.nonempty s)
            | |- context [Num.isNaN ?x] => destruct (Num.isNaN x)
            end; cbn);
    reflexivity.
Qed.

End UsageHeaders.

(** ** Strings: the facts the properties need *)

Section StringFacts.

Lemma nonempty_true (s : string) : Str.nonempty s = true <-> s <> EmptyString.
Proof. destruct s; cbn; split; congruence. Qed.

Lemma nonempty_false (s : string) : Str.nonempty s = false <-> s = EmptyString.
Proof. destruct s; cbn; split; congruence. Qed.

Lemma append_nil (s : string) : EmptyString +:+ s = s.
Proof. reflexivity. Qed.

Lemma append_cons (c : ascii) (a b : string) : String c a +:+ b = String c (a +:+ b).
Proof. reflexivity. Qed.

Lemma append_assoc (a b c : string) : (a +:+ b) +:+ c = a +:+ (b +:+ c).
Proof.
  induction a as [|x a IH]; [reflexivity|].
  rewrite !append_cons. now rewrite IH.
Qed.

Lemma append_empty_r (a : string) : a +:+ EmptyString = a.
Proof.
  induction a as [|x a IH]; [reflexivity|].
  rewrite append_cons. now rewrite IH.
Qed.

(** [span] cuts its argument in two; the first part satisfies the test
    everywhere and the second does not start with a unit that does. *)
Lemma span_append (p : ascii -> bool) (s a b : string) :
  Str.span p s = (a, b) -> s = a +:+ b.
Proof.
  revert a b. induction s as [|c s IH]; cbn; intros a b E.
  - now inversion E.
  - destruct (p c).
    + destruct (Str.span p s) as [a' b'] eqn:E'. inversion E; subst.
      rewrite append_cons. f_equal. now apply IH.
    + now inversion E.
Qed.

Lemma span_all (p : ascii -> bool) (s a b : string) :
  Str.span p s = (a, b) -> all_units p a = true.
Proof.
  revert a b. induction s as [|c s IH]; cbn; intros a b E.
  - now inversion E.
  - destruct (p c) eqn:Ec.
    + destruct (Str.span p s) as [a' b'] eqn:E'. inversion E; subst.
      cbn. rewrite Ec. cbn. eapply IH. reflexivity.
    + now inversion E.
Qed.

(** A run that satisfies the test, followed by a unit that does not, is
    what [span] cuts off. *)
Lemma span_run (p : ascii -> bool) (a : string) (c : ascii) (rest : string) :
  all_units p a = true -> p c = false ->
  Str.span p (a +:+ String c rest) = (a, String c rest).
Proof.
  intros Ha Hc. induction a as [|x a IH].
  - rewrite append_nil. cbn. now rewrite Hc.
  - cbn in Ha. apply andb_true_iff in Ha as [Hx Ha].
    rewrite append_cons. cbn. rewrite Hx, (IH Ha). reflexivity.
Qed.

Lemma prefix_append (p s : string) : String.prefix p (p +:+ s) = true.
Proof.
  induction p as [|c p IH].
  - rewrite append_nil. now destruct s.
  - rewrite append_cons. cbn. destruct (ascii_dec c c); [exact IH | congruence].
Qed.

Lemma prefix_split (p s : string) :
  String.prefix p s = true -> s = p +:+ Str.slice (String.length p) s.
Proof.
  revert s. induction p as [|c p IH]; intros s E.
  - reflexivity.
  - destruct s as [|d s]; cbn in E; [discriminate|].
    destruct (ascii_dec c d); [subst | discriminate].
    cbn [String.length Str.slice]. rewrite append_cons. f_equal. now apply IH.
Qed.

End StringFacts.

(** ** Model resolution *)

Section ModelResolution.
Context {C : Constants}.

Lemma match_models_here_sound (s m after : string) :
  match_models_here s = Some (m, after) ->
  s = "/models/" +:+ m +:+ ":" +:+ after
  /\ m <> EmptyString /\ all_units Str.not_colon m = true.
Proof.
  unfold match_models_here, Str.startsWith.
  destruct (String.prefix "/models/" s) eqn:Hp; [|discriminate].
  apply prefix_split in Hp. cbn [String.length] in Hp.
  destruct (Str.span Str.not_colon (Str.slice 8 s)) as [a b] eqn:Hs.
  destruct b as [|c b]; [discriminate|].
  destruct (Ascii.eqb_spec c ":"%char) as [->|Hc].
  - destruct (Str.nonempty a) eqn:Hn; [|discriminate].
    intros E. inversion E; subst. split; [|split].
    + rewrite Hp at 1. f_equal. apply span_append in Hs. exact Hs.
    + now apply nonempty_true.
    + eapply span_all. exact Hs.
  - intros E. exfalso.
    destruct c as [[] [] [] [] [] [] [] []]; try discriminate E.
    now apply Hc.
Qed.

Lemma match_models_here_complete (m rest : string) :
  m <> EmptyString -> all_units Str.not_colon m = true ->
  match_models_here ("/models/" +:+ m +:+ ":" +:+ rest) = Some (m, rest).
Proof.
  intros Hm Hall. unfold match_models_here, Str.startsWith.
  rewrite prefix_append.
  change (Str.slice 8 ("/models/" +:+ m +:+ ":" +:+ rest)) with (m +:+ String ":" rest).
  rewrite span_run by (assumption || reflexivity).
  apply nonempty_true in Hm. now rewrite Hm.
Qed.

(** What [extractModelFromUrl] returns is the model segment of an
    occurrence of [/models/{model}:] in the URL. *)
Lemma extractModelFromUrl_sound (url m : string) :
  extractModelFromUrl url = Some m ->
  exists before after,
    url = before +:+ "/models/" +:+ m +:+ ":" +:+ after
    /\ m <> EmptyString /\ all_units Str.not_colon m = true.
Proof.
  induction url as [|c url IH]; cbn [extractModelFromUrl].
  - destruct (match_models_here EmptyString) as [[m' a]|] eqn:E; [|discriminate].
    intros [= ->]. exists EmptyString, a. now apply match_models_here_sound.
  - destruct (match_models_here (String c url)) as [[m' a]|] eqn:E.
    + intros [= ->]. exists EmptyString, a. now apply match_models_here_sound.
    + intros Hm. destruct (IH Hm) as (b & a & -> & H1 & H2).
      exists (String c b), a. auto.
Qed.

(** A URL that contains [/models/{model}:] has a model segment. *)
Lemma extractModelFromUrl_complete (before m after : string) :
  m <> EmptyString -> all_units Str.not_colon m = true ->
  exists m', extractModelFromUrl (before +:+ "/models/" +:+ m +:+ ":" +:+ after) = Some m'.
Proof.
  intros Hm Hall. induction before as [|c before IH].
  - exists m. change (EmptyString +:+ ?x) with x.
    pose proof (match_models_here_complete m after Hm Hall) as E.
    destruct ("/models/" +:+ m +:+ ":" +:+ after) eqn:Eu;
      cbn [extractModelFromUrl]; now rewrite E.
  - change (String c before +:+ ?x) with (String c (before +:+ x)).
    cbn [extractModelFromUrl].
    destruct (match_models_here (String c (before +:+ "/models/" +:+ m +:+ ":" +:+ after)))
      as [[m' a]|]; [now exists m' | exact IH].
Qed.

Lemma or_chain_first_nonempty (a b c : option string) (d : string) :
  or_default (or_else (or_else a b) c) d = first_nonempty [a; b; c] d.
Proof.
  unfold or_default, or_else.
  destruct a as [x|], b as [y|], c as [z|]; cbn;
    repeat (match goal with
            | |- context [Str.nonempty ?s] =>
                let E := fresh "E" in destruct (Str.nonempty s) eqn:E; cbn
            end;
            repeat match goal with
                   | H : Str.nonempty _ = _ |- _ => rewrite H; cbn
                   end);
    reflexivity.
Qed.

End ModelResolution.

Section ModelSegments.

Lemma extractModelFromBody_iff (body : props json) (m : string) :
  extractModelFromBody body = Some m
  <-> exists raw, obj_get "model" body = Some (JStr raw) /\ m = Str.trim raw
                  /\ m <> EmptyString.
Proof.
  unfold extractModelFromBody. split.
  - destruct (obj_get "model" body) as [[| | |raw| |]|]; try discriminate.
    destruct (Str.nonempty (Str.trim raw)) eqn:E; [|discriminate].
    intros [= <-]. exists raw. repeat split. now apply nonempty_true.
  - intros (raw & -> & -> & Hm). apply nonempty_true in Hm. now rewrite Hm.
Qed.

Lemma match_models_here_iff (s m after : string) :
  match_models_here s = Some (m, after)
  <-> s = "/models/" +:+ m +:+ ":" +:+ after
      /\ m <> EmptyString /\ all_units Str.not_colon m = true.
Proof.
  split; [apply match_models_here_sound|].
  intros (-> & Hm & Hc). now apply match_models_here_complete.
Qed.

Lemma model_segment_here (url m : string) :
  model_segment url EmptyString m <-> exists after, match_models_here url = Some (m, after).
Proof.
  unfold model_segment. split.
  - intros (after & E & Hm & Hc). exists after. apply match_models_here_iff.
    rewrite append_nil in E. auto.
  - intros (after & E). apply match_models_here_iff in E as (E & Hm & Hc).
    exists after. rewrite append_nil. auto.
Qed.

Lemma model_segment_cons (c : ascii) (url before m : string) :
  model_segment (String c url) (String c before) m <-> model_segment url before m.
Proof.
  unfold model_segment. split; intros (after & E & H); exists after; split; try exact H.
  - rewrite append_cons in E. now injection E.
  - rewrite append_cons. now f_equal.
Qed.

Lemma model_segment_head (c d : ascii) (url before m : string) :
  model_segment (String c url) (String d before) m -> d = c.
Proof. intros (after & E & _). rewrite append_cons in E. now injection E. Qed.

Lemma model_segment_empty (before m : string) : ~ model_segment EmptyString before m.
Proof.
  intros (after & E & _). destruct before; [rewrite append_nil in E|rewrite append_cons in E];
    discriminate.
Qed.

(** [extractModelFromUrl] finds the leftmost model segment. *)
Lemma extractModelFromUrl_iff (url m : string) :
  extractModelFromUrl url = Some m
  <-> exists before,
        model_segment url before m
        /\ forall before' m', model_segment url before' m' ->
             (String.length before <= String.length before')%nat.
Proof.
  revert m. induction url as [|c url IH]; intros m.
  - cbn. split; [discriminate|]. intros (before & H & _). now apply model_segment_empty in H.
  - cbn [extractModelFromUrl].
    destruct (match_models_here (String c url)) as [[m0 a0]|] eqn:E.
    + assert (H0 : model_segment (String c url) EmptyString m0).
      { apply model_segment_here. now exists a0. }
      split.
      * intros [= <-]. exists EmptyString. split; [exact H0|]. intros; cbn; lia.
      * intros (before & Hseg & Hleft).
        specialize (Hleft _ _ H0). cbn in Hleft.
        destruct before; [|cbn in Hleft; lia].
        apply model_segment_here in Hseg as (a & Ea). congruence.
    + assert (Hno : forall m', ~ model_segment (String c url) EmptyString m').
      { intros m' H. apply model_segment_here in H as (a & Ea). congruence. }
      rewrite IH. split.
      * intros (before & Hseg & Hleft). exists (String c before). split.
        -- now apply model_segment_cons.
        -- intros [|d b'] m' H'; [now apply Hno in H'|].
           pose proof (model_segment_head _ _ _ _ _ H') as ->.
           apply model_segment_cons in H'. specialize (Hleft _ _ H'). cbn. lia.
      * intros ([|d before] & Hseg & Hleft); [now apply Hno in Hseg|].
        pose proof (model_segment_head _ _ _ _ _ Hseg) as ->.
        exists before. split; [now apply model_segment_cons in Hseg|].
        intros b' m' H'. apply (model_segment_cons c) in H'.
        specialize (Hleft _ _ H'). cbn in Hleft. lia.
Qed.

Lemma extractModelFromUrl_None_iff (url : string) :
  extractModelFromUrl url = None <-> forall before m, ~ model_segment url before m.
Proof.
  split.
  - intros Hn before m (after & -> & Hm & Hc).
    destruct (extractModelFromUrl_complete before m after Hm Hc) as [m' E]. congruence.
  - intros Hno. destruct (extractModelFromUrl url) as [m|] eqn:E; [|reflexivity].
    apply extractModelFromUrl_iff in E as (before & Hseg & _). now apply Hno in Hseg.
Qed.

End ModelSegments.

(** C6.  The effective model of [transformRequest] is the first non-empty
    string among the explicit [modelName] argument, the model of the body
    and the model segment of the URL, and the fixed fallback
    [gemini-3-pro-preview] when there is none: each source gets its turn
    only when the one before yields nothing.  The body yields its
    [model] field when that is a string, trimmed, and not empty after
    trimming, and nothing otherwise.  The URL yields the model of its
    leftmost segment [/models/{model}:], a non-empty model without a
    colon, and nothing when it has no such segment.  With all four
    sources supplied and in conflict the argument wins; without the
    argument the body wins; without both the URL segment; without all
    three the fallback. *)
Theorem transformRequest_model_precedence :
  (forall (C : Constants) (url : string) (body : props json)
     (accessToken project_id : string) (modelName endpointOverride : option string),
     let effective :=
       model (tr_body (transformRequest url body accessToken project_id modelName
                         endpointOverride)) in
     let nothing (o : option string) := o = None \/ o = Some EmptyString in
     effective =
       first_nonempty [modelName; extractModelFromBody body; extractModelFromUrl url]
         "gemini-3-pro-preview"
     /\ (forall m, modelName = Some m -> m <> EmptyString -> effective = m)
     /\ (forall m, nothing modelName -> extractModelFromBody body = Some m -> effective = m)
     /\ (forall m, nothing modelName -> extractModelFromBody body = None ->
                   extractModelFromUrl url = Some m -> effective = m)
     /\ (nothing modelName -> extractModelFromBody body = None ->
         extractModelFromUrl url = None -> effective = "gemini-3-pro-preview"))
  /\ (forall (body : props json) (m : string),
        extractModelFromBody body = Some m
        <-> exists raw, obj_get "model" body = Some (JStr raw) /\ m = Str.trim raw
                        /\ m <> EmptyString)
  /\ (forall (url m : string),
        extractModelFromUrl url = Some m
        <-> exists before,
              model_segment url before m
              /\ forall before' m', model_segment url before' m' ->
                   (String.length before <= String.length before')%nat)
  /\ (forall url : string,
        extractModelFromUrl url = None <-> forall before m, ~ model_segment url before m)
  /\ (let effective url body modelName :=
        model (tr_body (transformRequest (C := Demo.constants) url body "access-1"
                          "demo-project" modelName None)) in
      let body := [("model", JStr " gemini-2.5-pro "); ("stream", JBool false)] in
      effective Demo.chat_url body (Some "gemini-3-ultra") = "gemini-3-ultra"
      /\ effective Demo.chat_url body None = "gemini-2.5-pro"
      /\ effective Demo.chat_url [("model", JStr "  ")] (Some "") = "gemini-2.5-flash"
      /\ effective "https://example.com/v1/chat" [("model", JNum (Num.of_Z 7))] None
         = "gemini-3-pro-preview").
Proof.
  split; [|split; [exact extractModelFromBody_iff|split; [exact extractModelFromUrl_iff|
    split; [exact extractModelFromUrl_None_iff|repeat split; vm_compute; reflexivity]]]].
  intros C url body accessToken project_id modelName endpointOverride.
  cbv zeta. cbn [transformRequest tr_body wrapRequestBody model].
  rewrite or_chain_first_nonempty.
  assert (Hbody : forall m, extractModelFromBody body = Some m -> Str.nonempty m = true).
  { intros m Hm. apply extractModelFromBody_iff in Hm as (raw & _ & _ & Hm).
    now apply nonempty_true. }
  assert (Hurl : forall m, extractModelFromUrl url = Some m -> Str.nonempty m = true).
  { intros m Hm. apply extractModelFromUrl_iff in Hm as (b & (a & _ & Hm & _) & _).
    now apply nonempty_true. }
  repeat split.
  - intros m -> Hm. cbn. apply nonempty_true in Hm. now rewrite Hm.
  - intros m [-> | ->] Hb; cbn; rewrite Hb, (Hbody m Hb); reflexivity.
  - intros m [-> | ->] Hb Hu; cbn; rewrite Hb, Hu, (Hurl m Hu); reflexivity.
  - intros [-> | ->] Hb Hu; cbn; rewrite Hb, Hu; reflexivity.
Qed.

(** The precedence on a request whose sources are in conflict, from what
    the body holds: the argument wins when it is given, and without it the
    trimmed model of the body wins over the segment of the URL. *)
Lemma transformRequest_model_precedence_witness :
  let body := [("model", JStr " gemini-2.5-pro "); ("stream", JBool false)] in
  let effective modelName :=
    model (tr_body (transformRequest (C := Demo.constants) Demo.chat_url body "access-1"
                      "demo-project" modelName None)) in
  effective (Some "gemini-3-ultra") = "gemini-3-ultra"
  /\ effective None = "gemini-2.5-pro".
Proof.
  destruct transformRequest_model_precedence as (Hgeneral & Hbody & _).
  destruct (Hgeneral Demo.constants Demo.chat_url
              [("model", JStr " gemini-2.5-pro "); ("stream", JBool false)]
              "access-1" "demo-project" (Some "gemini-3-ultra") None)
    as (_ & Hargument & _).
  destruct (Hgeneral Demo.constants Demo.chat_url
              [("model", JStr " gemini-2.5-pro "); ("stream", JBool false)]
              "access-1" "demo-project" None None)
    as (_ & _ & Hfrom_body & _).
  split.
  - apply Hargument; [reflexivity | discriminate].
  - apply Hfrom_body; [now left|].
    apply Hbody. exists " gemini-2.5-pro ".
    repeat split; [discriminate].
Defined.

(** ** Wrapping the request body *)

Section Wrap.

Lemma obj_get_delete_same {V : Type} (k : string) (o : props V) :
  obj_get k (obj_delete k o) = None.
Proof.
  unfold obj_delete. induction o as [|[k' v] o IH]; cbn; [reflexivity|].
  destruct (String.eqb k k') eqn:E; cbn; [exact IH | now rewrite E].
Qed.

Lemma obj_get_delete_other {V : Type} (k k' : string) (o : props V) :
  k' <> k -> obj_get k' (obj_delete k o) = obj_get k' o.
Proof.
  intros Hne. unfold obj_delete. induction o as [|[k'' v] o IH]; cbn; [reflexivity|].
  destruct (String.eqb k k'') eqn:E; cbn.
  - apply String.eqb_eq in E. subst k''.
    destruct (String.eqb k' k) eqn:E'; [|exact IH].
    apply String.eqb_eq in E'. contradiction.
  - now rewrite IH.
Qed.

Lemma obj_delete_absent {V : Type} (k : string) (o : props V) :
  obj_get k o = None -> obj_delete k o = o.
Proof.
  unfold obj_delete. induction o as [|[k' v] o IH]; cbn; [reflexivity|].
  destruct (String.eqb k k'); [discriminate|]. cbn. intros E. now rewrite IH.
Qed.

(** C8.  [wrapRequestBody] on a body object [b], in the heap: the result
    is a new object [{project, model, request}] whose [request] is a new
    object holding [b] without its [model] property, every other property
    and its value being that of [b]; no object that existed before,
    the caller's body among them, is changed.  The last part is the same
    fact for the function on property lists that [transformRequest]
    calls. *)
Theorem wrapRequestBody_roundtrip (h : gmap positive (props Store.value))
    (body : positive) (b : props Store.value) (project_id modelName : string) :
  h !! body = Some b ->
  exists h' wrapper payload,
    Store.wrapRequestBody h body project_id modelName = (h', wrapper)
    /\ h' !! wrapper =
         Some [("project", Store.VStr project_id); ("model", Store.VStr modelName);
               ("request", Store.VRef payload)]
    /\ h' !! payload = Some (obj_delete "model" b)
    /\ obj_get "model" (obj_delete "model" b) = None
    /\ (forall k, k <> "model" -> obj_get k (obj_delete "model" b) = obj_get k b)
    /\ (obj_get "model" b = None -> obj_delete "model" b = b)
    /\ h !! payload = None /\ h !! wrapper = None /\ payload <> wrapper
    /\ h' !! body = Some b
    /\ (forall l o, h !! l = Some o -> h' !! l = Some o)
    /\ (forall (o : props json),
          wrapRequestBody o project_id modelName =
            {| project := project_id; model := modelName;
               request := obj_delete "model" o |}
          /\ obj_get "model" (request (wrapRequestBody o project_id modelName)) = None
          /\ forall k, k <> "model" ->
               obj_get k (request (wrapRequestBody o project_id modelName)) = obj_get k o).
Proof.
  intros Hb.
  set (payload := fresh (dom h)).
  set (h1 := <[payload := b]> h).
  set (h2 := alter (obj_delete "model") payload h1).
  set (wrapper := fresh (dom h2)).
  assert (Hp : h !! payload = None).
  { apply not_elem_of_dom. apply is_fresh. }
  assert (Hw2 : h2 !! wrapper = None).
  { apply not_elem_of_dom. apply is_fresh. }
  assert (H2p : h2 !! payload = Some (obj_delete "model" b)).
  { unfold h2, h1. rewrite lookup_alter_eq, lookup_insert_eq. reflexivity. }
  assert (Hne : payload <> wrapper).
  { intros E. rewrite <- E in Hw2. congruence. }
  assert (Hold : forall l o, h !! l = Some o -> h2 !! l = Some o /\ l <> wrapper).
  { intros l o Hl.
    assert (l <> payload) by congruence.
    assert (E2 : h2 !! l = Some o).
    { unfold h2, h1. rewrite lookup_alter_ne, lookup_insert_ne by congruence. exact Hl. }
    split; [exact E2 | congruence]. }
  assert (Hw : h !! wrapper = None).
  { destruct (h !! wrapper) as [o|] eqn:E; [|reflexivity].
    destruct (Hold _ _ E) as [_ Habs]. congruence. }
  exists (<[wrapper := [("project", Store.VStr project_id);
                        ("model", Store.VStr modelName);
                        ("request", Store.VRef payload)]]> h2), wrapper, payload.
  repeat apply conj.
  - unfold Store.wrapRequestBody, Store.spread, Store.alloc, Store.delete_property.
    setoid_rewrite Hb. reflexivity.
  - apply lookup_insert_eq.
  - rewrite lookup_insert_ne by congruence. exact H2p.
  - apply obj_get_delete_same.
  - intros k Hk. now apply obj_get_delete_other.
  - apply obj_delete_absent.
  - exact Hp.
  - exact Hw.
  - exact Hne.
  - destruct (Hold _ _ Hb) as [E Hn]. rewrite lookup_insert_ne by congruence. exact E.
  - intros l o Hl. destruct (Hold _ _ Hl) as [E Hn].
    rewrite lookup_insert_ne by congruence. exact E.
  - intros o. repeat apply conj.
    + reflexivity.
    + apply obj_get_delete_same.
    + intros k Hk. now apply obj_get_delete_other.
Qed.

(** A body with a model, a flag and a nested object, wrapped in a heap
    that holds it at location 1. *)
Lemma wrapRequestBody_roundtrip_witness :
  exists h' wrapper payload,
    Store.wrapRequestBody
      {[ 1%positive := [("model", Store.VStr "m"); ("stream", Store.VBool true);
                        ("opts", Store.VRef 7%positive)] ]}
      1%positive "p" "gemini" = (h', wrapper)
    /\ h' !! payload = Some [("stream", Store.VBool true); ("opts", Store.VRef 7%positive)]
    /\ h' !! 1%positive =
         Some [("model", Store.VStr "m"); ("stream", Store.VBool true);
               ("opts", Store.VRef 7%positive)].
Proof.
  assert (Hb : ({[ 1%positive := [("model", Store.VStr "m"); ("stream", Store.VBool true);
                                  ("opts", Store.VRef 7%positive)] ]}
                : gmap positive (props Store.value)) !! 1%positive
               = Some [("model", Store.VStr "m"); ("stream", Store.VBool true);
                       ("opts", Store.VRef 7%positive)]) by reflexivity.
  destruct (wrapRequestBody_roundtrip _ _ _ "p" "gemini" Hb)
    as (h' & wrapper & payload & E & _ & Hpay & _ & _ & _ & _ & _ & _ & Hbody & _).
  exists h', wrapper, payload. split; [exact E | split; [exact Hpay | exact Hbody]].
Defined.

End Wrap.

(** ** Error bodies *)

Section ErrorBody.
Context {P : Platform}.

Lemma get_field (v : json) (k : string) : v <> JNull -> get v k = Ok (field v k).
Proof. destruct v; cbn; congruence. Qed.

Lemma truthy_object_not_null (v : option json) (o : json) :
  truthy_object v = Some o -> o <> JNull.
Proof.
  destruct v as [j|]; cbn; [|discriminate].
  destruct (truthy j && is_object_type j) eqn:E; [|discriminate].
  intros [= <-]. destruct j; cbn in E; congruence.
Qed.

(** [String] throws exactly on the values that are not convertible. *)
Lemma ToString_throws (v : json) :
  (exists e, ToString v = Throw e) <-> convertible v = false.
Proof.
  revert v. fix IH 1. intros [|[]|x|s|items|o]; cbn [ToString convertible];
    try (split; [intros [e He]; discriminate | discriminate]).
  - induction items as [|item items IHitems]; cbn [forallb].
    + split; [intros [e He]; discriminate | discriminate].
    + assert (Hitem : (exists e, match item with
                                 | JNull => Ok EmptyString
                                 | _ => ToString item
                                 end = Throw e) <-> convertible item = false).
      { pose proof (IH item) as Hi. destruct item; try exact Hi.
        split; [intros [e He]; discriminate | discriminate]. }
      destruct (match item with JNull => Ok EmptyString | _ => ToString item end)
        as [str|e] eqn:E; cbn [rbind].
      * assert (Hc : convertible item = true).
        { destruct (convertible item); [reflexivity|].
          destruct (proj2 Hitem eq_refl) as [e He]. discriminate. }
        rewrite Hc. cbn [andb]. rewrite <- IHitems.
        match goal with
        | |- context [rbind (rbind ?r _) _] => destruct r as [parts|e]
        end; cbn [rbind];
          (split; [intros [e' He']; try discriminate; eauto
                  | intros [e' He']; try discriminate; eauto]).
      * assert (Hc : convertible item = false) by (apply Hitem; eauto).
        rewrite Hc. cbn [andb]. split; [reflexivity | eauto].
  - destruct (obj_get "toString" o);
      (split; [intros [e He]; try discriminate; reflexivity
              | intros H; try discriminate; eauto]).
Qed.

(** What [parseErrorBody] returns, case by case on the parse of the text. *)
Lemma parseErrorBody_cases (text : string) :
  parseErrorBody text =
    match JSON_parse text with
    | None | Some JNull => Some (raw_text_error text)
    | Some parsed =>
        match truthy_object (field parsed "error") with
        | Some errorObj =>
            match String_if_truthy (field errorObj "message"),
                  String_if_truthy (field errorObj "type") with
            | Ok m, Ok t =>
                Some {| message := default "Unknown error" m;
                        type := t;
                        code := field errorObj "code" |}
            | _, _ => Some (raw_text_error text)
            end
        | None =>
            match field parsed "message" with
            | Some (JStr m) =>
                if Str.nonempty m
                then match String_if_truthy (field parsed "type") with
                     | Ok t => Some {| message := m; type := t;
                                       code := field parsed "code" |}
                     | Throw _ => Some (raw_text_error text)
                     end
                else None
            | _ => None
            end
        end
    end.
Proof.
  unfold parseErrorBody, JSON_parse_r.
  destruct (JSON_parse text) as [parsed|]; [|reflexivity].
  destruct parsed as [|b|x|s|items|fields]; try reflexivity.
  cbn [rbind get field].
  destruct (truthy_object (obj_get "error" fields)) as [errorObj|] eqn:Eo.
  - pose proof (truthy_object_not_null _ _ Eo) as Hn.
    rewrite !(get_field errorObj) by exact Hn. cbn [rbind].
    destruct (String_if_truthy (field errorObj "message")) as [m|e]; cbn [rbind];
      [|reflexivity].
    destruct (String_if_truthy (field errorObj "type")) as [t|e]; reflexivity.
  - destruct (obj_get "message" fields) as [[| | |m| |]|]; try reflexivity.
    destruct (Str.nonempty m); [|reflexivity]. cbn [rbind].
    destruct (String_if_truthy (obj_get "type" fields)) as [t|e]; reflexivity.
Qed.

End ErrorBody.

(** C5, as stated, fails: the text [{}] is valid JSON with neither a
    nested error object nor a top-level message, and the result is
    [undefined], not the error whose message is the raw text. *)
Lemma parseErrorBody_undefined_on_plain_json :
  JSON_parse (Platform := Reference.platform) "{}" = Some (JObj [])
  /\ parseErrorBody (P := Reference.platform) "{}" = None
  /\ parseErrorBody (P := Reference.platform) "{}" <> Some (raw_text_error "{}").
Proof. repeat apply conj; [vm_compute; reflexivity.. | vm_compute; discriminate]. Qed.

(** C5, amended.  On every platform and for every raw error-body text:
    a text that is JSON with a truthy [error] of type object gives
    [String(error.message)] (or [Unknown error] when that is falsy),
    [String(error.type)] when truthy and [error.code]; failing that, a
    text that is JSON with a non-empty top-level string [message] gives
    the top-level message, [String(type)] when truthy and the code; in
    both cases the raw text becomes the message when [String] throws,
    which it does exactly on a value that is not convertible (an object
    with a [toString] property of its own, or an array that holds one);
    any other valid JSON except [null] gives [undefined]; a text that is
    not valid JSON (or is [null]) gives the raw text as the message,
    [Unknown error] when it is empty.  On the reference platform [boom]
    gives [{message: boom}], [{error: {message: bad, code: 400}}] gives
    [{message: bad, code: 400}], and
    [{error: {message: {toString: null}}}] gives the raw text. *)
Theorem parseErrorBody_amended :
  (forall (P : Platform) (text : string),
     (JSON_parse text = None -> parseErrorBody text = Some (raw_text_error text))
     /\ (JSON_parse text = Some JNull -> parseErrorBody text = Some (raw_text_error text))
     /\ (forall parsed errorObj,
           JSON_parse text = Some parsed -> parsed <> JNull ->
           truthy_object (field parsed "error") = Some errorObj ->
           parseErrorBody text =
             match String_if_truthy (field errorObj "message"),
                   String_if_truthy (field errorObj "type") with
             | Ok m, Ok t =>
                 Some {| message := default "Unknown error" m;
                         type := t;
                         code := field errorObj "code" |}
             | _, _ => Some (raw_text_error text)
             end)
     /\ (forall parsed m,
           JSON_parse text = Some parsed -> parsed <> JNull ->
           truthy_object (field parsed "error") = None ->
           field parsed "message" = Some (JStr m) -> m <> EmptyString ->
           parseErrorBody text =
             match String_if_truthy (field parsed "type") with
             | Ok t => Some {| message := m; type := t; code := field parsed "code" |}
             | Throw _ => Some (raw_text_error text)
             end)
     /\ (forall parsed,
           JSON_parse text = Some parsed -> parsed <> JNull ->
           truthy_object (field parsed "error") = None ->
           (forall m, field parsed "message" = Some (JStr m) -> m = EmptyString) ->
           parseErrorBody text = None)
     /\ (forall v,
           (exists e, String_if_truthy v = Throw e)
           <-> exists j, v = Some j /\ truthy j = true /\ convertible j = false)
     /\ (forall v, (exists e, ToString v = Throw e) <-> convertible v = false))
  /\ parseErrorBody (P := Reference.platform) "boom"
     = Some {| message := "boom"; type := None; code := None |}
  /\ parseErrorBody (P := Reference.platform)
       (Demo.dq "{'error':{'message':'bad','code':400}}")
     = Some {| message := "bad"; type := None; code := Some (JNum (Num.of_Z 400)) |}
  /\ parseErrorBody (P := Reference.platform)
       (Demo.dq "{'error':{'message':{'toString':null}}}")
     = Some (raw_text_error (Demo.dq "{'error':{'message':{'toString':null}}}")).
Proof.
  split; [|repeat apply conj; vm_compute; reflexivity].
  intros P text. rewrite parseErrorBody_cases.
  repeat apply conj.
  - intros ->. reflexivity.
  - intros ->. reflexivity.
  - intros parsed errorObj -> Hn ->. destruct parsed; congruence.
  - intros parsed m -> Hn -> -> Hm. apply nonempty_true in Hm. rewrite Hm.
    destruct parsed; congruence.
  - intros parsed -> Hn -> Hm.
    destruct parsed; try congruence; try reflexivity.
    destruct (field (JObj fields) "message") as [[| | |m| |]|]; try reflexivity.
    rewrite (Hm m eq_refl). reflexivity.
  - intros [j|]; cbn [String_if_truthy].
    + destruct (truthy j) eqn:Et.
      * split.
        -- intros [e He]. exists j. split; [reflexivity|]. split; [exact Et|].
           apply ToString_throws.
           destruct (ToString j) as [str|e']; [discriminate | eauto].
        -- intros (j' & [= <-] & _ & Hc). apply ToString_throws in Hc as [e He].
           rewrite He. cbn [rbind]. eauto.
      * split; [intros [e He]; discriminate|].
        intros (j' & [= <-] & Ht & _). congruence.
    + split; [intros [e He]; discriminate | intros (j' & Hj & _); discriminate].
  - apply ToString_throws.
Qed.

(** ** Server-sent events *)

Section Sse.
Context {P : Platform}.

Lemma transformSseLine_cases (line : string) :
  transformSseLine line =
    match data_payload line with
    | None => line
    | Some p =>
        if negb (Str.nonempty p) || String.eqb p "[DONE]" then line
        else
          match JSON_parse p with
          | None => line
          | Some v =>
              match field v "response" with
              | Some inner => "data: " +:+ JSON_stringify inner
              | None => line
              end
          end
    end.
Proof.
  unfold transformSseLine, data_payload.
  destruct (Str.startsWith line "data:"); [|reflexivity]. cbn [negb].
  destruct (negb (Str.nonempty (Str.trim (Str.slice 5 line)))
            || String.eqb (Str.trim (Str.slice 5 line)) "[DONE]"); [reflexivity|].
  unfold JSON_parse_r.
  destruct (JSON_parse (Str.trim (Str.slice 5 line))) as [v|]; [|reflexivity].
  destruct v; try reflexivity.
  cbn [rbind get field]. destruct (obj_get "response" fields); reflexivity.
Qed.

Lemma transformSseLine_per_line (line : string) :
  (data_payload line = None -> transformSseLine line = line)
  /\ (forall p, data_payload line = Some p ->
        p = EmptyString \/ p = "[DONE]" -> transformSseLine line = line)
  /\ (forall p, data_payload line = Some p -> JSON_parse p = None ->
        transformSseLine line = line)
  /\ (forall p v, data_payload line = Some p -> JSON_parse p = Some v ->
        field v "response" = None -> transformSseLine line = line)
  /\ (forall p v inner,
        data_payload line = Some p -> p <> EmptyString -> p <> "[DONE]" ->
        JSON_parse p = Some v -> field v "response" = Some inner ->
        transformSseLine line = "data: " +:+ JSON_stringify inner).
Proof.
  rewrite transformSseLine_cases. repeat apply conj.
  - intros ->. reflexivity.
  - intros p -> [-> | ->]; reflexivity.
  - intros p -> Hp. rewrite Hp. now destruct (_ || _).
  - intros p v -> Hp Hf. rewrite Hp, Hf. now destruct (_ || _).
  - intros p v inner -> Hne Hd Hp Hf. rewrite Hp, Hf.
    apply nonempty_true in Hne. rewrite Hne. cbn [negb orb].
    destruct (String.eqb_spec p "[DONE]"); [contradiction | reflexivity].
Qed.

End Sse.

(** C7.  The streaming rewrite splits the payload at newlines, maps every
    line by [transformSseLine] and joins the results with newlines: as many
    lines, in the same order.  A line that is not a [data:] line is
    unchanged; so is a data line whose payload is empty, is [[DONE]], does
    not parse as JSON, or parses to a value without a top-level
    [response] field; a data line whose JSON payload has that field
    becomes [data: ] followed by the serialization of the field's value.
    On the reference platform the four lines of the example change in
    the third line only. *)
Theorem transformStreamingPayload_lines :
  (forall (P : Platform) (payload : string),
     let lines := Str.split Str.LF payload in
     let rewritten := List.map transformSseLine lines in
     transformStreamingPayload payload = Str.join (String Str.LF EmptyString) rewritten
     /\ length rewritten = length lines
     /\ (forall (i : nat) (line : string),
           lines !! i = Some line -> rewritten !! i = Some (transformSseLine line)))
  /\ (forall (P : Platform) (line : string),
        (data_payload line = None -> transformSseLine line = line)
        /\ (forall p, data_payload line = Some p ->
              p = EmptyString \/ p = "[DONE]" -> transformSseLine line = line)
        /\ (forall p, data_payload line = Some p -> JSON_parse p = None ->
              transformSseLine line = line)
        /\ (forall p v, data_payload line = Some p -> JSON_parse p = Some v ->
              field v "response" = None -> transformSseLine line = line)
        /\ (forall p v inner,
              data_payload line = Some p -> p <> EmptyString -> p <> "[DONE]" ->
              JSON_parse p = Some v -> field v "response" = Some inner ->
              transformSseLine line = "data: " +:+ JSON_stringify inner))
  /\ transformStreamingPayload (P := Reference.platform)
       (Str.join (String Str.LF EmptyString)
          ["event: ping"; ""; Demo.dq "data: {'response':{'a':1}}"; "data: [DONE]"])
     = Str.join (String Str.LF EmptyString)
         ["event: ping"; ""; Demo.dq "data: {'a':1}"; "data: [DONE]"].
Proof.
  split; [|split].
  - intros P payload. cbv zeta. repeat apply conj.
    + reflexivity.
    + apply length_map.
    + intros i line Hi.
      change (List.map transformSseLine (Str.split Str.LF payload))
        with (transformSseLine <$> Str.split Str.LF payload).
      rewrite list_lookup_fmap, Hi. reflexivity.
  - intros P line. apply transformSseLine_per_line.
  - vm_compute. reflexivity.
Qed.

(** ** Retry-after *)

Section RetryAfter.
Context {P : Platform}.

Lemma is_RetryInfo_object (d : json) :
  is_RetryInfo d = true -> exists o, d = JObj o.
Proof. destruct d; cbn; try discriminate. intros _. now eexists. Qed.

(** On readable details the search of the source is [List.find]. *)
Lemma find_RetryInfo_readable (details : list json) :
  readable_details details = true ->
  find_RetryInfo details = Ok (List.find is_RetryInfo details).
Proof.
  induction details as [|d details IH]; [reflexivity|].
  cbn [readable_details find_RetryInfo List.find].
  destruct d as [|b|x|s|items|fields]; try discriminate;
    try (cbn; exact IH).
  unfold is_RetryInfo. cbn [get rbind field].
  destruct (obj_get "@type" fields) as [[| | |t| |]|]; cbn [orb]; try exact IH.
  destruct (String.eqb t RetryInfo_type); [reflexivity | exact IH].
Qed.

(** The header sources come first: a hit of (a), or else of (b), is the
    result whatever the body is. *)
Lemma extractRetryAfterMs_header_hit (r : Response) (errorBody : option json) (x : number) :
  first_hit (hit_Retry_After (headers r)) (hit_retry_after_ms (headers r)) None = Some x ->
  extractRetryAfterMs r errorBody = Ok (Some x).
Proof.
  unfold first_hit, hit_Retry_After, hit_retry_after_ms, seconds_to_ms,
    extractRetryAfterMs, present.
  destruct (Headers_get (headers r) "Retry-After") as [v|]; cbn [default from_option id];
  [destruct (Str.nonempty v);
   [destruct (negb (Num.isNaN (parseFloat v)) && Num.gt0 (parseFloat v));
    [intros [= <-]; reflexivity|]|]|];
  (destruct (Headers_get (headers r) "retry-after-ms") as [w|]; cbn [default from_option id andb];
   [destruct (Str.nonempty w); cbn [andb];
    [destruct (negb (Num.isNaN (parseInt10 w)) && Num.gt0 (parseInt10 w));
     [intros [= <-]; reflexivity|]|]|]); discriminate.
Qed.

(** Without a header hit the result is read from the body; on a readable
    body it is source (c). *)
Lemma extractRetryAfterMs_body (r : Response) (errorBody : json) :
  first_hit (hit_Retry_After (headers r)) (hit_retry_after_ms (headers r)) None = None ->
  readable_body errorBody = true ->
  extractRetryAfterMs r (Some errorBody) = Ok (hit_RetryInfo errorBody).
Proof.
  intros Hh Hr.
  unfold extractRetryAfterMs.
  match goal with
  | |- match ?e with Some ms => _ | None => _ end = _ =>
      assert (Ea : e = None); [|rewrite Ea]
  end.
  { revert Hh. unfold first_hit, hit_Retry_After, seconds_to_ms, present.
    destruct (Headers_get (headers r) "Retry-After") as [v|]; cbn [default from_option id]; [|reflexivity].
    destruct (Str.nonempty v); [|reflexivity].
    destruct (negb (Num.isNaN (parseFloat v)) && Num.gt0 (parseFloat v));
      [discriminate | reflexivity]. }
  match goal with
  | |- match ?e with Some ms => _ | None => _ end = _ =>
      assert (Eb : e = None); [|rewrite Eb]
  end.
  { revert Hh. unfold first_hit, hit_retry_after_ms, present.
    destruct (hit_Retry_After (headers r)); [discriminate|].
    destruct (Headers_get (headers r) "retry-after-ms") as [w|]; cbn [default from_option id andb];
      [|reflexivity].
    destruct (Str.nonempty w); cbn [andb]; [|reflexivity].
    destruct (negb (Num.isNaN (parseInt10 w)) && Num.gt0 (parseInt10 w));
      [discriminate | reflexivity]. }
  unfold readable_body in Hr. unfold hit_RetryInfo.
  destruct errorBody as [|b|x|s|items|fields]; try reflexivity;
    try (destruct (negb (truthy _)); reflexivity).
  cbn [truthy negb get rbind field] in Hr |- *.
  destruct (obj_get "error" fields) as [error|]; [|reflexivity].
  destruct error as [|b|x|s|items|efields]; try reflexivity.
  cbn [get_opt get rbind field] in Hr |- *.
  destruct (obj_get "details" efields) as [[| | | |details|]|]; try reflexivity.
  rewrite (find_RetryInfo_readable _ Hr). cbn [rbind].
  destruct (List.find is_RetryInfo details) as [entry|] eqn:Ef; [|reflexivity].
  apply find_some in Ef as [_ Hri].
  destruct (is_RetryInfo_object _ Hri) as [o ->].
  cbn [get_opt get rbind field].
  destruct (obj_get "retryDelay" o) as [[| | |delay| |]|]; try reflexivity.
  unfold seconds_to_ms.
  destruct (Str.nonempty delay) eqn:En; cbn [negb].
  - destruct (match_retryDelay delay); [|reflexivity].
    match goal with |- context [if ?c then _ else _] => destruct c end; reflexivity.
  - apply nonempty_false in En. subst. reflexivity.
Qed.

(** A body without [details] gives nothing. *)
Lemma extractRetryAfterMs_normalized (r : Response) (e : option AntigravityError) :
  extractRetryAfterMs r
    (match e with
     | Some e => Some (JObj [("error", json_of_error e)])
     | None => None
     end)
  = Ok (first_hit (hit_Retry_After (headers r)) (hit_retry_after_ms (headers r)) None).
Proof.
  destruct (first_hit (hit_Retry_After (headers r)) (hit_retry_after_ms (headers r)) None)
    as [x|] eqn:Eh.
  - now apply extractRetryAfterMs_header_hit.
  - destruct e as [e|].
    + rewrite extractRetryAfterMs_body; [|exact Eh|].
      * unfold hit_RetryInfo, json_of_error. cbn [field obj_get String.eqb Ascii.eqb].
        destruct (type e), (code e); reflexivity.
      * unfold readable_body, json_of_error. cbn [field obj_get].
        destruct (type e), (code e); reflexivity.
    + revert Eh. unfold extractRetryAfterMs, first_hit, hit_Retry_After,
        hit_retry_after_ms, seconds_to_ms, present.
      destruct (Headers_get (headers r) "Retry-After") as [v|]; cbn [default from_option id];
      [destruct (Str.nonempty v);
       [destruct (negb (Num.isNaN (parseFloat v)) && Num.gt0 (parseFloat v));
        [discriminate|]|]|];
      (destruct (Headers_get (headers r) "retry-after-ms") as [w|]; cbn [default from_option id andb];
       [destruct (Str.nonempty w); cbn [andb];
        [destruct (negb (Num.isNaN (parseInt10 w)) && Num.gt0 (parseInt10 w));
         [discriminate|]|]|]); reflexivity.
Qed.

End RetryAfter.

Section RetryAfterResponse.
Context {P : Platform}.

Lemma first_hit_None_inv (a b c : option number) :
  first_hit a b None = None -> a = None /\ b = None /\ first_hit a b c = c.
Proof. destruct a, b; cbn; intros E; try discriminate; auto. Qed.

Lemma first_hit_Some_header (a b c : option number) (x : number) :
  first_hit a b None = Some x -> first_hit a b c = Some x.
Proof. destruct a, b; cbn; intros E; try discriminate; auto. Qed.

(** The second extraction of [transformResponse]. *)
Lemma extractRetryAfterMs_first_hit (r : Response) (errorBody : json) :
  hit_Retry_After (headers r) <> None \/ hit_retry_after_ms (headers r) <> None
  \/ readable_body errorBody = true ->
  extractRetryAfterMs r (Some errorBody)
  = Ok (first_hit (hit_Retry_After (headers r)) (hit_retry_after_ms (headers r))
          (hit_RetryInfo errorBody)).
Proof.
  intros Hr.
  destruct (first_hit (hit_Retry_After (headers r)) (hit_retry_after_ms (headers r)) None)
    as [x|] eqn:Eh.
  - rewrite (first_hit_Some_header _ _ _ _ Eh).
    now apply extractRetryAfterMs_header_hit.
  - destruct (first_hit_None_inv _ _ (hit_RetryInfo errorBody) Eh) as (Ea & Eb & ->).
    apply extractRetryAfterMs_body; [exact Eh|].
    destruct Hr as [Hr | [Hr | Hr]]; [contradiction | contradiction | exact Hr].
Qed.

Lemma new_Response_ok (txt : string) (st : Z) (stText : string)
    (hs : gmap string string) :
  200 <= st <= 599 -> null_body_status st = false ->
  new_Response txt st stText hs =
    Ok {| status := st; statusText := stText;
          headers := match Headers_get hs "content-type" with
                     | Some _ => hs
                     | None => Headers_set hs "content-type" "text/plain;charset=UTF-8"
                     end;
          body := Stream (Some txt); bodyUsed := false |}.
Proof.
  intros [H1 H2] Hn. unfold new_Response. rewrite Hn.
  replace ((200 <=? st) && (st <=? 599)) with true; [reflexivity|].
  symmetry. apply andb_true_iff. split; now apply Z.leb_le.
Qed.

(** What [set_retry_headers] leaves in the headers of the new response. *)
Lemma retry_headers_written (hs : gmap string string) (x : number) :
  Num.truthy x = true ->
  let hs' := set_retry_headers hs (Some x) in
  let final := match Headers_get hs' "content-type" with
               | Some _ => hs'
               | None => Headers_set hs' "content-type" "text/plain;charset=UTF-8"
               end in
  Headers_get final "Retry-After"
  = Some (Number_toString (Num.ceil (Num.div x (Num.of_Z 1000))))
  /\ Headers_get final "retry-after-ms" = Some (Number_toString x).
Proof.
  intros Ht. cbv zeta. unfold set_retry_headers. rewrite Ht.
  unfold Headers_get, Headers_set.
  change (Str.lowercase "Retry-After") with "retry-after".
  change (Str.lowercase "retry-after-ms") with "retry-after-ms".
  change (Str.lowercase "content-type") with "content-type".
  destruct (_ !! "content-type"); split;
    repeat (rewrite lookup_insert_ne by discriminate);
    rewrite ?lookup_insert_eq; reflexivity.
Qed.

End RetryAfterResponse.

(** ** The interceptor *)

Section InterceptorFacts.
Context {P : Platform} {C : Constants} {W : Collaborators}.

Lemma isRetryableError_spec (st : Z) :
  isRetryableError st = true <-> st = 0 \/ st = 429 \/ 500 <= st < 600.
Proof.
  unfold isRetryableError.
  destruct (Z.eqb_spec st 0); [intuition lia|].
  destruct (Z.eqb_spec st 429); [intuition lia|].
  destruct (Z.leb_spec 500 st), (Z.ltb_spec st 600); cbn; intuition (lia || congruence).
Qed.

Lemma retryable_not_ok (r : Response) :
  isRetryableError (status r) = true -> ok r = false.
Proof.
  intros H. apply isRetryableError_spec in H. unfold ok.
  destruct (Z.leb_spec 200 (status r)), (Z.leb_spec (status r) 299); cbn; try reflexivity; lia.
Qed.

(** One attempt, run: the endpoint is logged; a request that cannot be
    built ends the attempt with [null] and no live call; otherwise the
    request is sent, and the attempt gives [null] exactly on a retryable
    outcome. *)
Lemma attemptFetch_run (endpoint url : string) (init : RequestInit)
    (accessToken project_id : string) (modelName : option string) (s : State) :
  attemptFetch endpoint url init accessToken project_id modelName s =
    match prepareAttempt endpoint url init accessToken project_id modelName with
    | Throw _ => (Ok (None, init), logged s [endpoint] [])
    | Ok (rq, init') =>
        (Ok (match fetch (sent s) rq with
             | Throw _ => None
             | Ok r => if isRetryableError (status r) then None else Some r
             end, init'),
         logged s [endpoint] [rq])
    end.
Proof.
  unfold attemptFetch, bind, log_tried, logged.
  destruct (prepareAttempt endpoint url init accessToken project_id modelName)
    as [[rq init']|e]; cbn.
  - unfold catch, bind, live_fetch, ret. cbn.
    destruct (fetch (sent s) rq) as [r|e]; cbn; [|reflexivity].
    destruct (isRetryableError (status r)) eqn:E.
    + rewrite (retryable_not_ok r E). reflexivity.
    + rewrite andb_false_r. reflexivity.
  - unfold ret. now rewrite app_nil_r.
Qed.

Lemma logged_logged (s : State) (e1 e2 : list string) (r1 r2 : list Request) :
  logged (logged s e1 r1) e2 r2 = logged s (e1 ++ e2) (r1 ++ r2).
Proof. unfold logged; cbn. now rewrite !app_assoc. Qed.

Lemma logged_nil (s : State) : logged s [] [] = s.
Proof. destruct s; unfold logged; cbn. now rewrite !app_nil_r. Qed.

Ltac reach_loop :=
  match goal with
  | |- context [tryEndpoints ?eps ?u ?i ?tok ?pid ?mn ?s1] =>
      exists tok, pid, s1; split; [reflexivity | split; [reflexivity|]];
      destruct (tryEndpoints eps u i tok pid mn s1) as [[[?|]|?] ?]; reflexivity
  end.

(** The prelude of a call: with the credentials present and the refresh
    step succeeding, the call reaches the loop over the endpoints without
    having tried or sent anything, and ends as [finish_call] says. *)
Lemma call_reaches_loop (getAuth : result Auth)
    (client_set : string -> Auth -> result unit) (providerId url : string)
    (init : RequestInit) (s : State) :
  credentials_present getAuth -> refresh_step_succeeds client_set providerId ->
  exists accessToken project_id s1,
    tried s1 = tried s /\ sent s1 = sent s
    /\ createAntigravityFetch getAuth client_set providerId url init s =
         finish_call (modelName_of_init init)
           (tryEndpoints (take maxEndpoints ANTIGRAVITY_ENDPOINT_FALLBACKS) url init
              accessToken project_id (modelName_of_init init) s1).
Proof.
  intros (auth & -> & Ha & Hr) Hstep.
  unfold createAntigravityFetch, finish_call.
  unfold bind at 1. unfold lift at 1. rewrite Ha, Hr. cbn [negb orb].
  unfold bind at 1. unfold read_state at 1.
  unfold bind at 1. unfold set_cachedTokens at 1.
  unfold bind at 1.
  match goal with
  | |- context [isTokenExpired ?t] => destruct (isTokenExpired t) eqn:Eexp
  end.
  - destruct Hstep as [Hvalid | [Hrefresh Hset]]; [now rewrite Hvalid in Eexp|].
    unfold catch, bind at 1, lift at 1.
    match goal with
    | |- context [refreshAccessToken ?t] => destruct (Hrefresh t) as [renewed ->]
    end.
    unfold bind at 1. unfold set_cachedTokens at 1.
    unfold bind at 1. unfold lift at 1. rewrite Hset. unfold ret at 1.
    unfold bind at 1. unfold read_state at 1. cbn [cachedProjectId].
    unfold bind at 1.
    destruct (negb (present (cachedProjectId s))).
    + unfold bind at 1. unfold set_cachedProjectId at 1. unfold ret at 1.
      unfold bind at 1.
      reach_loop.
    + unfold ret at 1. unfold bind at 1.
      reach_loop.
  - unfold ret at 1.
    unfold bind at 1. unfold read_state at 1. cbn [cachedProjectId].
    unfold bind at 1.
    destruct (negb (present (cachedProjectId s))).
    + unfold bind at 1. unfold set_cachedProjectId at 1. unfold ret at 1.
      unfold bind at 1.
      reach_loop.
    + unfold ret at 1. unfold bind at 1.
      reach_loop.
Qed.

End InterceptorFacts.

Section LoopFacts.
Context {P : Platform} {C : Constants} {W : Collaborators}.

Lemma tryEndpoints_cons (endpoint : string) (rest : list string) (url : string)
    (init : RequestInit) (accessToken project_id : string) (modelName : option string)
    (s : State) :
  tryEndpoints (endpoint :: rest) url init accessToken project_id modelName s =
    match attemptFetch endpoint url init accessToken project_id modelName s with
    | (Ok (Some r, _), s') => (Ok (Some r), s')
    | (Ok (None, init'), s') =>
        tryEndpoints rest url init' accessToken project_id modelName s'
    | (Throw e, s') => (Throw e, s')
    end.
Proof.
  cbn [tryEndpoints]. unfold bind.
  destruct (attemptFetch endpoint url init accessToken project_id modelName s)
    as [[[[r|] init']|e] s']; reflexivity.
Qed.


(** A request can be built when the tools normalize and the body is not
    [null]; the body is not [null] afterwards either. *)
Lemma prepareAttempt_ok (endpoint url : string) (init : RequestInit)
    (accessToken project_id : string) (modelName : option string) :
  tools_normalize -> body_of_init init <> JNull ->
  exists rq init',
    prepareAttempt endpoint url init accessToken project_id modelName = Ok (rq, init')
    /\ body_of_init init' <> JNull.
Proof.
  intros Hnorm Hbody. unfold prepareAttempt.
  destruct (body_of_init init) as [|b|x|str|items|o] eqn:Eb; try congruence;
    try (cbn; do 2 eexists; split; [reflexivity | congruence]).
  cbn [get rbind].
  destruct (obj_get "tools" o) as [[|b|x|str|items|o']|];
    try (cbn; do 2 eexists; split; [reflexivity | congruence]).
  destruct (Hnorm (JArr items)) as [[nt|] ->]; cbn [rbind];
    [|cbn; do 2 eexists; split; [reflexivity | congruence]].
  destruct (truthy nt); [|cbn; do 2 eexists; split; [reflexivity | congruence]].
  cbn [rbind]. do 2 eexists. split; [reflexivity|].
  destruct (init_body init) as [[str|v]|]; try congruence.
  unfold body_of_init. cbn. congruence.
Qed.

(** The first terminal outcome ends the loop: when the outcomes of the
    first [length before] live calls are retryable and the next one is a
    response [r] with a terminal status, the loop returns [r] after that
    many failovers. *)
Lemma tryEndpoints_terminal (before : list string) (endpoint : string)
    (after : list string) (url : string) (init : RequestInit)
    (accessToken project_id : string) (modelName : option string) (s : State)
    (r : Response) :
  tools_normalize -> body_of_init init <> JNull ->
  (forall history rq,
     (length (sent s) <= length history < length (sent s) + length before)%nat ->
     retryable_outcome (fetch history rq) = true) ->
  (forall history rq,
     length history = (length (sent s) + length before)%nat -> fetch history rq = Ok r) ->
  isRetryableError (status r) = false ->
  exists requests,
    tryEndpoints (before ++ endpoint :: after) url init accessToken project_id modelName s
    = (Ok (Some r), logged s (before ++ [endpoint]) requests)
    /\ length requests = S (length before).
Proof.
  intros Hnorm. revert init s.
  induction before as [|e rest IH]; intros init s Hbody Hretry Hlast Hterm.
  - cbn [app]. rewrite tryEndpoints_cons, attemptFetch_run.
    destruct (prepareAttempt_ok endpoint url init accessToken project_id modelName
                Hnorm Hbody) as (rq & init' & -> & _).
    rewrite (Hlast (sent s) rq) by (cbn; lia). rewrite Hterm.
    exists [rq]. split; reflexivity.
  - cbn [app]. rewrite tryEndpoints_cons, attemptFetch_run.
    destruct (prepareAttempt_ok e url init accessToken project_id modelName
                Hnorm Hbody) as (rq & init' & -> & Hbody').
    assert (Hnone : match fetch (sent s) rq with
                    | Ok r => if isRetryableError (status r) then None else Some r
                    | Throw _ => None
                    end = None).
    { pose proof (Hretry (sent s) rq) as Hn. unfold retryable_outcome in Hn.
      destruct (fetch (sent s) rq); [rewrite Hn; [reflexivity | cbn; lia] | reflexivity]. }
    rewrite Hnone.
    destruct (IH init' (logged s [e] [rq]) Hbody') as (rqs & -> & Hlen).
    + intros history rq' Hh. apply Hretry. cbn in *. rewrite length_app in Hh. cbn in Hh. lia.
    + intros history rq' Hh. apply Hlast. cbn in *. rewrite length_app in Hh. cbn in Hh. lia.
    + exact Hterm.
    + exists (rq :: rqs). rewrite logged_logged. split; [reflexivity | cbn; lia].
Qed.

End LoopFacts.

(** ** Exhaustion *)

Section Exhaustion.
Context {P : Platform} {C : Constants} {W : Collaborators}.


End Exhaustion.


(** ** Failover *)

Section Failover.
Context {P : Platform} {C : Constants} {W : Collaborators}.

(** The classification of one attempt whose request can be built. *)
Lemma attemptFetch_classification (endpoint url : string) (init : RequestInit)
    (accessToken project_id : string) (modelName : option string) (s : State)
    (rq : Request) (init' : RequestInit) :
  prepareAttempt endpoint url init accessToken project_id modelName = Ok (rq, init') ->
  (forall e, fetch (sent s) rq = Throw e ->
     attemptFetch endpoint url init accessToken project_id modelName s
     = (Ok (None, init'), logged s [endpoint] [rq]))
  /\ (forall r, fetch (sent s) rq = Ok r ->
        (status r = 0 \/ status r = 429 \/ 500 <= status r < 600) ->
        attemptFetch endpoint url init accessToken project_id modelName s
        = (Ok (None, init'), logged s [endpoint] [rq]))
  /\ (forall r, fetch (sent s) rq = Ok r ->
        ~ (status r = 0 \/ status r = 429 \/ 500 <= status r < 600) ->
        attemptFetch endpoint url init accessToken project_id modelName s
        = (Ok (Some r, init'), logged s [endpoint] [rq])).
Proof.
  intros Hprep. rewrite attemptFetch_run, Hprep. repeat apply conj.
  - intros e ->. reflexivity.
  - intros r -> Hst. apply isRetryableError_spec in Hst. now rewrite Hst.
  - intros r -> Hst.
    destruct (isRetryableError (status r)) eqn:E; [|reflexivity].
    apply isRetryableError_spec in E. contradiction.
Qed.

(** The loop inside a call: after [k] retryable outcomes the first
    terminal response is what the call returns, transformed. *)
Lemma call_returns_first_terminal (getAuth : result Auth)
    (client_set : string -> Auth -> result unit) (providerId url : string)
    (init : RequestInit) (s : State) (k : nat) (r : Response) :
  credentials_present getAuth ->
  refresh_step_succeeds client_set providerId ->
  tools_normalize -> body_of_init init <> JNull ->
  (k < Nat.min (length ANTIGRAVITY_ENDPOINT_FALLBACKS) 3)%nat ->
  (forall history rq,
     (length (sent s) <= length history < length (sent s) + k)%nat ->
     retryable_outcome (fetch history rq) = true) ->
  (forall history rq,
     length history = (length (sent s) + k)%nat -> fetch history rq = Ok r) ->
  isRetryableError (status r) = false ->
  exists s' requests,
    createAntigravityFetch getAuth client_set providerId url init s
    = (transformResponseWithThinking r (or_default (modelName_of_init init) ""), s')
    /\ tried s' = tried s ++ take (S k) ANTIGRAVITY_ENDPOINT_FALLBACKS
    /\ sent s' = sent s ++ requests
    /\ length requests = S k.
Proof.
  intros Hcreds Hstep Hnorm Hbody Hk Hretry Hlast Hterm.
  destruct (call_reaches_loop getAuth client_set providerId url init s Hcreds Hstep)
    as (tok & pid & s1 & Ht & Hs & ->).
  set (L := take maxEndpoints ANTIGRAVITY_ENDPOINT_FALLBACKS).
  assert (HL : length L = maxEndpoints).
  { unfold L, maxEndpoints. rewrite length_take. lia. }
  destruct (lookup_lt_is_Some_2 L k) as [e He].
  { rewrite HL. exact Hk. }
  pose proof (take_drop_middle L k e He) as Hsplit.
  assert (Hlen : length (take k L) = k).
  { rewrite length_take. unfold maxEndpoints in HL. lia. }
  destruct (tryEndpoints_terminal (take k L) e (drop (S k) L) url init tok pid
              (modelName_of_init init) s1 r Hnorm Hbody)
    as (rqs & Erun & Hrqs).
  - intros history rq Hh. apply Hretry. rewrite Hs, Hlen in Hh. exact Hh.
  - intros history rq Hh. apply Hlast. rewrite Hs, Hlen in Hh. exact Hh.
  - exact Hterm.
  - rewrite Hsplit in Erun. rewrite Erun. unfold finish_call.
    exists (logged s1 (take k L ++ [e]) rqs), rqs.
    cbn [tried sent logged]. rewrite Ht, Hs, Hrqs, Hlen.
    repeat apply conj; try reflexivity.
    f_equal. rewrite <- (take_S_r L k e He). unfold L.
    rewrite take_take. f_equal. unfold maxEndpoints. lia.
Qed.

End Failover.

(** C3.  A status is retryable exactly when it is 0, 429 or in
    [500, 600).  An attempt whose request is built gives [null] (try the
    next endpoint) when the live call throws, which is a network failure
    without a response, or answers with a retryable status; with any other
    status the attempt gives the response.  Inside a call the first
    terminal response ends the loop and is returned transformed.  With the
    three sample endpoints answering 500, 500 and 200 the call returns the
    third answer transformed, after three attempts, that is two
    failovers. *)
Theorem failover_classification :
  (forall st, isRetryableError st = true <-> st = 0 \/ st = 429 \/ 500 <= st < 600)
  /\ (forall (P : Platform) (C : Constants) (W : Collaborators)
        (endpoint url : string) (init : RequestInit) (accessToken project_id : string)
        (modelName : option string) (s : State) (rq : Request) (init' : RequestInit),
        prepareAttempt endpoint url init accessToken project_id modelName = Ok (rq, init') ->
        (forall e, fetch (sent s) rq = Throw e ->
           attemptFetch endpoint url init accessToken project_id modelName s
           = (Ok (None, init'), logged s [endpoint] [rq]))
        /\ (forall r, fetch (sent s) rq = Ok r ->
              (status r = 0 \/ status r = 429 \/ 500 <= status r < 600) ->
              attemptFetch endpoint url init accessToken project_id modelName s
              = (Ok (None, init'), logged s [endpoint] [rq]))
        /\ (forall r, fetch (sent s) rq = Ok r ->
              ~ (status r = 0 \/ status r = 429 \/ 500 <= status r < 600) ->
              attemptFetch endpoint url init accessToken project_id modelName s
              = (Ok (Some r, init'), logged s [endpoint] [rq])))
  /\ (forall (P : Platform) (C : Constants) (W : Collaborators)
        (getAuth : result Auth) (client_set : string -> Auth -> result unit)
        (providerId url : string) (init : RequestInit) (s : State) (k : nat)
        (r : Response),
        credentials_present getAuth ->
        refresh_step_succeeds client_set providerId ->
        tools_normalize -> body_of_init init <> JNull ->
        (k < Nat.min (length ANTIGRAVITY_ENDPOINT_FALLBACKS) 3)%nat ->
        (forall history rq,
           (length (sent s) <= length history < length (sent s) + k)%nat ->
           retryable_outcome (fetch history rq) = true) ->
        (forall history rq,
           length history = (length (sent s) + k)%nat -> fetch history rq = Ok r) ->
        isRetryableError (status r) = false ->
        exists s' requests,
          createAntigravityFetch getAuth client_set providerId url init s
          = (transformResponseWithThinking r (or_default (modelName_of_init init) ""), s')
          /\ tried s' = tried s ++ take (S k) ANTIGRAVITY_ENDPOINT_FALLBACKS
          /\ sent s' = sent s ++ requests
          /\ length requests = S k)
  /\ (exists res s',
        createAntigravityFetch (P := Reference.platform) (C := Demo.constants)
          (W := Demo.world Demo.failing_twice)
          (Ok Demo.auth) Demo.client_set_ok "google" Demo.chat_url (Demo.init_with None)
          initial_state
        = (Ok res, s')
        /\ transformResponseWithThinking (P := Reference.platform)
             (W := Demo.world Demo.failing_twice)
             (Demo.answer 200 "application/json" (Demo.dq "{'response':{'a':1}}")) ""
           = Ok res
        /\ status res = 200
        /\ body res = Stream (Some (Demo.dq "{'a':1}"))
        /\ tried s' = ["https://daily.example"; "https://autopush.example";
                       "https://prod.example"]
        /\ length (sent s') = 3%nat).
Proof.
  split; [exact isRetryableError_spec|].
  split; [intros; now apply attemptFetch_classification|].
  split; [intros; now apply call_returns_first_terminal|].
  destruct (call_returns_first_terminal (P := Reference.platform) (C := Demo.constants)
              (W := Demo.world Demo.failing_twice)
              (Ok Demo.auth) Demo.client_set_ok "google" Demo.chat_url
              (Demo.init_with None) initial_state 2
              (Demo.answer 200 "application/json" (Demo.dq "{'response':{'a':1}}")))
    as (s' & rqs & E & Htried & Hsent & Hlen).
  - exists Demo.auth. repeat split.
  - left. reflexivity.
  - intros tools. eexists. reflexivity.
  - discriminate.
  - cbn. lia.
  - intros [|a [|b history]] rq Hh; cbn in Hh; try lia; reflexivity.
  - intros [|a [|b [|c history]]] rq Hh; cbn in Hh; try lia; reflexivity.
  - reflexivity.
  - assert (Et : transformResponseWithThinking (P := Reference.platform)
                   (W := Demo.world Demo.failing_twice)
                   (Demo.answer 200 "application/json" (Demo.dq "{'response':{'a':1}}")) ""
                 = Ok {| status := 200; statusText := "";
                         headers := Headers_set ∅ "content-type" "application/json";
                         body := Stream (Some (Demo.dq "{'a':1}"));
                         bodyUsed := false |}) by (vm_compute; reflexivity).
    change (or_default (modelName_of_init (Demo.init_with None)) "") with "" in E.
    rewrite Et in E.
    eexists _, s'. repeat apply conj.
    + exact E.
    + reflexivity.
    + reflexivity.
    + reflexivity.
    + rewrite Htried. reflexivity.
    + rewrite Hsent, length_app, Hlen. reflexivity.
Qed.

(** ** A body that is not JSON *)

Section UnparsableBody.
Context {P : Platform} {C : Constants} {W : Collaborators}.

(** The envelope around an empty request. *)
Lemma prepareAttempt_unparsable (endpoint url : string) (init : RequestInit)
    (accessToken project_id text : string) :
  init_body init = Some (BodyText text) -> JSON_parse text = None ->
  modelName_of_init init = None
  /\ body_of_init init = JObj []
  /\ exists rq,
       prepareAttempt endpoint url init accessToken project_id None = Ok (rq, init)
       /\ req_body rq =
            JSON_stringify
              (JObj [("project", JStr project_id);
                     ("model", JStr (or_default (extractModelFromUrl url)
                                       "gemini-3-pro-preview"));
                     ("request", JObj [])]).
Proof.
  intros Hb Hp.
  assert (Hbody : body_of_init init = JObj []).
  { unfold body_of_init. rewrite Hb, Hp. now destruct (body_truthy _). }
  repeat apply conj.
  - unfold modelName_of_init, JSON_parse_r. rewrite Hb, Hp. now destruct (body_truthy _).
  - exact Hbody.
  - unfold prepareAttempt. rewrite Hbody. cbn [get obj_get rbind record_view].
    eexists. split; [reflexivity|].
    cbn [req_body tr_body transformRequest wrapRequestBody json_of_body project model
         request obj_delete List.filter or_else extractModelFromBody obj_get].
    reflexivity.
Qed.

(** With such a body every request the loop sends carries the envelope,
    and the loop does not throw. *)
Lemma tryEndpoints_unparsable (endpoints : list string) (url : string)
    (init : RequestInit) (accessToken project_id text : string) (s : State) :
  init_body init = Some (BodyText text) -> JSON_parse text = None ->
  exists found tried_now requests,
    tryEndpoints endpoints url init accessToken project_id None s
    = (Ok found, logged s tried_now requests)
    /\ Forall (fun rq =>
                 req_body rq =
                   JSON_stringify
                     (JObj [("project", JStr project_id);
                            ("model", JStr (or_default (extractModelFromUrl url)
                                              "gemini-3-pro-preview"));
                            ("request", JObj [])])) requests.
Proof.
  intros Hb Hp. revert s.
  induction endpoints as [|e rest IH]; intros s.
  - exists None, [], []. split; [|constructor]. cbn. unfold ret. now rewrite logged_nil.
  - rewrite tryEndpoints_cons, attemptFetch_run.
    destruct (prepareAttempt_unparsable e url init accessToken project_id text Hb Hp)
      as (_ & _ & rq & -> & Hrq).
    destruct (fetch (sent s) rq) as [r|err].
    + destruct (isRetryableError (status r)).
      * destruct (IH (logged s [e] [rq])) as (found & tr & rqs & -> & Hall).
        exists found, (e :: tr), (rq :: rqs). rewrite logged_logged.
        split; [reflexivity | now constructor].
      * exists (Some r), [e], [rq]. split; [reflexivity | now repeat constructor].
    + destruct (IH (logged s [e] [rq])) as (found & tr & rqs & -> & Hall).
      exists found, (e :: tr), (rq :: rqs). rewrite logged_logged.
      split; [reflexivity | now constructor].
Qed.

(** C10.  For a call whose [init.body] is a string that is not valid
    JSON: reading the body raises nothing, neither the interceptor nor an
    attempt finds a model name in it, and the request of every endpoint
    attempt is built, its body being the serialization of
    [{project, model: m, request: {}}] with [m] the model segment of the
    URL or else the fixed fallback.  This holds of every request sent
    during the call, whose project is the same for all of them. *)
Theorem unparsable_body_gives_empty_request (getAuth : result Auth)
    (client_set : string -> Auth -> result unit) (providerId url : string)
    (init : RequestInit) (text : string) (s : State) :
  init_body init = Some (BodyText text) -> JSON_parse text = None ->
  credentials_present getAuth -> refresh_step_succeeds client_set providerId ->
  let envelope project_id :=
    JSON_stringify
      (JObj [("project", JStr project_id);
             ("model", JStr (or_default (extractModelFromUrl url) "gemini-3-pro-preview"));
             ("request", JObj [])]) in
  modelName_of_init init = None
  /\ (forall endpoint accessToken project_id,
        exists rq,
          prepareAttempt endpoint url init accessToken project_id (modelName_of_init init)
          = Ok (rq, init)
          /\ req_body rq = envelope project_id)
  /\ (forall endpoint accessToken project_id s0,
        exists found s1,
          attemptFetch endpoint url init accessToken project_id (modelName_of_init init) s0
          = (Ok (found, init), s1))
  /\ exists project_id requests,
       sent (snd (createAntigravityFetch getAuth client_set providerId url init s))
       = sent s ++ requests
       /\ Forall (fun rq => req_body rq = envelope project_id) requests.
Proof.
  intros Hb Hp Hcreds Hstep envelope.
  destruct (prepareAttempt_unparsable "" url init "" "" text Hb Hp) as (Hm & _ & _).
  rewrite Hm. repeat apply conj.
  - reflexivity.
  - intros endpoint tok pid.
    destruct (prepareAttempt_unparsable endpoint url init tok pid text Hb Hp)
      as (_ & _ & rq & E & Hrq).
    now exists rq.
  - intros endpoint tok pid s0. rewrite attemptFetch_run.
    destruct (prepareAttempt_unparsable endpoint url init tok pid text Hb Hp)
      as (_ & _ & rq & -> & _).
    now do 2 eexists.
  - destruct (call_reaches_loop getAuth client_set providerId url init s Hcreds Hstep)
      as (tok & pid & s1 & Ht & Hs & ->).
    rewrite Hm.
    destruct (tryEndpoints_unparsable (take maxEndpoints ANTIGRAVITY_ENDPOINT_FALLBACKS)
                url init tok pid text s1 Hb Hp)
      as (found & tr & rqs & -> & Hall).
    exists pid, rqs. split; [|exact Hall].
    unfold finish_call. destruct found; cbn [snd sent logged]; now rewrite Hs.
Qed.

End UnparsableBody.

(** A call with the body [not json] in the world where every endpoint
    answers 429: three requests, each with the empty envelope and the
    model of the URL. *)
Lemma unparsable_body_gives_empty_request_witness :
  exists requests,
    sent (snd (createAntigravityFetch (P := Reference.platform) (C := Demo.constants)
                 (W := Demo.world (Demo.always (Ok (Demo.answer 429 "text/plain" ""))))
                 (Ok Demo.auth) Demo.client_set_ok "google" Demo.chat_url
                 (Demo.init_with (Some (BodyText "not json"))) initial_state))
    = requests
    /\ length requests = 3%nat
    /\ Forall (fun rq =>
                 req_body rq =
                   Demo.dq "{'project':'demo-project','model':'gemini-2.5-flash','request':{}}")
         requests.
Proof.
  destruct (unparsable_body_gives_empty_request (P := Reference.platform)
              (C := Demo.constants)
              (W := Demo.world (Demo.always (Ok (Demo.answer 429 "text/plain" ""))))
              (Ok Demo.auth) Demo.client_set_ok "google" Demo.chat_url
              (Demo.init_with (Some (BodyText "not json"))) "not json" initial_state)
    as (_ & _ & _ & pid & rqs & Hsent & Hall).
  - reflexivity.
  - vm_compute. reflexivity.
  - exists Demo.auth. repeat split.
  - left. reflexivity.
  - eexists. split; [reflexivity|]. split; [vm_compute; reflexivity|].
    vm_compute. repeat constructor.
Defined.

(** ** Exceptions that leave the transform stage *)

Section Escapes.
Context {P : Platform} {C : Constants} {W : Collaborators}.

(** The error branch of both transforms reads the body outside any
    [try]: a read that fails is thrown on. *)
Lemma error_branch_read_failure (r : Response) (modelName : string) :
  ok r = false -> body r = Stream None -> bodyUsed r = false ->
  transformResponseWithThinking r modelName = Throw (Err ETypeError "terminated").
Proof.
  intros Hok Hb Hu. unfold transformResponseWithThinking.
  destruct (isStreamingResponse r);
    [unfold transformStreamingResponse | unfold transformResponse];
    unfold text; rewrite Hok, Hb, Hu; reflexivity.
Qed.

(** Inside a call: the first endpoint answers with a terminal error whose
    body cannot be read, and the call throws. *)
Lemma call_throws_on_unreadable_error (getAuth : result Auth)
    (client_set : string -> Auth -> result unit) (providerId url : string)
    (init : RequestInit) (s : State) (r : Response) :
  credentials_present getAuth ->
  refresh_step_succeeds client_set providerId ->
  tools_normalize -> body_of_init init <> JNull ->
  (0 < Nat.min (length ANTIGRAVITY_ENDPOINT_FALLBACKS) 3)%nat ->
  (forall history rq, length history = length (sent s) -> fetch history rq = Ok r) ->
  ok r = false -> isRetryableError (status r) = false ->
  body r = Stream None -> bodyUsed r = false ->
  fst (createAntigravityFetch getAuth client_set providerId url init s)
  = Throw (Err ETypeError "terminated").
Proof.
  intros Hcreds Hstep Hnorm Hbody Hn Hnet Hok Hterm Hb Hu.
  destruct (call_returns_first_terminal getAuth client_set providerId url init s 0 r
              Hcreds Hstep Hnorm Hbody Hn)
    as (s' & rqs & -> & _).
  - intros history rq Hh. lia.
  - intros history rq Hh. apply Hnet. lia.
  - exact Hterm.
  - cbn [fst]. now apply error_branch_read_failure.
Qed.

End Escapes.

(** C1 fails on the code.  The credentials are present and the token
    needs no refresh, yet the call throws: once with a [TypeError] from
    the search through [error.details] when a 400 answer carries
    [{error: {details: [null]}}], once with the read error of a 400
    answer whose body cannot be read.  The second holds in every world
    where the first endpoint answers so. *)
Theorem fetch_throws_from_error_branch :
  (credentials_present (Ok Demo.auth)
   /\ refresh_step_succeeds (W := Demo.world (Demo.always (Ok Demo.null_detail_error)))
        Demo.client_set_ok "google"
   /\ fst (createAntigravityFetch (P := Reference.platform) (C := Demo.constants)
             (W := Demo.world (Demo.always (Ok Demo.null_detail_error)))
             (Ok Demo.auth) Demo.client_set_ok "google" Demo.chat_url
             (Demo.init_with None) initial_state)
      = Throw (Err ETypeError "Cannot read properties of null"))
  /\ fst (createAntigravityFetch (P := Reference.platform) (C := Demo.constants)
            (W := Demo.world (Demo.always (Ok Demo.unreadable_error)))
            (Ok Demo.auth) Demo.client_set_ok "google" Demo.chat_url
            (Demo.init_with None) initial_state)
     = Throw (Err ETypeError "terminated")
  /\ (forall (P : Platform) (C : Constants) (W : Collaborators)
        (getAuth : result Auth) (client_set : string -> Auth -> result unit)
        (providerId url : string) (init : RequestInit) (s : State) (r : Response),
        credentials_present getAuth ->
        refresh_step_succeeds client_set providerId ->
        tools_normalize -> body_of_init init <> JNull ->
        (0 < Nat.min (length ANTIGRAVITY_ENDPOINT_FALLBACKS) 3)%nat ->
        (forall history rq, length history = length (sent s) -> fetch history rq = Ok r) ->
        ok r = false -> isRetryableError (status r) = false ->
        body r = Stream None -> bodyUsed r = false ->
        fst (createAntigravityFetch getAuth client_set providerId url init s)
        = Throw (Err ETypeError "terminated")).
Proof.
  repeat apply conj.
  - exists Demo.auth. repeat split.
  - left. reflexivity.
  - vm_compute. reflexivity.
  - vm_compute. reflexivity.
  - intros P C W getAuth client_set providerId url init s r H1 H2 H3 H4 H5 H6 H7 H8 H9 H10.
    exact (call_throws_on_unreadable_error getAuth client_set providerId url init s r
             H1 H2 H3 H4 H5 H6 H7 H8 H9 H10).
Qed.

(** ** Which exceptions a call can raise *)

Section Exceptions.
Context {P : Platform} {C : Constants} {W : Collaborators}.

Lemma try_catch_returns {A : Type} (r : result A) (fallback : A) :
  exists a, try_catch r (fun _ => Ok fallback) = Ok a.
Proof. destruct r; cbn; eauto. Qed.

(** X1.  The transform of a successful response (a 2xx status) never
    throws, streaming or not: every step that can fail sits in a [try]
    whose handler returns the response. *)
Theorem success_transform_never_throws (r : Response) (modelName : string) :
  ok r = true -> exists res, transformResponseWithThinking r modelName = Ok res.
Proof.
  intros Hok. unfold transformResponseWithThinking.
  destruct (isStreamingResponse r) eqn:Es.
  - unfold transformStreamingResponse. rewrite Hok. cbn [negb].
    unfold isStreamingResponse in Es. rewrite Es. cbn [negb].
    destruct (text r) as [read r'].
    match goal with
    | |- context [try_catch ?x (fun _ => Ok ?f)] =>
        destruct (try_catch_returns x f) as [a ->]
    end.
    cbn [rbind andb]. eauto.
  - assert (Hfirst : exists result, transformResponse r = Ok result).
    { unfold transformResponse. rewrite Hok. cbn [negb].
      destruct (negb (Str.includes _ "application/json")); [eauto|].
      destruct (text r) as [read r'].
      match goal with
      | |- context [try_catch ?x (fun _ => Ok ?f)] =>
          destruct (try_catch_returns x f) as [a ->]
      end.
      eauto. }
    destruct Hfirst as [result ->]. cbn [rbind negb andb].
    destruct (shouldIncludeThinking modelName); [|eauto].
    match goal with
    | |- context [match ?x with Ok _ => _ | Throw _ => _ end] =>
        destruct x as [[fresh|]|e]
    end; eauto.
Qed.

(** A transform that throws was given a response that is not successful. *)
Lemma transform_throws_not_ok (r : Response) (modelName : string) (e : exn) :
  transformResponseWithThinking r modelName = Throw e -> ok r = false.
Proof.
  destruct (ok r) eqn:Hok; [|reflexivity]. intros Hthrow. exfalso. revert Hthrow.
  unfold transformResponseWithThinking.
  destruct (isStreamingResponse r) eqn:Es.
  - unfold transformStreamingResponse. rewrite Hok. cbn [negb].
    unfold isStreamingResponse in Es. rewrite Es. cbn [negb].
    destruct (text r) as [read r'].
    match goal with
    | |- context [try_catch ?x (fun _ => Ok ?f)] =>
        destruct (try_catch_returns x f) as [a ->]
    end.
    cbn [rbind andb]. discriminate.
  - unfold transformResponse. rewrite Hok. cbn [negb].
    destruct (negb (Str.includes _ "application/json")).
    + cbn [rbind negb andb]. destruct (shouldIncludeThinking modelName); [|discriminate].
      match goal with
      | |- context [match ?x with Ok _ => _ | Throw _ => _ end] =>
          destruct x as [[fresh|]|e']
      end; discriminate.
    + destruct (text r) as [read r'].
      match goal with
      | |- context [try_catch ?x (fun _ => Ok ?f)] =>
          destruct (try_catch_returns x f) as [a ->]
      end.
      cbn [rbind negb andb]. destruct (shouldIncludeThinking modelName); [|discriminate].
      match goal with
      | |- context [match ?x with Ok _ => _ | Throw _ => _ end] =>
          destruct x as [[fresh|]|e']
      end; discriminate.
Qed.

(** X2.  Past its prelude a call has one source of exceptions.  The loop
    over the endpoints never throws, whatever the state, the network, the
    tool normalizer and the body are: everything in [attemptFetch] sits
    in a [try].  When the loop lets a response through, it is the answer
    of the network to the last request sent and its status is not
    retryable, and the step that follows, the transform, throws on it
    only if it is not successful.  When the loop lets nothing through,
    every endpoint has been tried, in order. *)
Theorem endpoints_loop_never_throws (endpoints : list string) (url : string)
    (init : RequestInit) (accessToken project_id : string) (modelName : option string)
    (s : State) :
  exists found tried_now requests,
    tryEndpoints endpoints url init accessToken project_id modelName s
    = (Ok found, logged s tried_now requests)
    /\ match found with
       | Some r =>
           isRetryableError (status r) = false
           /\ (exists before rq,
                 requests = before ++ [rq] /\ fetch (sent s ++ before) rq = Ok r)
           /\ forall name e,
                transformResponseWithThinking r name = Throw e -> ok r = false
       | None => tried_now = endpoints
       end.
Proof.
  revert init s. induction endpoints as [|e rest IH]; intros init s.
  - exists None, [], []. rewrite logged_nil. split; reflexivity.
  - rewrite tryEndpoints_cons, attemptFetch_run.
    assert (Hnext : forall init' sent_now,
               exists found tried_now requests,
                 tryEndpoints rest url init' accessToken project_id modelName
                   (logged s [e] sent_now)
                 = (Ok found, logged s tried_now requests)
                 /\ match found with
                    | Some r =>
                        isRetryableError (status r) = false
                        /\ (exists before rq,
                              requests = before ++ [rq]
                              /\ fetch (sent s ++ before) rq = Ok r)
                        /\ forall name e',
                             transformResponseWithThinking r name = Throw e' -> ok r = false
                    | None => tried_now = e :: rest
                    end).
    { intros init' sent_now.
      destruct (IH init' (logged s [e] sent_now)) as (found & t & rqs & Hrun & Hfound).
      exists found, ([e] ++ t), (sent_now ++ rqs).
      rewrite Hrun, logged_logged. split; [reflexivity|].
      destruct found as [r|]; [|now subst].
      destruct Hfound as (Hr & (before & rq & -> & Hf) & Ht).
      split; [exact Hr|]. split; [|exact Ht].
      exists (sent_now ++ before), rq. cbn [logged sent] in Hf.
      rewrite <- !app_assoc in *. now split. }
    destruct (prepareAttempt e url init accessToken project_id modelName)
      as [[rq init']|err]; [|apply Hnext].
    destruct (fetch (sent s) rq) as [r|err] eqn:Ef; [|apply Hnext].
    destruct (isRetryableError (status r)) eqn:Er; [apply Hnext|].
    exists (Some r), [e], [rq]. split; [reflexivity|].
    split; [exact Er|]. split.
    + exists [], rq. rewrite app_nil_r. now split.
    + intros name e'. apply transform_throws_not_ok.
Qed.

End Exceptions.

(** A 200 answer that claims to be JSON and is not: the response comes
    back as it is. *)
Lemma success_transform_never_throws_witness :
  exists res,
    transformResponseWithThinking (P := Reference.platform)
      (W := Demo.world (Demo.always (Throw NonError)))
      (Demo.answer 200 "application/json" "not json at all") "gemini"
    = Ok res.
Proof. apply success_transform_never_throws. reflexivity. Defined.

(** ** Streaming requests *)

Section StreamingRequest.
Context {C : Constants}.

Lemma isStreamingRequest_spec (url : string) (body : props json) :
  isStreamingRequest url body = true <->
  extractActionFromUrl url = Some "streamGenerateContent"
  \/ obj_get "stream" body = Some (JBool true).
Proof.
  unfold isStreamingRequest. cbv zeta.
  destruct (extractActionFromUrl url) as [a|].
  - destruct (String.eqb_spec a "streamGenerateContent") as [->|Hne].
    + split; [now left | reflexivity].
    + destruct (obj_get "stream" body) as [[|[]| | | |]|];
        split; try discriminate; try (intros [[= ?]|?]; congruence); auto.
  - destruct (obj_get "stream" body) as [[|[]| | | |]|];
      split; try discriminate; try (intros [?|?]; congruence); auto.
Qed.

(** X4.  A request is a streaming one exactly when the action segment of
    the URL is [streamGenerateContent] or [body.stream === true].  The
    transformed URL is [{endpoint}/{apiVersion}:{action}] with the action
    of the detected mode, [?alt=sse] being appended and the header
    [Accept: text/event-stream] added only when streaming; the bearer
    authorization and the JSON content type are always there. *)
Theorem transformRequest_streaming (url : string) (body : props json)
    (accessToken project_id : string) (modelName : option string) (endpoint : string) :
  endpoint <> EmptyString ->
  let t := transformRequest url body accessToken project_id modelName (Some endpoint) in
  (tr_streaming t = true <->
     extractActionFromUrl url = Some "streamGenerateContent"
     \/ obj_get "stream" body = Some (JBool true))
  /\ (tr_streaming t = true ->
        tr_url t = endpoint +:+ "/" +:+ ANTIGRAVITY_API_VERSION +:+ ":"
                   +:+ "streamGenerateContent" +:+ "?alt=sse"
        /\ obj_get "Accept" (tr_headers t) = Some "text/event-stream")
  /\ (tr_streaming t = false ->
        tr_url t = endpoint +:+ "/" +:+ ANTIGRAVITY_API_VERSION +:+ ":"
                   +:+ "generateContent" +:+ ""
        /\ obj_get "Accept" (tr_headers t) = None)
  /\ obj_get "Authorization" (tr_headers t) = Some ("Bearer " +:+ accessToken)
  /\ obj_get "Content-Type" (tr_headers t) = Some "application/json".
Proof.
  intros Hne. cbv zeta.
  cbn [transformRequest tr_streaming tr_url tr_headers].
  apply nonempty_true in Hne.
  unfold or_else, template, buildAntigravityUrl. rewrite Hne.
  repeat apply conj.
  - apply isStreamingRequest_spec.
  - apply isStreamingRequest_spec.
  - intros ->. split; reflexivity.
  - intros ->. split; reflexivity.
  - destruct (isStreamingRequest url body); reflexivity.
  - destruct (isStreamingRequest url body); reflexivity.
Qed.

End StreamingRequest.

(** The sample URL with a body that asks for a stream. *)
Lemma transformRequest_streaming_witness :
  tr_url (transformRequest (C := Demo.constants) Demo.chat_url [("stream", JBool true)]
            "token" "p" None (Some "https://daily.example"))
  = "https://daily.example/v1internal:streamGenerateContent?alt=sse".
Proof.
  destruct (transformRequest_streaming (C := Demo.constants) Demo.chat_url
              [("stream", JBool true)] "token" "p" None "https://daily.example")
    as (Hs & Hurl & _); [discriminate|].
  destruct Hurl as [-> _]; [apply Hs; now right | reflexivity].
Defined.

(** ** Lines after the rewrite *)

Section Lines.

Lemma all_units_app (p : ascii -> bool) (a b : string) :
  all_units p (a +:+ b) = all_units p a && all_units p b.
Proof.
  induction a as [|c a IH]; [reflexivity|].
  rewrite append_cons. cbn. rewrite IH. now rewrite andb_assoc.
Qed.

Lemma split_single_line (l : string) :
  single_line l = true -> Str.split Str.LF l = [l].
Proof.
  unfold single_line. induction l as [|c l IH]; cbn; [reflexivity|].
  intros H. apply andb_true_iff in H as [Hc Hl].
  apply negb_true_iff in Hc. rewrite Hc, (IH Hl). reflexivity.
Qed.

Lemma split_line_break (l rest : string) :
  single_line l = true ->
  Str.split Str.LF (l +:+ String Str.LF rest) = l :: Str.split Str.LF rest.
Proof.
  unfold single_line. induction l as [|c l IH]; intros H.
  - rewrite append_nil. reflexivity.
  - cbn in H. apply andb_true_iff in H as [Hc Hl]. apply negb_true_iff in Hc.
    rewrite append_cons. cbn [Str.split]. rewrite Hc, (IH Hl). reflexivity.
Qed.

(** The lines of a text have no newline in them. *)
Lemma split_lines_single (s : string) :
  Forall (fun l => single_line l = true) (Str.split Str.LF s).
Proof.
  induction s as [|c s IH]; cbn [Str.split].
  - repeat constructor.
  - destruct (Ascii.eqb c Str.LF) eqn:Ec.
    + constructor; [reflexivity | exact IH].
    + destruct (Str.split Str.LF s) as [|l ls]; [repeat constructor; cbn; now rewrite Ec|].
      inversion IH as [|? ? Hl Hls]; subst.
      constructor; [|exact Hls]. unfold single_line in *. cbn. now rewrite Ec, Hl.
Qed.

Lemma split_nonempty (s : string) : Str.split Str.LF s <> [].
Proof.
  destruct s as [|c s]; cbn; [discriminate|].
  destruct (Ascii.eqb c Str.LF); [discriminate|].
  destruct (Str.split Str.LF s); discriminate.
Qed.

(** Joining lines and splitting again gives the lines back. *)
Lemma split_join (ls : list string) :
  ls <> [] -> Forall (fun l => single_line l = true) ls ->
  Str.split Str.LF (Str.join (String Str.LF EmptyString) ls) = ls.
Proof.
  induction ls as [|l ls IH]; [congruence|].
  intros _ Hall. inversion Hall as [|? ? Hl Hls]; subst.
  destruct ls as [|l2 ls].
  - cbn. now apply split_single_line.
  - change (Str.join (String Str.LF EmptyString) (l :: l2 :: ls))
      with (l +:+ String Str.LF EmptyString +:+ Str.join (String Str.LF EmptyString) (l2 :: ls)).
    change (String Str.LF EmptyString +:+ ?x) with (String Str.LF x).
    rewrite split_line_break by exact Hl. f_equal. apply IH; [discriminate | exact Hls].
Qed.

End Lines.

Section LinesRewritten.
Context {P : Platform}.

(** X5.  On a platform whose [JSON.stringify] emits no newline, the
    rewritten payload has exactly the lines of the original, each mapped
    by [transformSseLine]: splitting the output at newlines gives the
    mapped lines, as many and in the same order. *)
Theorem transformStreamingPayload_resplit (payload : string) :
  (forall v, single_line (JSON_stringify v) = true) ->
  Str.split Str.LF (transformStreamingPayload payload)
  = List.map transformSseLine (Str.split Str.LF payload).
Proof.
  intros Hs. unfold transformStreamingPayload. apply split_join.
  - pose proof (split_nonempty payload) as Hne.
    destruct (Str.split Str.LF payload); [congruence | discriminate].
  - apply Forall_map. eapply Forall_impl; [apply split_lines_single|].
    intros line Hline. cbn beta. rewrite transformSseLine_cases.
    destruct (data_payload line) as [p|]; [|exact Hline].
    destruct (negb (Str.nonempty p) || String.eqb p "[DONE]"); [exact Hline|].
    destruct (JSON_parse p) as [v|]; [|exact Hline].
    destruct (field v "response") as [inner|]; [|exact Hline].
    unfold single_line. rewrite all_units_app. fold (single_line (JSON_stringify inner)).
    now rewrite Hs.
Qed.

End LinesRewritten.

(** The reference [JSON.stringify] emits no newline. *)

Section ReferenceSingleLine.

Lemma single_line_app (a b : string) :
  single_line (a +:+ b) = single_line a && single_line b.
Proof. apply all_units_app. Qed.

Lemma pretty_N_go_single_line (x : N) (s : string) :
  single_line s = true -> single_line (pretty_N_go x s) = true.
Proof.
  revert s. induction (N.lt_wf_0 x) as [x _ IH]; intros s Hs.
  destruct (decide (x = 0%N)) as [->|Hx].
  - now rewrite pretty_N_go_0.
  - rewrite pretty_N_go_step by lia. apply IH.
    + apply N.div_lt; lia.
    + unfold single_line in *. cbn [all_units]. rewrite Hs.
      unfold pretty_N_char. now repeat case_match.
Qed.

Lemma digits_of_single_line (z : Z) : single_line (Reference.digits_of z) = true.
Proof.
  unfold Reference.digits_of, pretty, pretty_N.
  case_decide; [reflexivity|]. now apply pretty_N_go_single_line.
Qed.

Lemma zeros_single_line (n : nat) : single_line (Reference.zeros n) = true.
Proof. induction n as [|n IH]; [reflexivity | exact IH]. Qed.

Lemma substring_single_line (n m : nat) (s : string) :
  single_line s = true -> single_line (String.substring n m s) = true.
Proof.
  unfold single_line. revert n m.
  induction s as [|c s IH]; intros n m Hs.
  - destruct n, m; reflexivity.
  - cbn in Hs. apply andb_true_iff in Hs as [Hc Hs].
    destruct n as [|n]; [destruct m as [|m]|]; cbn; [reflexivity | | now apply IH].
    rewrite Hc. now apply IH.
Qed.

Lemma slice_single_line (n : nat) (s : string) :
  single_line s = true -> single_line (Str.slice n s) = true.
Proof.
  unfold single_line. revert n. induction s as [|c s IH]; intros n Hs.
  - now destruct n.
  - destruct n as [|n]; [exact Hs|]. cbn in *.
    apply andb_true_iff in Hs as [_ Hs]. now apply IH.
Qed.

Lemma format_number_single_line (s n k : Z) :
  single_line (Reference.format_number s n k) = true.
Proof.
  unfold Reference.format_number.
  pose proof (digits_of_single_line s) as Hd.
  repeat match goal with
         | |- context [if ?c then _ else _] => destruct c
         end;
    rewrite ?single_line_app, ?Hd, ?zeros_single_line, ?digits_of_single_line,
      ?substring_single_line, ?slice_single_line by exact Hd;
    reflexivity.
Qed.

Lemma Number_toString_single_line (x : number) :
  single_line (Reference.ref_Number_toString x) = true.
Proof.
  destruct x as [sg|sg| |sg m e]; cbn [Reference.ref_Number_toString];
    try (destruct sg; reflexivity); try reflexivity.
  destruct (Reference.fraction_of m e) as [num den].
  destruct (Reference.shortest 17 _ num den _ 1) as [[s n'] k].
  rewrite single_line_app, format_number_single_line. now destruct sg.
Qed.

Lemma escape_single_line (c : ascii) : single_line (Reference.escape c) = true.
Proof. destruct c as [[] [] [] [] [] [] [] []]; reflexivity. Qed.

Lemma escape_all_single_line (s : string) : single_line (Reference.escape_all s) = true.
Proof.
  induction s as [|c s IH]; [reflexivity|].
  cbn [Reference.escape_all]. now rewrite single_line_app, escape_single_line, IH.
Qed.

Lemma quote_single_line (s : string) : single_line (Reference.quote s) = true.
Proof.
  unfold Reference.quote.
  change (String Reference.QUOTE ?x) with (String Reference.QUOTE EmptyString +:+ x).
  now rewrite !single_line_app, escape_all_single_line.
Qed.

Lemma join_single_line (sep : string) (ls : list string) :
  single_line sep = true -> Forall (fun l => single_line l = true) ls ->
  single_line (Str.join sep ls) = true.
Proof.
  intros Hsep. induction ls as [|l ls IH]; intros Hall; [reflexivity|].
  inversion Hall as [|? ? Hl Hls]; subst.
  destruct ls as [|l2 ls]; [exact Hl|].
  change (Str.join sep (l :: l2 :: ls)) with (l +:+ sep +:+ Str.join sep (l2 :: ls)).
  now rewrite !single_line_app, Hl, Hsep, (IH Hls).
Qed.

Lemma ref_JSON_stringify_single_line (v : json) :
  single_line (Reference.ref_JSON_stringify v) = true.
Proof.
  revert v. fix IH 1. intros [|[]|x|s|items|fields]; cbn [Reference.ref_JSON_stringify].
  - reflexivity.
  - reflexivity.
  - reflexivity.
  - destruct x; try reflexivity; apply Number_toString_single_line.
  - apply quote_single_line.
  - rewrite !single_line_app, join_single_line; [reflexivity | reflexivity |].
    induction items as [|i items IHitems]; constructor; [apply IH | exact IHitems].
  - rewrite !single_line_app, join_single_line; [reflexivity | reflexivity |].
    induction fields as [|[k e] fields IHfields]; constructor; [|exact IHfields].
    now rewrite !single_line_app, quote_single_line, IH.
Qed.

End ReferenceSingleLine.

(** The four lines of the example, split again after the rewrite. *)
Lemma transformStreamingPayload_resplit_witness :
  Str.split Str.LF
    (transformStreamingPayload (P := Reference.platform)
       (Str.join (String Str.LF EmptyString)
          ["event: ping"; ""; Demo.dq "data: {'response':{'a':1}}"; "data: [DONE]"]))
  = ["event: ping"; ""; Demo.dq "data: {'a':1}"; "data: [DONE]"].
Proof.
  rewrite (transformStreamingPayload_resplit (P := Reference.platform) _
             ref_JSON_stringify_single_line).
  vm_compute. reflexivity.
Defined.

(** ** Usage in an event stream *)

Section SseUsage.
Context {P : Platform}.

Lemma truthy_object_container (v : option json) : truthy_object v = container v.
Proof.
  destruct v as [[| | | | |]|]; cbn; rewrite ?andb_false_r; reflexivity.
Qed.

Lemma read_counters_container (v : option json) (meta : json)
    (prompt completion total : string) :
  container v = Some meta ->
  read_counters meta prompt completion total = Ok (counters meta prompt completion total).
Proof.
  destruct v as [[| | | | |]|]; cbn; try discriminate; intros [= <-]; reflexivity.
Qed.

Lemma usage_of_line_spec (line : string) : usage_of_line line = line_usage line.
Proof.
  unfold usage_of_line, line_usage, data_payload.
  destruct (Str.startsWith line "data:"); cbn [negb]; [|reflexivity].
  destruct (Str.nonempty (Str.trim (Str.slice 5 line))); cbn [negb orb andb];
    [|reflexivity].
  destruct (String.eqb (Str.trim (Str.slice 5 line)) "[DONE]"); cbn [negb];
    [reflexivity|].
  unfold JSON_parse_r.
  destruct (JSON_parse (Str.trim (Str.slice 5 line))) as [event|]; cbn [rbind];
    [|reflexivity].
  unfold event_usage.
  destruct event as [|b|x|s|items|o]; try reflexivity.
  cbn [get rbind field].
  rewrite !truthy_object_container.
  destruct (container (obj_get "usageMetadata" o)) as [meta|] eqn:E1.
  { now rewrite (read_counters_container _ _ _ _ _ E1). }
  cbn [rbind].
  destruct (container (obj_get "response" o)) as [wrapper|] eqn:E2.
  - assert (Hw : get wrapper "usageMetadata" = Ok (field wrapper "usageMetadata")).
    { destruct (obj_get "response" o) as [[| | | | |]|]; cbn in E2; try discriminate;
        injection E2 as <-; reflexivity. }
    rewrite Hw. cbn [rbind]. rewrite truthy_object_container.
    destruct (container (field wrapper "usageMetadata")) as [meta|] eqn:E3.
    { now rewrite (read_counters_container _ _ _ _ _ E3). }
    cbn [rbind].
    destruct (container (obj_get "usage" o)) as [u|] eqn:E4; [|reflexivity].
    now rewrite (read_counters_container _ _ _ _ _ E4).
  - cbn [rbind].
    destruct (container (obj_get "usage" o)) as [u|] eqn:E4; [|reflexivity].
    now rewrite (read_counters_container _ _ _ _ _ E4).
Qed.

(** X6.  [extractUsageFromSsePayload] returns the usage of the first line
    of the payload, in order, that carries one, and [undefined] when no
    line does.  A line carries usage when it is a [data:] line whose
    payload, trimmed, is neither empty nor [[DONE]] and parses to a value
    with a [usageMetadata], or else a [response.usageMetadata], or else a
    [usage] that is an object or an array; a counter that is missing or is
    not a number is reported as 0.  Every other line is skipped, among
    them payloads that are not JSON and the payload [null]. *)
Theorem extractUsageFromSsePayload_first_event (payload : string) :
  extractUsageFromSsePayload payload
  = head (omap line_usage (Str.split Str.LF payload)).
Proof.
  unfold extractUsageFromSsePayload.
  induction (Str.split Str.LF payload) as [|line rest IH]; [reflexivity|].
  cbn [usage_of_lines omap list_omap]. rewrite usage_of_line_spec.
  destruct (line_usage line); [reflexivity | exact IH].
Qed.

End SseUsage.

(** ** The two transforms on an error response *)

Section ErrorTransforms.
Context {P : Platform}.

Lemma readable_details_false (details : list json) :
  readable_details details = false ->
  find_RetryInfo details = Throw (Err ETypeError "Cannot read properties of null").
Proof.
  induction details as [|d details IH]; [discriminate|].
  cbn [readable_details find_RetryInfo].
  destruct d as [|b|x|s|items|fields]; try reflexivity; try (cbn; exact IH).
  unfold is_RetryInfo. cbn [get rbind field].
  destruct (obj_get "@type" fields) as [[| | |t| |]|]; cbn [orb]; try exact IH.
  destruct (String.eqb t RetryInfo_type); [discriminate | exact IH].
Qed.

Lemma readable_body_false (errorBody : json) :
  readable_body errorBody = false ->
  exists fields efields details,
    errorBody = JObj fields /\ obj_get "error" fields = Some (JObj efields)
    /\ obj_get "details" efields = Some (JArr details)
    /\ readable_details details = false.
Proof.
  unfold readable_body.
  destruct errorBody as [| | | | |fields]; cbn [field]; try discriminate.
  destruct (obj_get "error" fields) as [[| | | | |efields]|] eqn:E1; cbn [field];
    try discriminate.
  destruct (obj_get "details" efields) as [[| | | |details|]|] eqn:E2; try discriminate.
  intros H. now exists fields, efields, details.
Qed.

Lemma header_miss (r : Response) (errorBody : option json) :
  first_hit (hit_Retry_After (headers r)) (hit_retry_after_ms (headers r)) None = None ->
  extractRetryAfterMs r errorBody =
    match errorBody with
    | None => Ok None
    | Some b =>
        if readable_body b then Ok (hit_RetryInfo b)
        else Throw (Err ETypeError "Cannot read properties of null")
    end.
Proof.
  intros Hh. destruct errorBody as [b|].
  - destruct (readable_body b) eqn:Er; [now apply extractRetryAfterMs_body|].
    pose proof (extractRetryAfterMs_normalized r None) as Hn. rewrite Hh in Hn.
    destruct (readable_body_false b Er) as (fields & efields & details & -> & E1 & E2 & E3).
    revert Hn. unfold extractRetryAfterMs.
    destruct (if present (Headers_get (headers r) "Retry-After") then _ else _);
      [discriminate|].
    destruct (if present (Headers_get (headers r) "retry-after-ms") then _ else _);
      [discriminate|].
    intros _. cbn [truthy negb get rbind]. rewrite E1. cbn [get_opt get rbind].
    rewrite E2. now rewrite (readable_details_false _ E3).
  - pose proof (extractRetryAfterMs_normalized r None) as Hn. now rewrite Hh in Hn.
Qed.

(** X7.  [extractRetryAfterMs], completely: a hit of the [Retry-After]
    header, or else of the [retry-after-ms] header, is returned whatever
    the body holds; without one and without an error body the result is
    [undefined]; with an error body it is the delay of the RetryInfo
    entry, except that a [null] entry of [error.details] that comes
    before the first RetryInfo entry makes the function throw a
    [TypeError]. *)
Theorem extractRetryAfterMs_outcome (r : Response) (errorBody : option json) :
  extractRetryAfterMs r errorBody =
    match first_hit (hit_Retry_After (headers r)) (hit_retry_after_ms (headers r)) None with
    | Some x => Ok (Some x)
    | None =>
        match errorBody with
        | None => Ok None
        | Some b =>
            if readable_body b then Ok (hit_RetryInfo b)
            else Throw (Err ETypeError "Cannot read properties of null")
        end
    end.
Proof.
  destruct (first_hit (hit_Retry_After (headers r)) (hit_retry_after_ms (headers r)) None)
    as [x|] eqn:Eh.
  - now apply extractRetryAfterMs_header_hit.
  - now apply header_miss.
Qed.

Lemma retry_value_merge (r : Response) (b : json) (fromBody : option number) :
  extractRetryAfterMs r (Some b) = Ok fromBody ->
  match fromBody with
  | Some ms => Some ms
  | None => first_hit (hit_Retry_After (headers r)) (hit_retry_after_ms (headers r)) None
  end = fromBody.
Proof.
  intros H. destruct fromBody as [ms|]; [reflexivity|].
  destruct (first_hit (hit_Retry_After (headers r)) (hit_retry_after_ms (headers r)) None)
    as [x|] eqn:Eh; [|reflexivity].
  rewrite (extractRetryAfterMs_header_hit r (Some b) x Eh) in H. discriminate.
Qed.

(** X8.  On a response that is not successful the streaming transform and
    the plain transform do the same: they return the same result, or throw
    the same exception. *)
Theorem error_transforms_agree (res : Response) :
  ok res = false -> transformStreamingResponse res = transformResponse res.
Proof.
  intros Hok. unfold transformStreamingResponse, transformResponse.
  rewrite Hok. cbn [negb].
  destruct (text res) as [[txt|e] res']; cbn [rbind]; [|reflexivity].
  rewrite extractRetryAfterMs_normalized. cbn [rbind].
  match goal with
  | |- context [extractRetryAfterMs res' (Some ?b)] =>
      destruct (extractRetryAfterMs res' (Some b)) as [fromBody|e] eqn:E
  end; cbn [rbind]; [|reflexivity].
  now rewrite (retry_value_merge _ _ _ E).
Qed.

(** Whether [new Response] accepts the status of a response that is not
    successful. *)
Lemma new_Response_error_status (txt : string) (st : Z) (stText : string)
    (hs : gmap string string) :
  (200 <=? st) && (st <=? 299) = false ->
  (exists e, new_Response txt st stText hs = Throw e)
  <-> ~ (300 <= st <= 599) \/ st = 304.
Proof.
  intros Hok. unfold new_Response, null_body_status.
  destruct (Z.leb_spec 200 st), (Z.leb_spec st 299); cbn in Hok; try discriminate;
    destruct (Z.leb_spec st 599); cbn [andb negb];
    try (split; [intros _; left; lia | intros _; eauto]).
  destruct (Z.eqb_spec st 101); [lia|].
  destruct (Z.eqb_spec st 103); [lia|].
  destruct (Z.eqb_spec st 204); [lia|].
  destruct (Z.eqb_spec st 205); [lia|].
  destruct (Z.eqb_spec st 304); cbn [orb].
  - split; [intros _; now right | intros _; eauto].
  - split; [intros [e He]; discriminate | intros [Hr | Hr]; [lia | contradiction]].
Qed.

(** X9.  When the transform of a response that is not successful throws:
    exactly when the body cannot be read to its end, or neither retry
    header gives a value and [error.details] of the body holds a [null]
    before its first RetryInfo entry, or the status is not one that
    [new Response] takes with a body, which of the statuses that are not
    2xx are those outside 300..599 and 304. *)
Theorem error_transform_throws_exactly (res : Response) :
  ok res = false ->
  ((exists e, transformResponse res = Throw e)
   <-> (exists e, fst (text res) = Throw e)
       \/ (exists txt,
             fst (text res) = Ok txt
             /\ ((hit_Retry_After (headers res) = None
                  /\ hit_retry_after_ms (headers res) = None
                  /\ readable_body (errorBody_of txt) = false)
                 \/ ~ (300 <= status res <= 599) \/ status res = 304))).
Proof.
  intros Hok.
  assert (Hres : headers (snd (text res)) = headers res
                 /\ status (snd (text res)) = status res).
  { unfold text. destruct (body res); [auto|]. destruct (bodyUsed res); [auto|].
    destruct content; auto. }
  destruct Hres as [Hh Hs].
  unfold transformResponse. rewrite Hok. cbn [negb].
  destruct (text res) as [[txt|e] res'] eqn:Et; cbn [rbind fst snd] in *.
  2:{ split; [intros _; left; eauto | intros _; eauto]. }
  rewrite extractRetryAfterMs_normalized. cbn [rbind].
  fold (errorBody_of txt).
  assert (Hout : extractRetryAfterMs res' (Some (errorBody_of txt))
                 = match first_hit (hit_Retry_After (headers res))
                           (hit_retry_after_ms (headers res)) None with
                   | Some x => Ok (Some x)
                   | None =>
                       if readable_body (errorBody_of txt)
                       then Ok (hit_RetryInfo (errorBody_of txt))
                       else Throw (Err ETypeError "Cannot read properties of null")
                   end).
  { rewrite <- Hh.
    destruct (first_hit (hit_Retry_After (headers res'))
                (hit_retry_after_ms (headers res')) None) as [x|] eqn:Eh.
    - now apply extractRetryAfterMs_header_hit.
    - exact (header_miss res' (Some (errorBody_of txt)) Eh). }
  rewrite Hout, Hh, Hs.
  assert (Hnew : forall hs,
             (exists e, new_Response txt (status res) (statusText res') hs = Throw e)
             <-> ~ (300 <= status res <= 599) \/ status res = 304).
  { intros hs. apply new_Response_error_status. exact Hok. }
  destruct (first_hit (hit_Retry_After (headers res)) (hit_retry_after_ms (headers res)) None)
    as [x|] eqn:Eh.
  - cbn [rbind].
    assert (Hne : ~ (hit_Retry_After (headers res) = None
                     /\ hit_retry_after_ms (headers res) = None
                     /\ readable_body (errorBody_of txt) = false)).
    { intros (E1 & E2 & _). rewrite E1, E2 in Eh. discriminate. }
    match goal with
    | |- context [new_Response txt _ _ ?hs] =>
        specialize (Hnew hs); destruct (new_Response txt (status res) (statusText res') hs)
    end; cbn [rbind].
    + split; [intros [e He]; discriminate|].
      intros [[e He] | (t & [= <-] & [Hb | Hst])]; [discriminate | contradiction |].
      apply Hnew in Hst. destruct Hst as [e He]. discriminate.
    + split; [|intros _; eauto].
      intros _. right. exists txt. split; [reflexivity|]. right. apply Hnew. eauto.
  - destruct (first_hit_None_inv _ _ None Eh) as (E1 & E2 & _).
    destruct (readable_body (errorBody_of txt)) eqn:Er; cbn [rbind].
    + match goal with
      | |- context [new_Response txt _ _ ?hs] =>
          specialize (Hnew hs); destruct (new_Response txt (status res) (statusText res') hs)
      end; cbn [rbind].
      * split; [intros [e He]; discriminate|].
        intros [[e He] | (t & [= <-] & [(_ & _ & Hb) | Hst])]; [discriminate | congruence |].
        apply Hnew in Hst. destruct Hst as [e He]. discriminate.
      * split; [|intros _; eauto].
        intros _. right. exists txt. split; [reflexivity|]. right. apply Hnew. eauto.
    + split; [|intros _; eauto].
      intros _. right. exists txt. split; [reflexivity|]. left. auto.
Qed.

End ErrorTransforms.

(** ** The transforms on a successful response *)

Section SuccessTransforms.
Context {P : Platform}.

Lemma ok_status (r : Response) : ok r = true -> 200 <= status r <= 599.
Proof.
  unfold ok. intros H. apply andb_true_iff in H as [H1 H2].
  apply Z.leb_le in H1, H2. lia.
Qed.

Lemma includes_content_type (r : Response) (sub : string) :
  sub <> EmptyString ->
  Str.includes (default "" (Headers_get (headers r) "content-type")) sub = true ->
  with_content_type (headers r) = headers r.
Proof.
  intros Hsub. unfold with_content_type.
  destruct (Headers_get (headers r) "content-type"); [reflexivity|].
  cbn [default from_option id]. destruct sub; [congruence | discriminate].
Qed.

Lemma unwrap_unwrapped (parsed : json) :
  parsed <> JNull -> unwrap parsed = Ok (unwrapped parsed).
Proof.
  intros H. unfold unwrap, unwrapped.
  destruct parsed; try congruence; reflexivity.
Qed.

Lemma text_read (r : Response) (txt : string) :
  fst (text r) = Ok txt ->
  status (snd (text r)) = status r /\ statusText (snd (text r)) = statusText r
  /\ headers (snd (text r)) = headers r.
Proof.
  unfold text. destruct (body r); [auto|]. destruct (bodyUsed r); [auto|].
  destruct content; auto.
Qed.

Lemma new_Response_made (txt : string) (st : Z) (stText : string)
    (hs : gmap string string) :
  200 <= st <= 599 -> null_body_status st = false ->
  new_Response txt st stText hs =
    Ok {| status := st; statusText := stText; headers := with_content_type hs;
          body := Stream (Some txt); bodyUsed := false |}.
Proof. intros. now apply new_Response_ok. Qed.

(** The rewrite of a successful JSON response. *)
Lemma transformResponse_rewrites (res : Response) (txt : string) (parsed : json) :
  ok res = true ->
  Str.includes (default "" (Headers_get (headers res) "content-type")) "application/json"
  = true ->
  fst (text res) = Ok txt -> JSON_parse txt = Some parsed -> parsed <> JNull ->
  null_body_status (status res) = false ->
  transformResponse res =
    Ok {| response :=
            {| status := status res; statusText := statusText res;
               headers := headers res;
               body := Stream (Some (JSON_stringify (unwrapped parsed)));
               bodyUsed := false |};
          usage := extractUsageFromHeaders (headers res);
          retryAfterMs := None; error := None |}.
Proof.
  intros Hok Hjson Hread Hparse Hnull Hst.
  pose proof (text_read res txt Hread) as (Es & Et & Eh).
  unfold transformResponse. rewrite Hok, Hjson. cbn [negb].
  destruct (text res) as [read res']. cbn [fst snd] in *. subst read.
  cbn [rbind]. unfold JSON_parse_r. rewrite Hparse. cbn [rbind].
  rewrite (unwrap_unwrapped parsed Hnull). cbn [rbind].
  rewrite Es, Et.
  rewrite new_Response_made by (try apply ok_status; assumption).
  rewrite (includes_content_type res "application/json") by (discriminate || assumption).
  reflexivity.
Qed.

(** X10.  The rewrite of a successful JSON response.  When the response
    is successful, its content type contains [application/json], its body
    reads as a text that parses to a value other than [null] and its
    status allows a body, [transformResponse] returns a new response with
    the same status, status text and headers whose body is the
    serialization of the [response] field of the parsed value, or of the
    parsed value itself when it has no such field; the usage is the one
    of the headers and no error or retry value is reported.  The
    interceptor returns that response when the response is not an event
    stream and thinking is not included for the model. *)
Theorem json_response_unwrapped {W : Collaborators}
    (res : Response) (txt modelName : string) (parsed : json) :
  ok res = true ->
  Str.includes (default "" (Headers_get (headers res) "content-type")) "application/json"
  = true ->
  fst (text res) = Ok txt -> JSON_parse txt = Some parsed -> parsed <> JNull ->
  null_body_status (status res) = false ->
  let rewritten :=
    {| status := status res; statusText := statusText res; headers := headers res;
       body := Stream (Some (JSON_stringify (unwrapped parsed))); bodyUsed := false |} in
  transformResponse res =
    Ok {| response := rewritten; usage := extractUsageFromHeaders (headers res);
          retryAfterMs := None; error := None |}
  /\ (isStreamingResponse res = false -> shouldIncludeThinking modelName = false ->
      transformResponseWithThinking res modelName = Ok rewritten).
Proof.
  intros Hok Hjson Hread Hparse Hnull Hst rewritten.
  pose proof (transformResponse_rewrites res txt parsed Hok Hjson Hread Hparse Hnull Hst)
    as Hfirst.
  split; [exact Hfirst|].
  intros Hstream Hmodel. unfold transformResponseWithThinking.
  rewrite Hstream, Hfirst. cbn [rbind negb andb]. now rewrite Hmodel.
Qed.

(** X11.  The fallback of [transformResponse] hands back a response that
    was read.  When the response is successful, is not an event stream,
    its content type contains [application/json] and the rewrite cannot be
    completed (the body does not read to its end, is not JSON, is [null],
    or the status forbids a body), the transform returns the original
    response with its body used up, whatever the model: reading the text
    of what the caller receives throws a [TypeError]. *)
Theorem failed_rewrite_returns_consumed_response {W : Collaborators}
    (res : Response) (content : option string) (modelName : string) :
  ok res = true -> isStreamingResponse res = false ->
  Str.includes (default "" (Headers_get (headers res) "content-type")) "application/json"
  = true ->
  body res = Stream content -> bodyUsed res = false ->
  rewrite_fails (status res) (fst (text res)) = true ->
  transformResponse res =
    Ok {| response := consumed res; usage := extractUsageFromHeaders (headers res);
          retryAfterMs := None; error := None |}
  /\ transformResponseWithThinking res modelName = Ok (consumed res)
  /\ fst (text (consumed res)) = Throw (Err ETypeError "Body is unusable").
Proof.
  intros Hok Hstream Hjson Hbody Hused Hfails.
  assert (Hfirst : transformResponse res =
            Ok {| response := consumed res; usage := extractUsageFromHeaders (headers res);
                  retryAfterMs := None; error := None |}).
  { unfold transformResponse. rewrite Hok, Hjson. cbn [negb].
    revert Hfails. unfold text, rewrite_fails, consumed. rewrite Hbody, Hused.
    destruct content as [txt|]; cbn [fst rbind try_catch]; [|reflexivity].
    unfold JSON_parse_r.
    destruct (JSON_parse txt) as [parsed|]; cbn [rbind try_catch]; [|reflexivity].
    destruct parsed; try reflexivity; intros Hn; cbn [unwrap get rbind status statusText];
      unfold new_Response; rewrite Hn;
      destruct (negb _); reflexivity. }
  split; [exact Hfirst|]. split.
  - unfold transformResponseWithThinking. rewrite Hstream, Hfirst. cbn [rbind negb andb response].
    destruct (shouldIncludeThinking modelName); [|reflexivity].
    unfold clone_text, consumed. cbn [body bodyUsed]. rewrite Hbody. reflexivity.
  - unfold text, consumed. cbn [body bodyUsed]. now rewrite Hbody.
Qed.

(** X12.  The rewrite of a successful event stream.  When the response is
    successful, its content type contains [text/event-stream], its body
    reads as a text and its status allows a body, the streaming transform
    returns a new response with the same status, status text and headers
    whose body is the payload rewritten line by line; the interceptor
    returns that response whatever the model, the thinking step being
    skipped for a stream. *)
Theorem event_stream_rewritten {W : Collaborators}
    (res : Response) (txt modelName : string) :
  ok res = true -> isStreamingResponse res = true ->
  fst (text res) = Ok txt -> null_body_status (status res) = false ->
  let rewritten :=
    {| status := status res; statusText := statusText res; headers := headers res;
       body := Stream (Some (transformStreamingPayload txt)); bodyUsed := false |} in
  transformStreamingResponse res =
    Ok {| response := rewritten; usage := extractUsageFromHeaders (headers res);
          retryAfterMs := None; error := None |}
  /\ transformResponseWithThinking res modelName = Ok rewritten.
Proof.
  intros Hok Hstream Hread Hst rewritten.
  pose proof (text_read res txt Hread) as (Es & Et & Eh).
  assert (Hfirst : transformStreamingResponse res =
            Ok {| response := rewritten; usage := extractUsageFromHeaders (headers res);
                  retryAfterMs := None; error := None |}).
  { unfold transformStreamingResponse. rewrite Hok. cbn [negb].
    unfold isStreamingResponse in Hstream. rewrite Hstream. cbn [negb].
    destruct (text res) as [read res']. cbn [fst snd] in *. subst read.
    cbn [rbind]. rewrite Es, Et.
    rewrite new_Response_made by (try apply ok_status; assumption).
    rewrite (includes_content_type res "text/event-stream") by (discriminate || assumption).
    reflexivity. }
  split; [exact Hfirst|].
  unfold transformResponseWithThinking. rewrite Hstream, Hfirst. reflexivity.
Qed.

(** X13.  The streaming transform on a successful response that is not an
    event stream.  When the body reads as a text and the status allows a
    body, it returns a new response with the same status and status text,
    the headers with a content type filled in when there was none, and as
    body the serialization of the unwrapped value when the text parses to
    a value other than [null], the text itself otherwise.  When the status
    forbids a body (204 or 205) it throws. *)
Theorem plain_response_in_streaming_transform (res : Response) (txt : string) :
  ok res = true -> isStreamingResponse res = false ->
  fst (text res) = Ok txt ->
  (null_body_status (status res) = false ->
   transformStreamingResponse res =
     Ok {| response :=
             {| status := status res; statusText := statusText res;
                headers := with_content_type (headers res);
                body := Stream (Some match JSON_parse txt with
                                     | None | Some JNull => txt
                                     | Some parsed => JSON_stringify (unwrapped parsed)
                                     end);
                bodyUsed := false |};
           usage := extractUsageFromHeaders (headers res);
           retryAfterMs := None; error := None |})
  /\ (null_body_status (status res) = true ->
      transformStreamingResponse res
      = Throw (Err ETypeError "Response with null body status cannot have body")).
Proof.
  intros Hok Hstream Hread.
  pose proof (text_read res txt Hread) as (Es & Et & Eh).
  pose proof (ok_status res Hok) as Hrange.
  unfold transformStreamingResponse. rewrite Hok. cbn [negb].
  unfold isStreamingResponse in Hstream. rewrite Hstream. cbn [negb].
  destruct (text res) as [read res']. cbn [fst snd] in *. subst read.
  cbn [rbind]. rewrite Es, Et. unfold JSON_parse_r.
  split; intros Hst.
  - destruct (JSON_parse txt) as [parsed|]; cbn [rbind try_catch].
    + destruct parsed as [|b|x|s|items|o];
        [cbn [unwrap get rbind try_catch]; now rewrite new_Response_made by assumption|..];
        (rewrite unwrap_unwrapped by discriminate; cbn [rbind];
         now rewrite new_Response_made by assumption).
    + now rewrite new_Response_made by assumption.
  - assert (Hnew : forall t hs,
               new_Response t (status res) (statusText res) hs
               = Throw (Err ETypeError "Response with null body status cannot have body")).
    { intros t hs. unfold new_Response. rewrite Hst.
      replace ((200 <=? status res) && (status res <=? 599)) with true; [reflexivity|].
      symmetry. apply andb_true_iff. split; apply Z.leb_le; lia. }
    destruct (JSON_parse txt) as [parsed|]; cbn [rbind try_catch].
    + destruct (unwrap parsed) as [v|e]; cbn [rbind try_catch]; now rewrite !Hnew.
    + now rewrite Hnew.
Qed.

(** X14.  The thinking step works on the unwrapped body.  For a
    successful JSON response that is rewritten (as in
    [json_response_unwrapped]) and a model for which thinking is included:
    when the serialization of the unwrapped value parses back to it, the
    thinking collaborators are asked about that value, and when it has
    thinking blocks the interceptor returns a response with the same
    status, status text and headers whose body is the serialization of
    what [transformResponseThinking] makes of it. *)
Theorem thinking_applies_to_unwrapped_body {W : Collaborators}
    (res : Response) (txt modelName : string) (parsed rewritten : json) :
  ok res = true -> isStreamingResponse res = false ->
  Str.includes (default "" (Headers_get (headers res) "content-type")) "application/json"
  = true ->
  fst (text res) = Ok txt -> JSON_parse txt = Some parsed -> parsed <> JNull ->
  null_body_status (status res) = false ->
  JSON_parse (JSON_stringify (unwrapped parsed)) = Some (unwrapped parsed) ->
  shouldIncludeThinking modelName = true ->
  extractThinkingBlocks (unwrapped parsed) = Ok true ->
  transformResponseThinking (unwrapped parsed) = Ok rewritten ->
  transformResponseWithThinking res modelName =
    Ok {| status := status res; statusText := statusText res; headers := headers res;
          body := Stream (Some (JSON_stringify rewritten)); bodyUsed := false |}.
Proof.
  intros Hok Hstream Hjson Hread Hparse Hnull Hst Hround Hmodel Hhas Hthink.
  unfold transformResponseWithThinking. rewrite Hstream.
  rewrite (transformResponse_rewrites res txt parsed) by assumption.
  cbn [rbind negb andb response]. rewrite Hmodel.
  unfold clone_text. cbn [body bodyUsed rbind status statusText headers].
  unfold JSON_parse_r. rewrite Hround. cbn [rbind]. rewrite Hhas. cbn [rbind].
  rewrite Hthink. cbn [rbind].
  rewrite new_Response_made by (try apply ok_status; assumption).
  rewrite (includes_content_type res "application/json") by (discriminate || assumption).
  reflexivity.
Qed.

End SuccessTransforms.

(** ** The segments of a URL *)

Section UrlSegments.
Context {C : Constants}.

(** X15.  The action segment of a URL.  What [extractActionFromUrl]
    returns is a non-empty run of word characters that follows
    [/models/{model}:] in the URL, for a model segment that is non-empty
    and has no colon; and a URL with an action segment has a model
    segment: [extractModelFromUrl] is defined on it. *)
Theorem action_segment_follows_model_segment (url action : string) :
  extractActionFromUrl url = Some action ->
  action <> EmptyString /\ all_units Str.is_word action = true
  /\ (exists before m rest,
        url = before +:+ "/models/" +:+ m +:+ ":" +:+ action +:+ rest
        /\ m <> EmptyString /\ all_units Str.not_colon m = true)
  /\ exists m, extractModelFromUrl url = Some m.
Proof.
  induction url as [|c url IH].
  - cbn. discriminate.
  - cbn [extractActionFromUrl extractModelFromUrl].
    destruct (match_models_here (String c url)) as [[m after]|] eqn:Em.
    + destruct (Str.span Str.is_word after) as [a rest] eqn:Es.
      destruct (Str.nonempty a) eqn:En.
      * intros [= <-].
        destruct (match_models_here_sound _ _ _ Em) as (Eu & Hm & Hc).
        repeat apply conj.
        -- now apply nonempty_true.
        -- eapply span_all. exact Es.
        -- exists EmptyString, m, rest. rewrite append_nil.
           repeat apply conj; try assumption.
           rewrite Eu. apply span_append in Es. now rewrite Es.
        -- now exists m.
      * intros H. destruct (IH H) as (H1 & H2 & (b & m' & rest' & -> & H3 & H4) & H5).
        repeat apply conj; try assumption.
        -- exists (String c b), m', rest'. now rewrite append_cons.
        -- now exists m.
    + intros H. destruct (IH H) as (H1 & H2 & (b & m' & rest' & -> & H3 & H4) & (m2 & H5)).
      repeat apply conj; try assumption.
      * exists (String c b), m', rest'. now rewrite append_cons.
      * now exists m2.
Qed.

End UrlSegments.

(** ** Headers for streaming *)

Section StreamingHeaders.
Context {C : Constants}.

Lemma obj_get_set_same {V : Type} (k : string) (v : V) (o : props V) :
  obj_get k (obj_set k v o) = Some v.
Proof.
  induction o as [|[k' v'] o IH]; cbn.
  - now rewrite String.eqb_refl.
  - destruct (String.eqb k k') eqn:E; cbn; rewrite ?String.eqb_refl, ?E; auto.
Qed.

Lemma obj_get_set_other {V : Type} (k k' : string) (v : V) (o : props V) :
  k' <> k -> obj_get k' (obj_set k v o) = obj_get k' o.
Proof.
  intros Hk. induction o as [|[k2 v2] o IH]; cbn.
  - destruct (String.eqb_spec k' k); [contradiction | reflexivity].
  - destruct (String.eqb_spec k k2) as [->|Hn]; cbn.
    + destruct (String.eqb_spec k' k2); [contradiction | reflexivity].
    + destruct (String.eqb k' k2); [reflexivity | exact IH].
Qed.

Lemma obj_set_twice {V : Type} (k : string) (v w : V) (o : props V) :
  obj_set k w (obj_set k v o) = obj_set k w o.
Proof.
  induction o as [|[k2 v2] o IH]; cbn.
  - now rewrite String.eqb_refl.
  - destruct (String.eqb k k2) eqn:E; cbn; rewrite ?String.eqb_refl, ?E; [reflexivity|].
    now rewrite IH.
Qed.

(** X16.  [addStreamingHeaders]: the result reads [text/event-stream]
    under [Accept], an earlier value being replaced, and reads every
    other name as the headers given; adding twice is adding once; and the
    headers of a transformed streaming request are those of
    [buildRequestHeaders] with the streaming header added. *)
Theorem addStreamingHeaders_spec (hs : props string) :
  obj_get "Accept" (addStreamingHeaders hs) = Some "text/event-stream"
  /\ (forall name, name <> "Accept" -> obj_get name (addStreamingHeaders hs) = obj_get name hs)
  /\ addStreamingHeaders (addStreamingHeaders hs) = addStreamingHeaders hs
  /\ forall url body accessToken project_id modelName endpoint,
       isStreamingRequest url body = true ->
       tr_headers (transformRequest url body accessToken project_id modelName endpoint)
       = addStreamingHeaders (buildRequestHeaders accessToken).
Proof.
  unfold addStreamingHeaders. repeat apply conj.
  - apply obj_get_set_same.
  - intros name Hn. now apply obj_get_set_other.
  - apply obj_set_twice.
  - intros url body accessToken project_id modelName endpoint Hs.
    unfold transformRequest. cbn [tr_headers]. now rewrite Hs.
Qed.

End StreamingHeaders.

(** ** The course of a call *)

Section CallStructure.
Context {P : Platform} {C : Constants} {W : Collaborators}.

Lemma project_of_call_cached (auth : Auth) (s : State) (accessToken : string) :
  or_default (projectId (parseStoredToken (default "" (refresh auth))))
    (default "" (project_cached s accessToken))
  = project_of_call auth s accessToken.
Proof.
  unfold project_of_call, project_cached, or_default, present. cbn [first_nonempty].
  destruct (projectId _) as [p|], (cachedProjectId s) as [c|],
    (cloudaicompanionProject _) as [f|];
    repeat match goal with
           | |- context [Str.nonempty ?x] => destruct (Str.nonempty x) eqn:?
           end;
    cbn [default from_option id]; try reflexivity; congruence.
Qed.

Ltac enter_loop :=
  match goal with
  | |- context [tryEndpoints ?eps ?u ?i ?tok ?pid ?mn ?s1] =>
      destruct (tryEndpoints eps u i tok pid mn s1) as [[[?|]|?] ?]; reflexivity
  end.

(** The course of a call, step by step up to the loop over the endpoints. *)
Lemma call_structure (getAuth : result Auth)
    (client_set : string -> Auth -> result unit) (providerId url : string)
    (init : RequestInit) (s : State) :
  createAntigravityFetch getAuth client_set providerId url init s =
    match getAuth with
    | Throw e => (Throw e, s)
    | Ok auth =>
        if negb (present (access auth)) || negb (present (refresh auth)) then
          (Throw (Err EError "Antigravity: No authentication tokens available"), s)
        else
          let enter t :=
            finish_call (modelName_of_init init)
              (tryEndpoints (take maxEndpoints ANTIGRAVITY_ENDPOINT_FALLBACKS) url init
                 (access_token t) (project_of_call auth s (access_token t))
                 (modelName_of_init init) (entering_loop s t)) in
          if isTokenExpired (starting_tokens auth s) then
            match refreshAccessToken
                    (refreshToken (parseStoredToken (default "" (refresh auth)))) with
            | Throw cause =>
                (Throw (refresh_failure cause), with_tokens s (starting_tokens auth s))
            | Ok renewed =>
                match client_set providerId (stored_auth auth renewed) with
                | Throw cause =>
                    (Throw (refresh_failure cause), with_tokens s (renewed_tokens renewed))
                | Ok _ => enter (renewed_tokens renewed)
                end
            end
          else enter (starting_tokens auth s)
    end.
Proof.
  unfold createAntigravityFetch.
  destruct getAuth as [auth|e]; [|reflexivity].
  unfold bind at 1. unfold lift at 1.
  destruct (negb (present (access auth)) || negb (present (refresh auth))); [reflexivity|].
  unfold bind at 1. unfold read_state at 1.
  unfold bind at 1. unfold set_cachedTokens at 1.
  fold (starting_tokens auth s).
  unfold bind at 1.
  destruct (isTokenExpired (starting_tokens auth s)).
  - unfold catch, bind at 1, lift at 1.
    destruct (refreshAccessToken _) as [renewed|cause]; [|reflexivity].
    unfold bind at 1. unfold set_cachedTokens at 1. cbn [cachedProjectId tried sent].
    unfold bind at 1. unfold lift at 1.
    fold (renewed_tokens renewed). fold (stored_auth auth renewed).
    destruct (client_set providerId (stored_auth auth renewed)) as [[]|cause];
      [|reflexivity].
    unfold ret at 1.
    unfold bind at 1. unfold read_state at 1. cbn [cachedProjectId].
    unfold bind at 1. cbv zeta.
    rewrite <- (project_of_call_cached auth s (access_token (renewed_tokens renewed))).
    unfold entering_loop, project_cached, finish_call.
    destruct (present (cachedProjectId s)); cbn [negb].
    + unfold ret at 1. unfold bind at 1. enter_loop.
    + unfold bind at 1. unfold set_cachedProjectId at 1. unfold ret at 1.
      unfold bind at 1. cbn [default from_option id cachedTokens tried sent]. enter_loop.
  - unfold ret at 1.
    unfold bind at 1. unfold read_state at 1. cbn [cachedProjectId].
    unfold bind at 1. cbv zeta.
    rewrite <- (project_of_call_cached auth s (access_token (starting_tokens auth s))).
    unfold entering_loop, project_cached, finish_call.
    destruct (present (cachedProjectId s)); cbn [negb].
    + unfold ret at 1. unfold bind at 1. enter_loop.
    + unfold bind at 1. unfold set_cachedProjectId at 1. unfold ret at 1.
      unfold bind at 1. cbn [default from_option id cachedTokens tried sent]. enter_loop.
Qed.

End CallStructure.

(** ** The requests a call sends *)

Section SentRequests.
Context {P : Platform} {C : Constants} {W : Collaborators}.

Lemma isStreamingRequest_ext (url : string) (b1 b2 : props json) :
  obj_get "stream" b1 = obj_get "stream" b2 ->
  isStreamingRequest url b1 = isStreamingRequest url b2.
Proof. intros H. unfold isStreamingRequest. now rewrite H. Qed.

Lemma extractModelFromBody_ext (b1 b2 : props json) :
  obj_get "model" b1 = obj_get "model" b2 ->
  extractModelFromBody b1 = extractModelFromBody b2.
Proof. intros H. unfold extractModelFromBody. now rewrite H. Qed.

(** The request made of a body that agrees with the body of [init] on
    every field but [tools]. *)
Lemma built_request (url : string) (init : RequestInit) (accessToken project_id : string)
    (modelName : option string) (endpoint : string) (b : props json) :
  (forall k, k <> "tools" -> obj_get k b = obj_get k (record_view (body_of_init init))) ->
  request_for url init accessToken project_id modelName endpoint
    {| req_url := tr_url (transformRequest url b accessToken project_id modelName
                            (Some endpoint));
       req_method := or_default (method init) "POST";
       req_headers := tr_headers (transformRequest url b accessToken project_id modelName
                                    (Some endpoint));
       req_body := JSON_stringify
                     (json_of_body (tr_body (transformRequest url b accessToken project_id
                                               modelName (Some endpoint))));
       req_signal := signal init |}.
Proof.
  intros Hb. unfold request_for, transformRequest.
  cbn [req_url req_method req_headers req_body req_signal tr_url tr_headers tr_body].
  rewrite (isStreamingRequest_ext url b (record_view (body_of_init init)))
    by (apply Hb; discriminate).
  repeat apply conj; try reflexivity.
  - unfold endpoint_used, or_else.
    destruct (Str.nonempty endpoint); reflexivity.
  - exists (obj_delete "model" b). repeat apply conj.
    + unfold json_of_body, wrapRequestBody. cbn [project model request].
      rewrite or_chain_first_nonempty.
      rewrite (extractModelFromBody_ext b (record_view (body_of_init init)))
        by (apply Hb; discriminate).
      reflexivity.
    + apply obj_get_delete_same.
    + intros k Hm Ht. rewrite obj_get_delete_other by exact Hm. now apply Hb.
Qed.

Lemma request_for_transport (url : string) (init init' : RequestInit)
    (accessToken project_id : string) (modelName : option string) (endpoint : string)
    (rq : Request) :
  same_request_data init init' ->
  request_for url init' accessToken project_id modelName endpoint rq ->
  request_for url init accessToken project_id modelName endpoint rq.
Proof.
  intros (Hm & Hs & Hb). unfold request_for.
  rewrite (isStreamingRequest_ext url (record_view (body_of_init init'))
             (record_view (body_of_init init))) by (apply Hb; discriminate).
  rewrite (extractModelFromBody_ext (record_view (body_of_init init'))
             (record_view (body_of_init init))) by (apply Hb; discriminate).
  rewrite Hm, Hs.
  intros (H1 & H2 & H3 & H4 & payload & H5 & H6 & H7).
  repeat apply conj; try assumption.
  exists payload. repeat apply conj; try assumption.
  intros k Hk1 Hk2. rewrite H7 by assumption. now apply Hb.
Qed.

Lemma same_request_data_refl (init : RequestInit) : same_request_data init init.
Proof. repeat split. Qed.

(** What an attempt that builds its request sends, and what it leaves of
    [init] to the next attempt. *)
Lemma prepareAttempt_request (endpoint url : string) (init : RequestInit)
    (accessToken project_id : string) (modelName : option string)
    (rq : Request) (init' : RequestInit) :
  prepareAttempt endpoint url init accessToken project_id modelName = Ok (rq, init') ->
  request_for url init accessToken project_id modelName endpoint rq
  /\ same_request_data init init'.
Proof.
  unfold prepareAttempt.
  destruct (body_of_init init) as [|b|x|str|items|o] eqn:Eb;
    try (cbn [get rbind]; discriminate);
    try (cbn [get rbind]; intros [= <- <-]; split;
         [apply built_request; intros k _; now rewrite Eb | apply same_request_data_refl]).
  cbn [get rbind].
  assert (Hplain :
    Ok ({| req_url := tr_url (transformRequest url (record_view (JObj o)) accessToken
                                project_id modelName (Some endpoint));
           req_method := or_default (method init) "POST";
           req_headers := tr_headers (transformRequest url (record_view (JObj o))
                                        accessToken project_id modelName (Some endpoint));
           req_body := JSON_stringify
                         (json_of_body (tr_body (transformRequest url (record_view (JObj o))
                                                   accessToken project_id modelName
                                                   (Some endpoint))));
           req_signal := signal init |}, init) = Ok (rq, init') ->
    request_for url init accessToken project_id modelName endpoint rq
    /\ same_request_data init init').
  { intros [= <- <-]. split;
      [apply built_request; intros k _; now rewrite Eb | apply same_request_data_refl]. }
  destruct (obj_get "tools" o) as [[|b|x|str|items|o']|]; try exact Hplain.
  destruct (normalizeToolsForGemini (JArr items)) as [[nt|]|e]; cbn [rbind];
    [|exact Hplain|discriminate].
  destruct (truthy nt) eqn:Ent; cbn [rbind]; [|exact Hplain].
  assert (Hfields : forall k, k <> "tools" ->
            obj_get k (obj_set "tools" nt o) = obj_get k (record_view (body_of_init init))).
  { intros k Hk. rewrite Eb. cbn [record_view]. now apply obj_get_set_other. }
  destruct (init_body init) as [[str|v]|] eqn:Ei.
  - intros [= <- <-]. split; [|apply same_request_data_refl].
    cbn [method signal]. now apply built_request.
  - intros [= <- <-]. split.
    + cbn [method signal]. now apply built_request.
    + repeat split. intros k Hk. unfold body_of_init at 1.
      cbn [init_body body_truthy truthy record_view]. now apply Hfields.
  - intros [= <- <-]. split; [|apply same_request_data_refl].
    cbn [method signal]. now apply built_request.
Qed.

(** The loop over the endpoints: it never throws; the endpoints it tries
    are the first ones of the list, all of them when it finds no response;
    it sends one request for each attempt that builds one. *)
Lemma tryEndpoints_sends (endpoints : list string) (url : string) (init : RequestInit)
    (accessToken project_id : string) (modelName : option string) (s : State) :
  exists found attempted used requests,
    tryEndpoints endpoints url init accessToken project_id modelName s
    = (Ok found, logged s attempted requests)
    /\ attempted `prefix_of` endpoints
    /\ used `sublist_of` attempted
    /\ Forall2 (request_for url init accessToken project_id modelName) used requests.
Proof.
  revert init s. induction endpoints as [|e rest IH]; intros init s.
  - exists None, [], [], []. rewrite logged_nil.
    repeat apply conj; [reflexivity | now exists [] | constructor | constructor].
  - rewrite tryEndpoints_cons, attemptFetch_run.
    destruct (prepareAttempt e url init accessToken project_id modelName)
      as [[rq init']|err] eqn:Ep.
    + destruct (prepareAttempt_request _ _ _ _ _ _ _ _ Ep) as [Hrq Hsame].
      assert (Hnext : exists found attempted used requests,
                tryEndpoints rest url init' accessToken project_id modelName
                  (logged s [e] [rq])
                = (Ok found, logged s attempted requests)
                /\ attempted `prefix_of` (e :: rest)
                /\ used `sublist_of` attempted
                /\ Forall2 (request_for url init accessToken project_id modelName)
                     used requests).
      { destruct (IH init' (logged s [e] [rq])) as (found & att & used & rqs & -> & H1 & H2 & H3).
        exists found, (e :: att), (e :: used), (rq :: rqs). rewrite logged_logged.
        repeat apply conj.
        - reflexivity.
        - now apply prefix_cons.
        - now apply sublist_skip.
        - constructor; [exact Hrq|].
          eapply Forall2_impl; [exact H3|].
          intros endpoint rq'. now apply request_for_transport. }
      destruct (fetch (sent s) rq) as [r|err]; [|exact Hnext].
      destruct (isRetryableError (status r)); [exact Hnext|].
      exists (Some r), [e], [e], [rq]. repeat apply conj.
      * reflexivity.
      * exists rest. reflexivity.
      * reflexivity.
      * constructor; [exact Hrq | constructor].
    + destruct (IH init (logged s [e] [])) as (found & att & used & rqs & -> & H1 & H2 & H3).
      exists found, (e :: att), used, rqs. rewrite logged_logged.
      repeat apply conj.
      * reflexivity.
      * now apply prefix_cons.
      * now apply sublist_cons.
      * exact H3.
Qed.

Lemma finish_call_state (modelName : option string)
    (run : result (option Response) * State) :
  snd (finish_call modelName run) = snd run.
Proof. destruct run as [[[r|]|e] s']; reflexivity. Qed.

(** What a call tries and sends. *)
Lemma call_sends (getAuth : result Auth) (client_set : string -> Auth -> result unit)
    (providerId url : string) (init : RequestInit) (s : State) :
  let s' := snd (createAntigravityFetch getAuth client_set providerId url init s) in
  exists attempted used requests,
    tried s' = tried s ++ attempted /\ sent s' = sent s ++ requests
    /\ attempted `prefix_of` take maxEndpoints ANTIGRAVITY_ENDPOINT_FALLBACKS
    /\ used `sublist_of` attempted
    /\ length used = length requests
    /\ match getAuth with
       | Ok auth =>
           match tokens_of_call client_set providerId auth s with
           | Some t =>
               Forall2 (request_for url init (access_token t)
                          (project_of_call auth s (access_token t)) (modelName_of_init init))
                 used requests
           | None => requests = []
           end
       | Throw _ => requests = []
       end.
Proof.
  cbv zeta. rewrite call_structure.
  assert (Hnone : forall s0 : State, tried s0 = tried s -> sent s0 = sent s ->
            exists attempted used requests : list _,
              tried s0 = tried s ++ attempted /\ sent s0 = sent s ++ requests
              /\ attempted `prefix_of` take maxEndpoints ANTIGRAVITY_ENDPOINT_FALLBACKS
              /\ used `sublist_of` attempted
              /\ length used = length requests /\ requests = []).
  { intros s0 H1 H2. exists [], [], []. rewrite !app_nil_r.
    repeat apply conj; try reflexivity; try assumption.
    now exists (take maxEndpoints ANTIGRAVITY_ENDPOINT_FALLBACKS). }
  assert (Henter : forall auth t,
            exists attempted used requests,
              tried (snd (finish_call (modelName_of_init init)
                (tryEndpoints (take maxEndpoints ANTIGRAVITY_ENDPOINT_FALLBACKS) url init
                   (access_token t) (project_of_call auth s (access_token t))
                   (modelName_of_init init) (entering_loop s t)))) = tried s ++ attempted
              /\ sent (snd (finish_call (modelName_of_init init)
                (tryEndpoints (take maxEndpoints ANTIGRAVITY_ENDPOINT_FALLBACKS) url init
                   (access_token t) (project_of_call auth s (access_token t))
                   (modelName_of_init init) (entering_loop s t)))) = sent s ++ requests
              /\ attempted `prefix_of` take maxEndpoints ANTIGRAVITY_ENDPOINT_FALLBACKS
              /\ used `sublist_of` attempted
              /\ length used = length requests
              /\ Forall2 (request_for url init (access_token t)
                            (project_of_call auth s (access_token t)) (modelName_of_init init))
                   used requests).
  { intros auth t. rewrite finish_call_state.
    destruct (tryEndpoints_sends (take maxEndpoints ANTIGRAVITY_ENDPOINT_FALLBACKS) url init
                (access_token t) (project_of_call auth s (access_token t))
                (modelName_of_init init) (entering_loop s t))
      as (found & att & used & rqs & -> & H1 & H2 & H3).
    exists att, used, rqs. cbn [snd logged tried sent entering_loop].
    repeat apply conj; try reflexivity; try assumption.
    eapply Forall2_length. exact H3. }
  destruct getAuth as [auth|e].
  2:{ destruct (Hnone s eq_refl eq_refl) as (a & u & r & H). exists a, u, r. exact H. }
  unfold tokens_of_call.
  destruct (negb (present (access auth)) || negb (present (refresh auth))).
  { destruct (Hnone s eq_refl eq_refl) as (a & u & r & H). exists a, u, r. exact H. }
  cbv zeta.
  destruct (isTokenExpired (starting_tokens auth s)); [|apply Henter].
  destruct (refreshAccessToken _) as [renewed|cause].
  - destruct (client_set providerId (stored_auth auth renewed)) as [[]|cause];
      [apply Henter|].
    destruct (Hnone (with_tokens s (renewed_tokens renewed)) eq_refl eq_refl)
      as (a & u & r & H). exists a, u, r. exact H.
  - destruct (Hnone (with_tokens s (starting_tokens auth s)) eq_refl eq_refl)
      as (a & u & r & H). exists a, u, r. exact H.
Qed.

End SentRequests.

(** ** What a call puts into its requests *)

Section CallRequests.
Context {P : Platform} {C : Constants} {W : Collaborators}.

Lemma take_maxEndpoints :
  take maxEndpoints ANTIGRAVITY_ENDPOINT_FALLBACKS = take 3 ANTIGRAVITY_ENDPOINT_FALLBACKS.
Proof.
  unfold maxEndpoints.
  destruct (Nat.le_gt_cases (length ANTIGRAVITY_ENDPOINT_FALLBACKS) 3) as [Hle|Hgt].
  - rewrite Nat.min_l by exact Hle. now rewrite !take_ge by lia.
  - now rewrite Nat.min_r by lia.
Qed.

Lemma sent_at_most_three (attempted used : list string) (requests : list Request) :
  attempted `prefix_of` take maxEndpoints ANTIGRAVITY_ENDPOINT_FALLBACKS ->
  used `sublist_of` attempted -> length used = length requests ->
  (length requests <= 3)%nat.
Proof.
  intros Hp Hs <-. apply prefix_length in Hp. apply sublist_length in Hs.
  rewrite length_take in Hp. unfold maxEndpoints in Hp. lia.
Qed.

(** X17.  Where a call sends its requests.  Whatever the credentials, the
    network and the collaborators do, a call tries endpoints in the order
    of the fallback list, starting with the first and never going past the
    third, and sends at most one request for each endpoint it tries, so at
    most three.  Each request goes to
    [{endpoint}/{apiVersion}:{action}], with the action and the [?alt=sse]
    suffix of the streaming mode of the caller's URL and body (an
    endpoint that is the empty string being replaced by the default
    endpoint); its method is the caller's or else [POST], its signal is
    the caller's, and its headers are those of [buildRequestHeaders] for
    the access token of the call, with the streaming header when
    streaming.  Nothing is sent when the credentials are missing or the
    refresh step fails. *)
Theorem sent_requests_addressing (getAuth : result Auth)
    (client_set : string -> Auth -> result unit) (providerId url : string)
    (init : RequestInit) (s : State) :
  let s' := snd (createAntigravityFetch getAuth client_set providerId url init s) in
  let streaming := isStreamingRequest url (record_view (body_of_init init)) in
  exists attempted used requests,
    tried s' = tried s ++ attempted /\ sent s' = sent s ++ requests
    /\ attempted `prefix_of` take 3 ANTIGRAVITY_ENDPOINT_FALLBACKS
    /\ used `sublist_of` attempted
    /\ (length requests <= 3)%nat
    /\ match getAuth with
       | Ok auth =>
           match tokens_of_call client_set providerId auth s with
           | Some t =>
               Forall2
                 (fun endpoint rq =>
                    req_url rq
                    = buildAntigravityUrl (endpoint_used endpoint)
                        (if streaming then "streamGenerateContent" else "generateContent")
                        streaming
                    /\ req_method rq = or_default (method init) "POST"
                    /\ req_signal rq = signal init
                    /\ req_headers rq
                       = (if streaming
                          then addStreamingHeaders (buildRequestHeaders (access_token t))
                          else buildRequestHeaders (access_token t)))
                 used requests
           | None => requests = []
           end
       | Throw _ => requests = []
       end.
Proof.
  cbv zeta.
  destruct (call_sends getAuth client_set providerId url init s)
    as (attempted & used & requests & Ht & Hs & Hp & Hu & Hlen & Hrq).
  exists attempted, used, requests.
  repeat apply conj; try assumption.
  - now rewrite <- take_maxEndpoints.
  - eapply sent_at_most_three; eassumption.
  - destruct getAuth as [auth|e]; [|exact Hrq].
    destruct (tokens_of_call client_set providerId auth s) as [t|]; [|exact Hrq].
    eapply Forall2_impl; [exact Hrq|].
    intros endpoint rq (H1 & H2 & H3 & H4 & _). auto.
Qed.






Lemma tryEndpoints_null_body (endpoints : list string) (url : string)
    (init : RequestInit) (accessToken project_id : string) (modelName : option string)
    (s : State) :
  body_of_init init = JNull ->
  tryEndpoints endpoints url init accessToken project_id modelName s
  = (Ok None, logged s endpoints []).
Proof.
  intros Hb. revert s. induction endpoints as [|e rest IH]; intros s.
  - cbn. unfold ret. now rewrite logged_nil.
  - rewrite tryEndpoints_cons, attemptFetch_run.
    unfold prepareAttempt. rewrite Hb. cbn [get rbind].
    rewrite IH, logged_logged. reflexivity.
Qed.

(** X19.  A body that is the JSON text [null] never reaches the network.
    When [init.body] is a non-empty string that parses to [null], building
    the request throws inside every attempt (a property of [null] is
    read), so, with the credentials present and the refresh step
    succeeding, the call tries every endpoint, sends nothing, and returns
    the response of status 503. *)
Theorem null_body_never_sent (getAuth : result Auth)
    (client_set : string -> Auth -> result unit) (providerId url : string)
    (init : RequestInit) (txt : string) (s : State) :
  init_body init = Some (BodyText txt) -> txt <> EmptyString ->
  JSON_parse txt = Some JNull ->
  credentials_present getAuth -> refresh_step_succeeds client_set providerId ->
  exists res s',
    createAntigravityFetch getAuth client_set providerId url init s = (Ok res, s')
    /\ status res = 503
    /\ sent s' = sent s
    /\ tried s' = tried s ++ take 3 ANTIGRAVITY_ENDPOINT_FALLBACKS.
Proof.
  intros Hinit Htxt Hparse Hcreds Hstep.
  assert (Hb : body_of_init init = JNull).
  { unfold body_of_init. rewrite Hinit. cbn [body_truthy].
    apply nonempty_true in Htxt. now rewrite Htxt, Hparse. }
  destruct (call_reaches_loop getAuth client_set providerId url init s Hcreds Hstep)
    as (tok & pid & s1 & Ht & Hs & ->).
  rewrite (tryEndpoints_null_body _ url init tok pid _ s1 Hb).
  unfold finish_call. do 2 eexists. split; [reflexivity|].
  cbn [logged tried sent status]. rewrite Ht, Hs, app_nil_r, take_maxEndpoints. auto.
Qed.

(** X20.  The refresh step.  When the token state a call starts with is
    expired, the refresh routine gets the refresh token of the stored
    credentials.  If it throws, the call throws [Antigravity: Token
    refresh failed: <message>] and the cache holds the starting token
    state.  If it succeeds, the renewed token state, stamped with the
    current time, is cached and the store is given the new access token,
    the new refresh token formatted with the stored project ids, and the
    expiry [now + expires_in * 1000]; if the store throws, the call throws
    the same kind of error and the cache keeps the renewed state although
    nothing was stored; otherwise the call enters the loop with the new
    access token.  In the two failing cases nothing is tried or sent. *)
Theorem refresh_step (client_set : string -> Auth -> result unit)
    (providerId url : string) (init : RequestInit) (s : State) (auth : Auth) :
  present (access auth) = true -> present (refresh auth) = true ->
  isTokenExpired (starting_tokens auth s) = true ->
  let call := createAntigravityFetch (Ok auth) client_set providerId url init s in
  match refreshAccessToken (refreshToken (parseStoredToken (default "" (refresh auth)))) with
  | Throw cause =>
      call = (Throw (Err EError ("Antigravity: Token refresh failed: " +:+ message_of cause)),
              with_tokens s (starting_tokens auth s))
  | Ok renewed =>
      match client_set providerId (stored_auth auth renewed) with
      | Throw cause =>
          call = (Throw (Err EError ("Antigravity: Token refresh failed: "
                                     +:+ message_of cause)),
                  with_tokens s (renewed_tokens renewed))
      | Ok _ =>
          call = finish_call (modelName_of_init init)
                   (tryEndpoints (take maxEndpoints ANTIGRAVITY_ENDPOINT_FALLBACKS) url init
                      (new_access_token renewed)
                      (project_of_call auth s (new_access_token renewed))
                      (modelName_of_init init)
                      (entering_loop s (renewed_tokens renewed)))
      end
  end.
Proof.
  intros Ha Hr Hexp. cbv zeta. rewrite call_structure.
  rewrite Ha, Hr, Hexp. cbn [negb orb].
  destruct (refreshAccessToken _) as [renewed|cause]; [|reflexivity].
  destruct (client_set providerId (stored_auth auth renewed)) as [[]|cause]; reflexivity.
Qed.

(** X21.  Once a token state is cached, the expiry of the credentials is
    not looked at again: two calls from the same state that differ only
    in [auth.expires] do the same and leave the same state.  The expiry
    data of the cache come from the first call or from the last
    refresh. *)
Theorem cached_expiry_is_kept (client_set : string -> Auth -> result unit)
    (providerId url : string) (init : RequestInit) (s : State)
    (c : AntigravityTokens) (auth1 auth2 : Auth) :
  cachedTokens s = Some c ->
  access auth1 = access auth2 -> refresh auth1 = refresh auth2 ->
  createAntigravityFetch (Ok auth1) client_set providerId url init s
  = createAntigravityFetch (Ok auth2) client_set providerId url init s.
Proof.
  intros Hc Ha Hr. rewrite !call_structure.
  assert (Ht : starting_tokens auth1 s = starting_tokens auth2 s).
  { unfold starting_tokens. now rewrite Hc, Ha, Hr. }
  assert (Hp : forall tok, project_of_call auth1 s tok = project_of_call auth2 s tok).
  { intros tok. unfold project_of_call. now rewrite Hr. }
  assert (Hst : forall renewed, stored_auth auth1 renewed = stored_auth auth2 renewed).
  { intros renewed. unfold stored_auth. now rewrite Hr. }
  rewrite Ha, Hr, Ht. cbv zeta.
  destruct (negb (present (access auth2)) || negb (present (refresh auth2)));
    [reflexivity|].
  destruct (isTokenExpired (starting_tokens auth2 s)); [|now rewrite Hp].
  destruct (refreshAccessToken _) as [renewed|cause]; [|reflexivity].
  rewrite Hst. destruct (client_set _ _) as [[]|cause]; [|reflexivity].
  now rewrite Hp.
Qed.

Lemma first_nonempty_cached (p c f f' : option string) :
  first_nonempty [p; c; f] "" <> EmptyString ->
  first_nonempty [p; (if present c then c else Some (or_default f "")); f'] ""
  = first_nonempty [p; c; f] "".
Proof.
  destruct p as [[|? ?]|], c as [[|? ?]|], f as [[|? ?]|]; cbn; intros H;
    try reflexivity; congruence.
Qed.

(** X22.  The project id of a call stays.  After a call that got as far
    as the loop with a project id that is not empty, every later call
    with credentials whose stored refresh token names the same project
    works with that same project id, whatever the project context then
    says; the state a call leaves has the token state it sent with and
    the project id it found in the cache. *)
Theorem project_id_is_stable (getAuth : result Auth)
    (client_set : string -> Auth -> result unit) (providerId url : string)
    (init : RequestInit) (s : State) (auth : Auth) (t : AntigravityTokens) :
  getAuth = Ok auth -> tokens_of_call client_set providerId auth s = Some t ->
  let s' := snd (createAntigravityFetch getAuth client_set providerId url init s) in
  let project_id := project_of_call auth s (access_token t) in
  cachedTokens s' = Some t
  /\ cachedProjectId s' = project_cached s (access_token t)
  /\ (project_id <> EmptyString ->
      forall auth' accessToken',
        projectId (parseStoredToken (default "" (refresh auth')))
        = projectId (parseStoredToken (default "" (refresh auth))) ->
        project_of_call auth' s' accessToken' = project_id).
Proof.
  intros -> Htok. cbv zeta.
  assert (Hs' : exists attempted requests,
            snd (createAntigravityFetch (Ok auth) client_set providerId url init s)
            = logged (entering_loop s t) attempted requests).
  { rewrite call_structure. revert Htok. unfold tokens_of_call.
    destruct (negb (present (access auth)) || negb (present (refresh auth)));
      [discriminate|].
    cbv zeta.
    assert (Henter : forall t0,
              exists attempted requests,
                snd (finish_call (modelName_of_init init)
                       (tryEndpoints (take maxEndpoints ANTIGRAVITY_ENDPOINT_FALLBACKS) url
                          init (access_token t0) (project_of_call auth s (access_token t0))
                          (modelName_of_init init) (entering_loop s t0)))
                = logged (entering_loop s t0) attempted requests).
    { intros t0. rewrite finish_call_state.
      destruct (tryEndpoints_sends (take maxEndpoints ANTIGRAVITY_ENDPOINT_FALLBACKS) url init
                  (access_token t0) (project_of_call auth s (access_token t0))
                  (modelName_of_init init) (entering_loop s t0))
        as (found & att & used & rqs & -> & _). now exists att, rqs. }
    destruct (isTokenExpired (starting_tokens auth s)).
    - destruct (refreshAccessToken _) as [renewed|cause]; [|discriminate].
      destruct (client_set providerId (stored_auth auth renewed)) as [[]|cause];
        [|discriminate].
      intros [= <-]. apply Henter.
    - intros [= <-]. apply Henter. }
  destruct Hs' as (attempted & requests & ->).
  cbn [logged entering_loop cachedTokens cachedProjectId].
  repeat apply conj; try reflexivity.
  intros Hne auth' tok' Hparts.
  unfold project_of_call, project_cached. rewrite Hparts.
  now apply first_nonempty_cached.
Qed.

End CallRequests.

(** ** Tools across attempts *)

Section ToolsAcrossAttempts.
Context {P : Platform} {C : Constants} {W : Collaborators}.

(** The request [attemptFetch] builds from a body object whose tools are
    replaced by [normalized]. *)
Lemma prepareAttempt_tools (endpoint url : string) (init : RequestInit)
    (accessToken project_id : string) (modelName : option string)
    (o : props json) (items : list json) (normalized : json) :
  body_of_init init = JObj o -> obj_get "tools" o = Some (JArr items) ->
  normalizeToolsForGemini (JArr items) = Ok (Some normalized) ->
  truthy normalized = true ->
  exists rq,
    prepareAttempt endpoint url init accessToken project_id modelName
    = Ok (rq,
          match init_body init with
          | Some (BodyValue _) =>
              {| method := method init;
                 init_body := Some (BodyValue (JObj (obj_set "tools" normalized o)));
                 signal := signal init |}
          | _ => init
          end)
    /\ req_body rq
       = JSON_stringify
           (JObj [("project", JStr project_id);
                  ("model",
                   JStr (first_nonempty
                           [modelName; extractModelFromBody o; extractModelFromUrl url]
                           "gemini-3-pro-preview"));
                  ("request", JObj (obj_delete "model" (obj_set "tools" normalized o)))])
    /\ obj_get "tools" (obj_delete "model" (obj_set "tools" normalized o))
       = Some normalized.
Proof.
  intros Hb Ht Hn Htr. unfold prepareAttempt. rewrite Hb. cbn [get rbind].
  rewrite Ht, Hn. cbn [rbind]. rewrite Htr. cbn [rbind record_view].
  eexists. split; [reflexivity|]. split.
  - cbn [req_body transformRequest tr_body]. unfold json_of_body, wrapRequestBody.
    cbn [project model request]. rewrite or_chain_first_nonempty.
    rewrite (extractModelFromBody_ext (obj_set "tools" normalized o) o)
      by (now apply obj_get_set_other).
    reflexivity.
  - rewrite obj_get_delete_other by discriminate. apply obj_get_set_same.
Qed.

(** X23.  Tools across the attempts of one call.  [attemptFetch] writes
    the normalized tools into the body it works on.  When [init.body] is
    an object, that is the caller's object, which the next attempt works
    on in turn: after a failover the tools that are sent are the
    normalization of the normalized tools.  When [init.body] is a string,
    every attempt parses it again and sends the tools normalized once. *)
Theorem tools_normalized_again_on_failover (first second url : string)
    (init : RequestInit) (accessToken project_id : string) (modelName : option string)
    (o : props json) (items once : list json) (twice : json) :
  body_of_init init = JObj o -> obj_get "tools" o = Some (JArr items) ->
  normalizeToolsForGemini (JArr items) = Ok (Some (JArr once)) ->
  normalizeToolsForGemini (JArr once) = Ok (Some twice) -> truthy twice = true ->
  let envelope payload :=
    JSON_stringify
      (JObj [("project", JStr project_id);
             ("model",
              JStr (first_nonempty
                      [modelName; extractModelFromBody o; extractModelFromUrl url]
                      "gemini-3-pro-preview"));
             ("request", JObj payload)]) in
  exists rq1 init1 rq2 init2 payload1 payload2,
    prepareAttempt first url init accessToken project_id modelName = Ok (rq1, init1)
    /\ prepareAttempt second url init1 accessToken project_id modelName = Ok (rq2, init2)
    /\ req_body rq1 = envelope payload1
    /\ req_body rq2 = envelope payload2
    /\ obj_get "tools" payload1 = Some (JArr once)
    /\ obj_get "tools" payload2
       = Some match init_body init with
              | Some (BodyValue _) => twice
              | _ => JArr once
              end.
Proof.
  intros Hb Ht Hn1 Hn2 Htr envelope.
  destruct (prepareAttempt_tools first url init accessToken project_id modelName
              o items (JArr once) Hb Ht Hn1 eq_refl) as (rq1 & E1 & B1 & T1).
  destruct (prepareAttempt_tools second url init accessToken project_id modelName
              o items (JArr once) Hb Ht Hn1 eq_refl) as (rq2 & E2 & B2 & T2).
  destruct (init_body init) as [[str|v]|] eqn:Ei.
  - exists rq1, init, rq2, init. do 2 eexists.
    repeat apply conj; eassumption.
  - set (init1 := {| method := method init;
                     init_body := Some (BodyValue (JObj (obj_set "tools" (JArr once) o)));
                     signal := signal init |}) in *.
    assert (Hb1 : body_of_init init1 = JObj (obj_set "tools" (JArr once) o)) by reflexivity.
    destruct (prepareAttempt_tools second url init1 accessToken project_id modelName
                (obj_set "tools" (JArr once) o) once twice Hb1
                (obj_get_set_same _ _ _) Hn2 Htr) as (rq3 & E3 & B3 & T3).
    rewrite obj_set_twice in B3, T3.
    rewrite (extractModelFromBody_ext (obj_set "tools" (JArr once) o) o) in B3
      by (now apply obj_get_set_other).
    exists rq1, init1, rq3. do 3 eexists.
    repeat apply conj; eassumption.
  - exists rq1, init, rq2, init. do 2 eexists.
    repeat apply conj; eassumption.
Qed.

End ToolsAcrossAttempts.

(** ** The host test *)

Section HostTest.
Context {C : Constants}.

(** X24.  [isGenerativeLanguageRequest] is a test for a substring: it
    holds exactly of the URLs in which [generativelanguage.googleapis.com]
    occurs somewhere, as the host or anywhere else. *)
Theorem isGenerativeLanguageRequest_substring (url : string) :
  isGenerativeLanguageRequest url = true
  <-> exists before after,
        url = before +:+ "generativelanguage.googleapis.com" +:+ after.
Proof.
  unfold isGenerativeLanguageRequest.
  generalize "generativelanguage.googleapis.com"%string. intros host. split.
  - induction url as [|c url IH]; cbn [Str.includes]; intros H;
      apply orb_true_iff in H as [H|H].
    + apply prefix_split in H. exists EmptyString, (Str.slice (String.length host) "").
      now rewrite append_nil.
    + discriminate.
    + apply prefix_split in H.
      exists EmptyString, (Str.slice (String.length host) (String c url)).
      now rewrite append_nil.
    + destruct (IH H) as (b & a & ->). exists (String c b), a. now rewrite append_cons.
  - intros (before & after & ->). induction before as [|c before IH].
    + rewrite append_nil.
      assert (Hp : String.prefix host (host +:+ after) = true) by apply prefix_append.
      destruct (host +:+ after); cbn [Str.includes]; now rewrite Hp.
    + rewrite append_cons. cbn [Str.includes]. rewrite IH. apply orb_true_r.
Qed.

End HostTest.

(** ** Streams without events *)

Section ControlLines.
Context {P : Platform}.

Lemma join_split (s : string) :
  Str.join (String Str.LF EmptyString) (Str.split Str.LF s) = s.
Proof.
  induction s as [|a s IH]; [reflexivity|].
  cbn [Str.split]. destruct (Ascii.eqb_spec a Str.LF) as [->|Hne].
  - pose proof (split_nonempty s) as Hs.
    destruct (Str.split Str.LF s) as [|l ls] eqn:E; [congruence|].
    change (Str.join (String Str.LF EmptyString) (EmptyString :: l :: ls))
      with (EmptyString +:+ String Str.LF EmptyString
            +:+ Str.join (String Str.LF EmptyString) (l :: ls)).
    rewrite IH. now rewrite append_nil, append_cons, append_nil.
  - pose proof (split_nonempty s) as Hs.
    destruct (Str.split Str.LF s) as [|l ls] eqn:E; [congruence|].
    destruct ls as [|l2 ls].
    + cbn [Str.join] in *. now rewrite IH.
    + change (Str.join (String Str.LF EmptyString) (String a l :: l2 :: ls))
        with (String a l +:+ String Str.LF EmptyString
              +:+ Str.join (String Str.LF EmptyString) (l2 :: ls)).
      change (Str.join (String Str.LF EmptyString) (l :: l2 :: ls))
        with (l +:+ String Str.LF EmptyString
              +:+ Str.join (String Str.LF EmptyString) (l2 :: ls)) in IH.
      rewrite append_cons. now rewrite IH.
Qed.

Lemma control_line_kept (line : string) :
  control_line line = true -> transformSseLine line = line.
Proof.
  unfold control_line, data_payload, transformSseLine.
  destruct (Str.startsWith line "data:"); cbn [negb]; [|reflexivity].
  intros ->. reflexivity.
Qed.

(** X25.  A stream without events goes through untouched.  When every
    line of the payload is a control line (not a [data:] line, or a
    [data:] line whose payload is empty or [[DONE]]), the rewritten
    payload is the payload, unit for unit. *)
Theorem stream_without_events_unchanged (payload : string) :
  forallb control_line (Str.split Str.LF payload) = true ->
  transformStreamingPayload payload = payload.
Proof.
  intros Hall. unfold transformStreamingPayload.
  rewrite <- (join_split payload) at 2. f_equal.
  induction (Str.split Str.LF payload) as [|line rest IH]; [reflexivity|].
  cbn [forallb] in Hall. apply andb_true_iff in Hall as [Hl Hr].
  cbn [List.map]. rewrite (control_line_kept line Hl). f_equal. now apply IH.
Qed.

End ControlLines.

(** ** Sample runs *)

(** A rate-limit answer with a [Retry-After] header. *)
Lemma error_transforms_agree_witness :
  transformStreamingResponse (P := Reference.platform) (Demo.rate_limited (Some "7"))
  = transformResponse (P := Reference.platform) (Demo.rate_limited (Some "7")).
Proof. apply error_transforms_agree. reflexivity. Defined.

(** The client error whose details hold a [null] makes the transform
    throw. *)
Lemma error_transform_throws_exactly_witness :
  exists e, transformResponse (P := Reference.platform) Demo.null_detail_error = Throw e.
Proof.
  apply (error_transform_throws_exactly (P := Reference.platform) Demo.null_detail_error).
  - reflexivity.
  - right. eexists. split; [reflexivity|]. left. repeat split; vm_compute; reflexivity.
Defined.

(** A wrapped JSON answer is unwrapped. *)
Lemma json_response_unwrapped_witness :
  transformResponseWithThinking (P := Reference.platform)
    (W := Demo.world (Demo.always (Throw NonError)))
    (Demo.answer 200 "application/json" Demo.wrapped_text) "gemini"
  = Ok (Demo.answer 200 "application/json" (Demo.dq "{'text':'hello'}")).
Proof.
  apply (json_response_unwrapped (P := Reference.platform)
           (W := Demo.world (Demo.always (Throw NonError)))
           (Demo.answer 200 "application/json" Demo.wrapped_text) Demo.wrapped_text
           "gemini" Demo.wrapped_value);
    (reflexivity || discriminate).
Defined.

(** An answer that claims to be JSON and is not comes back read. *)
Lemma failed_rewrite_returns_consumed_response_witness :
  transformResponseWithThinking (P := Reference.platform)
    (W := Demo.world (Demo.always (Throw NonError)))
    (Demo.answer 200 "application/json" "not json at all") "gemini"
  = Ok (consumed (Demo.answer 200 "application/json" "not json at all"))
  /\ fst (text (consumed (Demo.answer 200 "application/json" "not json at all")))
     = Throw (Err ETypeError "Body is unusable").
Proof.
  apply (failed_rewrite_returns_consumed_response (P := Reference.platform) (W := Demo.world (Demo.always (Throw NonError)))
           (Demo.answer 200 "application/json" "not json at all")
           (Some "not json at all") "gemini");
    reflexivity.
Defined.

(** An event stream is rewritten. *)
Lemma event_stream_rewritten_witness :
  transformResponseWithThinking (P := Reference.platform)
    (W := Demo.thinking (Demo.world (Demo.always (Throw NonError))))
    (Demo.answer 200 "text/event-stream" Demo.sse_text) "gemini"
  = Ok (Demo.answer 200 "text/event-stream" (transformStreamingPayload (P := Reference.platform) Demo.sse_text)).
Proof.
  apply (event_stream_rewritten (P := Reference.platform)
           (W := Demo.thinking (Demo.world (Demo.always (Throw NonError))))
           (Demo.answer 200 "text/event-stream" Demo.sse_text) Demo.sse_text "gemini");
    reflexivity.
Defined.

(** The streaming transform on a wrapped JSON answer. *)
Lemma plain_response_in_streaming_transform_witness :
  exists result,
    transformStreamingResponse (P := Reference.platform)
      (Demo.answer 200 "application/json" Demo.wrapped_text) = Ok result
    /\ body (response result) = Stream (Some (Demo.dq "{'text':'hello'}")).
Proof.
  eexists. split.
  - apply (plain_response_in_streaming_transform (P := Reference.platform)
             (Demo.answer 200 "application/json" Demo.wrapped_text) Demo.wrapped_text);
      reflexivity.
  - reflexivity.
Defined.

(** The thinking step on a wrapped JSON answer. *)
Lemma thinking_applies_to_unwrapped_body_witness :
  transformResponseWithThinking (P := Reference.platform)
    (W := Demo.thinking (Demo.world (Demo.always (Throw NonError))))
    (Demo.answer 200 "application/json" Demo.wrapped_text) "gemini"
  = Ok (Demo.answer 200 "application/json" (Demo.dq "{'content':{'text':'hello'}}")).
Proof.
  apply (thinking_applies_to_unwrapped_body (P := Reference.platform)
           (W := Demo.thinking (Demo.world (Demo.always (Throw NonError))))
           (Demo.answer 200 "application/json" Demo.wrapped_text) Demo.wrapped_text
           "gemini" Demo.wrapped_value
           (JObj [("content", unwrapped Demo.wrapped_value)]));
    (reflexivity || discriminate).
Defined.

(** The URL of the samples has both segments. *)
Lemma action_segment_follows_model_segment_witness :
  exists m, extractModelFromUrl Demo.chat_url = Some m.
Proof.
  apply (action_segment_follows_model_segment Demo.chat_url "generateContent").
  reflexivity.
Defined.


(** The body [null]. *)
Lemma null_body_never_sent_witness :
  exists res s',
    Demo.run (Demo.always (Ok (Demo.answer 200 "application/json" "{}")))
      (Demo.init_with (Some (BodyText "null")))
    = (Ok res, s')
    /\ status res = 503 /\ sent s' = []
    /\ tried s' = ["https://daily.example"; "https://autopush.example";
                   "https://prod.example"].
Proof.
  apply (null_body_never_sent (P := Reference.platform) (C := Demo.constants)
           (W := Demo.world (Demo.always (Ok (Demo.answer 200 "application/json" "{}"))))
           (Ok Demo.auth) Demo.client_set_ok "google" Demo.chat_url
           (Demo.init_with (Some (BodyText "null"))) "null" initial_state).
  - reflexivity.
  - discriminate.
  - reflexivity.
  - exists Demo.auth. repeat split.
  - left. reflexivity.
Defined.

(** A refresh that succeeds and a store that fails. *)
Lemma refresh_step_witness :
  createAntigravityFetch (P := Reference.platform) (C := Demo.constants)
    (W := Demo.collaborators true (Ok Demo.renewed) (Demo.always (Throw NonError)))
    (Ok Demo.auth) Demo.client_set_failing "google" Demo.chat_url (Demo.init_with None)
    initial_state
  = (Throw (Err EError "Antigravity: Token refresh failed: disk full"),
     with_tokens initial_state
       (renewed_tokens
          (W := Demo.collaborators true (Ok Demo.renewed) (Demo.always (Throw NonError)))
          Demo.renewed)).
Proof.
  apply (refresh_step (P := Reference.platform) (C := Demo.constants)
           (W := Demo.collaborators true (Ok Demo.renewed) (Demo.always (Throw NonError)))
           Demo.client_set_failing "google" Demo.chat_url (Demo.init_with None)
           initial_state Demo.auth);
    reflexivity.
Defined.

(** Credentials without an expiry, with a cache that has one. *)
Lemma cached_expiry_is_kept_witness :
  let cached :=
    with_tokens initial_state
      (starting_tokens (W := Demo.world (Demo.always (Throw NonError))) Demo.auth
         initial_state) in
  createAntigravityFetch (P := Reference.platform) (C := Demo.constants)
    (W := Demo.world (Demo.always (Throw NonError)))
    (Ok Demo.auth) Demo.client_set_ok "google" Demo.chat_url (Demo.init_with None) cached
  = createAntigravityFetch (P := Reference.platform) (C := Demo.constants)
      (W := Demo.world (Demo.always (Throw NonError)))
      (Ok {| access := access Demo.auth; refresh := refresh Demo.auth; expires := None |})
      Demo.client_set_ok "google" Demo.chat_url (Demo.init_with None) cached.
Proof.
  cbv zeta.
  eapply (cached_expiry_is_kept (P := Reference.platform) (C := Demo.constants)
            (W := Demo.world (Demo.always (Throw NonError))));
    reflexivity.
Defined.

(** The cache after a call. *)
Lemma project_id_is_stable_witness :
  cachedProjectId
    (snd (Demo.run (Demo.always (Throw NonError)) (Demo.init_with None)))
  = Some "fetched-project".
Proof.
  apply (project_id_is_stable (P := Reference.platform) (C := Demo.constants)
           (W := Demo.world (Demo.always (Throw NonError)))
           (Ok Demo.auth) Demo.client_set_ok "google" Demo.chat_url (Demo.init_with None)
           initial_state Demo.auth
           (starting_tokens (W := Demo.world (Demo.always (Throw NonError))) Demo.auth
              initial_state));
    reflexivity.
Defined.

(** A body object with one tool, and a normalizer that groups. *)
Lemma tools_normalized_again_on_failover_witness :
  let once := [JObj [("functionDeclarations", JArr [JObj [("name", JStr "search")]])]] in
  exists rq1 init1 rq2 init2 payload1 payload2,
    prepareAttempt (P := Reference.platform) (C := Demo.constants)
      (W := Demo.grouping_tools (Demo.world (Demo.always (Throw NonError))))
      "https://daily.example" Demo.chat_url
      (Demo.init_with (Some (BodyValue (JObj Demo.body_with_tools))))
      "access-1" "demo-project" None
    = Ok (rq1, init1)
    /\ prepareAttempt (P := Reference.platform) (C := Demo.constants)
         (W := Demo.grouping_tools (Demo.world (Demo.always (Throw NonError))))
         "https://autopush.example" Demo.chat_url init1 "access-1" "demo-project" None
       = Ok (rq2, init2)
    /\ req_body rq1
       = JSON_stringify (Platform := Reference.platform)
           (JObj [("project", JStr "demo-project"); ("model", JStr "gemini-2.5-pro");
                  ("request", JObj payload1)])
    /\ req_body rq2
       = JSON_stringify (Platform := Reference.platform)
           (JObj [("project", JStr "demo-project"); ("model", JStr "gemini-2.5-pro");
                  ("request", JObj payload2)])
    /\ obj_get "tools" payload1 = Some (JArr once)
    /\ obj_get "tools" payload2
       = Some (JArr [JObj [("functionDeclarations", JArr once)]]).
Proof.
  cbv zeta.
  apply (tools_normalized_again_on_failover (P := Reference.platform)
           (C := Demo.constants)
           (W := Demo.grouping_tools (Demo.world (Demo.always (Throw NonError))))
           "https://daily.example" "https://autopush.example" Demo.chat_url
           (Demo.init_with (Some (BodyValue (JObj Demo.body_with_tools))))
           "access-1" "demo-project" None Demo.body_with_tools
           [JObj [("name", JStr "search")]]);
    reflexivity.
Defined.

(** A keep-alive comment, an event name and the end marker. *)
Lemma stream_without_events_unchanged_witness :
  let payload :=
    ": keep-alive" +:+ String Str.LF
      ("event: done" +:+ String Str.LF ("data: [DONE]" +:+ String Str.LF EmptyString)) in
  transformStreamingPayload (P := Reference.platform) payload = payload.
Proof.
  cbv zeta. apply stream_without_events_unchanged. reflexivity.
Defined.

(** ** Numbers: a positive number of seconds gives a positive number of
    milliseconds *)

Section NumberFacts.

Lemma iter_pos_nat {A : Type} (f : A -> A) (p : positive) (x : A) :
  SpecFloat.iter_pos f p x = Nat.iter (Pos.to_nat p) f x.
Proof.
  revert x. induction p as [p IH|p IH|]; intros x; cbn [SpecFloat.iter_pos].
  - rewrite !IH, Pos2Nat.inj_xI. cbn [Nat.mul Nat.add]. rewrite Nat.add_0_r.
    rewrite Nat.iter_succ_r, Nat.iter_add. reflexivity.
  - rewrite !IH, Pos2Nat.inj_xO. cbn [Nat.mul Nat.add]. rewrite Nat.add_0_r.
    now rewrite Nat.iter_add.
  - reflexivity.
Qed.

Lemma shr_1_m (mrs : shr_record) :
  0 <= shr_m mrs ->
  shr_m (shr_1 mrs) = Z.div2 (shr_m mrs) /\ 0 <= shr_m (shr_1 mrs).
Proof.
  destruct mrs as [m r s]. destruct m as [|[p|p|]|p]; cbn; intros H; try lia; split;
    try reflexivity; lia.
Qed.

Lemma shr_iter_m (n : nat) (mrs : shr_record) :
  0 <= shr_m mrs ->
  shr_m (Nat.iter n shr_1 mrs) = Z.shiftr (shr_m mrs) (Z.of_nat n)
  /\ 0 <= shr_m (Nat.iter n shr_1 mrs).
Proof.
  intros H. induction n as [|n [IH1 IH2]].
  - cbn. rewrite Z.shiftr_0_r. auto.
  - rewrite Nat.iter_succ. destruct (shr_1_m _ IH2) as [E1 E2]. split; [|exact E2].
    rewrite E1, IH1, Z.div2_spec, Z.shiftr_shiftr by lia. f_equal. lia.
Qed.

Lemma digits2_size (p : positive) : digits2_pos p = Pos.size p.
Proof. induction p; cbn; congruence. Qed.

Lemma Zdigits2_log2 (m : Z) : 0 < m -> Zdigits2 m = Z.log2 m + 1.
Proof.
  destruct m as [|p|p]; try lia. intros _. cbn [Zdigits2]. rewrite digits2_size.
  destruct p; cbn [Pos.size Z.log2]; lia.
Qed.

(** A shift that leaves a digit. *)
Lemma shr_fexp_positive (m e : Z) (l : location) :
  0 < m -> emin Num.prec Num.emax < Zdigits2 m + e ->
  let '(mrs, e') := shr_fexp Num.prec Num.emax m e l in
  0 < shr_m mrs /\ Zdigits2 (shr_m mrs) + e' = Zdigits2 m + e.
Proof.
  intros Hm He. unfold shr_fexp, shr.
  assert (Hrec : shr_m (shr_record_of_loc m l) = m) by (destruct l as [|[]]; reflexivity).
  rewrite (Zdigits2_log2 m Hm) in *.
  unfold fexp, emin, Num.prec, Num.emax in *.
  destruct (Z.max (Z.log2 m + 1 + e - 53) (3 - 1024 - 53) - e) as [|n|n] eqn:En.
  - rewrite Hrec, (Zdigits2_log2 m Hm). split; [exact Hm | reflexivity].
  - rewrite iter_pos_nat.
    destruct (shr_iter_m (Pos.to_nat n) (shr_record_of_loc m l)) as [E _];
      [rewrite Hrec; lia|].
    rewrite E, Hrec, positive_nat_Z.
    assert (Hn : Z.pos n <= Z.log2 m) by lia.
    assert (Hpos : 0 < Z.shiftr m (Z.pos n)).
    { rewrite Z.shiftr_div_pow2 by lia.
      apply Z.div_str_pos. split; [apply Z.pow_pos_nonneg; lia|].
      transitivity (2 ^ Z.log2 m); [apply Z.pow_le_mono_r; lia|].
      apply Z.log2_spec. exact Hm. }
    split; [exact Hpos|].
    rewrite (Zdigits2_log2 _ Hpos), Z.log2_shiftr by exact Hm. lia.
  - rewrite Hrec, (Zdigits2_log2 m Hm). split; [exact Hm | reflexivity].
Qed.

Lemma round_nearest_even_ge (m : Z) (l : location) :
  0 < m -> m <= round_nearest_even m l.
Proof.
  intros Hm. destruct l as [|[]]; cbn; try lia. destruct (Z.even m); lia.
Qed.

(** Rounding a positive value that is not below the least positive
    number gives a positive number. *)
Lemma binary_round_aux_positive (m e : Z) (l : location) :
  0 < m -> emin Num.prec Num.emax < Zdigits2 m + e ->
  positive_number (binary_round_aux Num.prec Num.emax false m e l).
Proof.
  intros Hm He. unfold binary_round_aux.
  pose proof (shr_fexp_positive m e l Hm He) as H1.
  destruct (shr_fexp Num.prec Num.emax m e l) as [mrs' e'].
  destruct H1 as [Hm' Hd'].
  pose proof (round_nearest_even_ge (shr_m mrs') (loc_of_shr_record mrs') Hm') as Hr.
  set (m1 := round_nearest_even (shr_m mrs') (loc_of_shr_record mrs')) in *.
  assert (Hm1 : 0 < m1) by lia.
  assert (Hd1 : emin Num.prec Num.emax < Zdigits2 m1 + e').
  { rewrite (Zdigits2_log2 m1 Hm1). rewrite (Zdigits2_log2 _ Hm') in Hd'.
    pose proof (Z.log2_le_mono _ _ Hr). lia. }
  pose proof (shr_fexp_positive m1 e' loc_Exact Hm1 Hd1) as H2.
  destruct (shr_fexp Num.prec Num.emax m1 e' loc_Exact) as [mrs'' e''].
  destruct H2 as [Hm'' _].
  destruct (shr_m mrs'') as [|p|p]; try lia.
  destruct (e'' <=? Num.emax - Num.prec); [right; eauto | now left].
Qed.

Lemma of_Z_positive (q : Z) : 0 < q -> positive_number (Num.of_Z q).
Proof.
  destruct q as [|p|p]; try lia. intros _.
  unfold Num.of_Z, binary_normalize, binary_round.
  destruct (shl_align p 0 (fexp Num.prec Num.emax (Z.pos (digits2_pos p) + 0)))
    as [mz ez] eqn:Ea.
  apply binary_round_aux_positive; [lia|].
  cbn [Zdigits2]. revert Ea. unfold shl_align.
  pose proof (Pos2Z.is_pos (digits2_pos mz)) as Hd.
  destruct (fexp Num.prec Num.emax (Z.pos (digits2_pos p) + 0) - 0) as [|d|d] eqn:Ef;
    intros [= <- <-].
  - unfold emin, Num.prec, Num.emax. pose proof (Pos2Z.is_pos (digits2_pos p)). lia.
  - unfold emin, Num.prec, Num.emax. pose proof (Pos2Z.is_pos (digits2_pos p)). lia.
  - unfold fexp, emin, Num.prec, Num.emax in *. lia.
Qed.

Lemma ceil_truthy (x : number) : positive_number x -> Num.truthy (Num.ceil x) = true.
Proof.
  intros [-> | (m & e & ->)]; [reflexivity|].
  unfold Num.ceil. destruct (0 <=? e) eqn:He; [reflexivity|].
  apply Z.leb_gt in He.
  assert (Hq : 0 < - ((- Z.pos m) / (2 ^ (- e)))).
  { assert ((- Z.pos m) / (2 ^ (- e)) < 0); [|lia].
    apply Z.div_lt_upper_bound; [apply Z.pow_pos_nonneg; lia | lia]. }
  destruct (of_Z_positive _ Hq) as [-> | (m' & e' & ->)]; reflexivity.
Qed.

(** Milliseconds made of a number of the binary64 format are a number
    that counts as true. *)
Lemma seconds_to_ms_truthy (seconds ms : number) :
  valid_binary Num.prec Num.emax seconds = true ->
  seconds_to_ms seconds = Some ms -> Num.truthy ms = true.
Proof.
  intros Hv. unfold seconds_to_ms.
  destruct (negb (Num.isNaN seconds) && Num.gt0 seconds) eqn:Hpos; [|discriminate].
  intros [= <-]. apply ceil_truthy.
  apply andb_true_iff in Hpos as [_ Hgt].
  assert (Ek : Num.of_Z 1000 = S754_finite false 8796093022208000 (-43))
    by (vm_compute; reflexivity).
  change (positive_number (Num.mul seconds (Num.of_Z 1000))).
  rewrite Ek. unfold Num.mul.
  destruct seconds as [s|s| |s m e]; try discriminate;
    destruct s; try discriminate.
  - left. reflexivity.
  - cbn [SFmul xorb]. apply binary_round_aux_positive; [lia|].
    cbn [valid_binary] in Hv. unfold bounded, canonical_mantissa in Hv.
    apply andb_true_iff in Hv as [Hc _]. apply Z.eqb_eq in Hc.
    rewrite (Zdigits2_log2 (Z.pos (m * 8796093022208000))) by lia.
    rewrite Pos2Z.inj_mul.
    pose proof (Z.log2_mul_below (Z.pos m) 8796093022208000 ltac:(lia) ltac:(lia)) as Hl.
    assert (E52 : Z.log2 8796093022208000 = 52) by reflexivity.
    pose proof (Z.log2_nonneg (Z.pos m)).
    unfold fexp, emin, Num.prec, Num.emax in *. lia.
Qed.

End NumberFacts.

(** ** Retry-after, resolved *)

Section RetryResolution.
Context {P : Platform}.

Lemma digit_or_dot_class (c : ascii) :
  Str.is_digit c || Ascii.eqb c "." = digit_or_dot c.
Proof. destruct c as [[] [] [] [] [] [] [] []]; reflexivity. Qed.

Lemma all_units_ext (p q : ascii -> bool) (s : string) :
  (forall c, p c = q c) -> all_units p s = all_units q s.
Proof. intros E. induction s as [|c s IH]; cbn; [reflexivity|]. now rewrite E, IH. Qed.

Lemma all_units_In (p : ascii -> bool) (s : string) :
  all_units p s = true <-> forall c, In c (list_ascii_of_string s) -> p c = true.
Proof.
  induction s as [|x s IH]; cbn.
  - split; [intros _ c [] | reflexivity].
  - rewrite andb_true_iff, IH. split.
    + intros [Hx Hs] c [<- | Hc]; auto.
    + intros H. split; [apply H; now left | intros c Hc; apply H; now right].
Qed.

Lemma length_append (a b : string) :
  String.length (a +:+ b) = (String.length a + String.length b)%nat.
Proof.
  induction a as [|c a IH]; [reflexivity|].
  rewrite append_cons. cbn [String.length]. now rewrite IH.
Qed.

Lemma substring_prefix (a b : string) :
  substring 0 (String.length a) (a +:+ b) = a.
Proof.
  induction a as [|c a IH].
  - rewrite append_nil. destruct b; reflexivity.
  - rewrite append_cons. cbn [String.length substring]. now rewrite IH.
Qed.

(** The form [<number>s], as a relation. *)
Lemma seconds_text_iff (delay run : string) :
  seconds_text delay = Some run
  <-> delay = run +:+ "s" /\ run <> "" /\ all_units digit_or_dot run = true.
Proof.
  unfold seconds_text. split.
  - destruct (String.eqb_spec delay
                (substring 0 (String.length delay - 1) delay +:+ "s")) as [E|]; cbn [andb];
      [|discriminate].
    destruct (String.eqb_spec (substring 0 (String.length delay - 1) delay) "") as [|N];
      cbn [andb negb]; [discriminate|].
    destruct (all_units digit_or_dot _) eqn:Ea; [|discriminate].
    intros [= <-]. auto.
  - intros (-> & N & Ha).
    rewrite length_append. cbn [String.length].
    replace (String.length run + 1 - 1)%nat with (String.length run) by lia.
    rewrite substring_prefix, String.eqb_refl, Ha.
    destruct (String.eqb_spec run ""); [contradiction | reflexivity].
Qed.

(** The regular expression of the source accepts that form and no
    other. *)
Lemma match_retryDelay_iff (delay run : string) :
  match_retryDelay delay = Some run
  <-> delay = run +:+ "s" /\ run <> "" /\ all_units digit_or_dot run = true.
Proof.
  unfold match_retryDelay. split.
  - destruct (Str.span _ delay) as [m rest] eqn:Es.
    destruct rest as [|c rest]; [discriminate|].
    destruct c as [[] [] [] [] [] [] [] []]; try discriminate.
    destruct rest; [|discriminate].
    destruct (Str.nonempty m) eqn:En; [|discriminate].
    intros [= <-]. split; [|split].
    + now apply span_append in Es.
    + now apply nonempty_true.
    + apply span_all in Es.
      now rewrite (all_units_ext _ digit_or_dot) in Es by apply digit_or_dot_class.
  - intros (-> & N & Ha).
    rewrite span_run;
      [|rewrite (all_units_ext _ digit_or_dot) by apply digit_or_dot_class; exact Ha
       |reflexivity].
    apply nonempty_true in N. now rewrite N.
Qed.

Lemma match_retryDelay_seconds_text (delay : string) :
  match_retryDelay delay = seconds_text delay.
Proof.
  destruct (match_retryDelay delay) as [run|] eqn:E.
  - symmetry. apply seconds_text_iff, match_retryDelay_iff, E.
  - destruct (seconds_text delay) as [run|] eqn:E'; [|reflexivity].
    apply seconds_text_iff, match_retryDelay_iff in E'. congruence.
Qed.

Lemma find_filter {A : Type} (p : A -> bool) (l : list A) :
  List.find p l = match List.filter p l with x :: _ => Some x | [] => None end.
Proof. induction l as [|x l IH]; cbn; [reflexivity|]. destruct (p x); [reflexivity | exact IH]. Qed.

(** The delay the code reads is the delay of the first RetryInfo entry. *)
Lemma hit_RetryInfo_first (errorBody : json) :
  hit_RetryInfo errorBody = first_RetryInfo_ms errorBody.
Proof.
  unfold hit_RetryInfo, first_RetryInfo_ms, details_of.
  destruct (field errorBody "error") as [error|]; [|reflexivity].
  destruct (field error "details") as [[| | | |details|]|]; try reflexivity.
  rewrite find_filter. destruct (List.filter is_RetryInfo details) as [|entry rest];
    [reflexivity|].
  unfold delay_ms, delay_text.
  destruct (field entry "retryDelay") as [[| | |delay| |]|]; try reflexivity.
  now rewrite match_retryDelay_seconds_text.
Qed.

(** The first RetryInfo entry, by its place in [details]. *)
Lemma filter_first {A : Type} (p : A -> bool) (before after : list A) (x : A) :
  forallb (fun d => negb (p d)) before = true -> p x = true ->
  List.filter p (before ++ x :: after) = x :: List.filter p after.
Proof.
  intros Hb Hx. induction before as [|d before IH]; cbn in *.
  - now rewrite Hx.
  - apply andb_true_iff in Hb as [Hd Hb]. apply negb_true_iff in Hd. rewrite Hd. auto.
Qed.

Lemma filter_none {A : Type} (p : A -> bool) (l : list A) :
  forallb (fun d => negb (p d)) l = true -> List.filter p l = [].
Proof.
  induction l as [|d l IH]; cbn; [reflexivity|].
  intros H. apply andb_true_iff in H as [Hd Hl]. apply negb_true_iff in Hd.
  rewrite Hd. auto.
Qed.

Lemma gt0_truthy (x : number) : Num.gt0 x = true -> Num.truthy x = true.
Proof. destruct x as [s|s| |s m e]; try destruct s; cbn; congruence. Qed.

(** A value that is found counts as true, so the headers are written for
    it. *)
Lemma found_truthy (hs : gmap string string) (errorBody : json) (x : number) :
  forallb binary64 (seconds_read hs errorBody) = true ->
  first_hit (hit_Retry_After hs) (hit_retry_after_ms hs) (first_RetryInfo_ms errorBody)
  = Some x ->
  Num.truthy x = true.
Proof.
  unfold seconds_read. rewrite forallb_app. intros Hv.
  apply andb_true_iff in Hv as [Hv1 Hv2].
  unfold first_hit.
  destruct (hit_Retry_After hs) as [a|] eqn:Ea.
  - intros [= ->]. unfold hit_Retry_After in Ea.
    destruct (Headers_get hs "Retry-After") as [v|]; [|discriminate].
    destruct (Str.nonempty v); [|discriminate].
    cbn in Hv1. apply andb_true_iff in Hv1 as [Hv1 _].
    exact (seconds_to_ms_truthy _ _ Hv1 Ea).
  - destruct (hit_retry_after_ms hs) as [b|] eqn:Eb.
    + intros [= ->]. unfold hit_retry_after_ms in Eb.
      destruct (Headers_get hs "retry-after-ms") as [v|]; [|discriminate].
      destruct (Str.nonempty v && negb (Num.isNaN (parseInt10 v)) && Num.gt0 (parseInt10 v))
        eqn:Ec; [|discriminate].
      injection Eb as <-. apply andb_true_iff in Ec as [_ Hg]. now apply gt0_truthy.
    + unfold first_RetryInfo_ms, delay_ms.
      destruct (List.filter is_RetryInfo (details_of errorBody)) as [|entry rest];
        [discriminate|].
      destruct (delay_text entry) as [run|]; [|discriminate].
      cbn in Hv2. apply andb_true_iff in Hv2 as [Hv2 _].
      intros Ec. exact (seconds_to_ms_truthy _ _ Hv2 Ec).
Qed.

Lemma headers_miss_iff (hs : gmap string string) :
  headers_miss hs = true
  <-> first_hit (hit_Retry_After hs) (hit_retry_after_ms hs) None = None.
Proof.
  unfold headers_miss, first_hit.
  destruct (hit_Retry_After hs), (hit_retry_after_ms hs); split; congruence.
Qed.

(** The error branch of [transformResponse], as one equation. *)
Lemma transformResponse_error_branch (res : Response) (txt : string) :
  ok res = false -> fst (text res) = Ok txt ->
  transformResponse res =
    let hs := headers res in
    if headers_miss hs && negb (readable_body (errorBody_of txt))
    then Throw (Err ETypeError "Cannot read properties of null")
    else
      let found := first_hit (hit_Retry_After hs) (hit_retry_after_ms hs)
                     (first_RetryInfo_ms (errorBody_of txt)) in
      (do fresh <- new_Response txt (status res) (statusText res)
                     (set_retry_headers hs found);
       Ok {| response := fresh; usage := extractUsageFromHeaders hs;
             retryAfterMs := found; error := parseErrorBody txt |})%result.
Proof.
  intros Hok Htxt. destruct (text_read res txt Htxt) as (Hs & Hst & Hh).
  unfold transformResponse. rewrite Hok. cbn [negb].
  destruct (text res) as [read res'] eqn:Et. cbn [fst snd] in *. subst read.
  cbn [rbind]. rewrite extractRetryAfterMs_normalized. cbn [rbind].
  fold (errorBody_of txt). rewrite Hh, Hs, Hst. cbv zeta.
  destruct (first_hit (hit_Retry_After (headers res)) (hit_retry_after_ms (headers res)) None)
    as [x|] eqn:Eh.
  - assert (Em : headers_miss (headers res) = false).
    { destruct (headers_miss (headers res)) eqn:Em; [|reflexivity].
      apply headers_miss_iff in Em. congruence. }
    rewrite Em. cbn [andb].
    rewrite (extractRetryAfterMs_header_hit res' (Some (errorBody_of txt)) x)
      by (rewrite Hh; exact Eh).
    cbn [rbind]. now rewrite (first_hit_Some_header _ _ _ _ Eh).
  - assert (Em : headers_miss (headers res) = true) by now apply headers_miss_iff.
    rewrite Em. cbn [andb].
    rewrite (header_miss res' (Some (errorBody_of txt))) by (rewrite Hh; exact Eh).
    destruct (readable_body (errorBody_of txt)); cbn [negb rbind]; [|reflexivity].
    destruct (first_hit_None_inv _ _ (first_RetryInfo_ms (errorBody_of txt)) Eh)
      as (_ & _ & ->).
    rewrite hit_RetryInfo_first.
    now destruct (first_RetryInfo_ms (errorBody_of txt)).
Qed.

(** C4, amended.  For a response that is not successful, on every
    platform whose [parseFloat] gives numbers of the binary64 format for
    the texts it is asked about:

    - when the body cannot be read, the exception of the read is the
      outcome;
    - when neither retry header gives a value and [error.details] of the
      body holds a [null] before its first RetryInfo entry,
      [transformResponse] throws a [TypeError];
    - when the status is outside 300..599 it throws the [RangeError] of
      [new Response], and on status 304 its [TypeError];
    - in every other case it returns, and the retry-after value is the
      first hit, in this order, of (a) the [Retry-After] header parsed
      as seconds, times 1000, rounded up, (b) the [retry-after-ms]
      header parsed as integer milliseconds, (c) the delay of the FIRST
      entry of [error.details] whose [@type] is the RetryInfo type URL,
      in milliseconds rounded up; a later RetryInfo entry is never
      looked at.  When a value is found the translated response carries
      a [Retry-After] header with the rounded-up seconds and a
      [retry-after-ms] header with the value; when none is found the
      headers are those of the response (with the content type of a
      text filled in when there is none).  Status, status text and body
      are kept, and the error is the one [parseErrorBody] gives.

    A delay has the form [<number>s] exactly when it is a run of digits
    and dots that is not empty, followed by [s]; the run is what
    [parseFloat] is given. *)
Theorem retry_after_resolution (res : Response) :
  ok res = false ->
  (forall txt, fst (text res) = Ok txt ->
     forallb binary64 (seconds_read (headers res) (errorBody_of txt)) = true) ->
  match fst (text res) with
  | Throw e => transformResponse res = Throw e
  | Ok txt =>
      let a := hit_Retry_After (headers res) in
      let b := hit_retry_after_ms (headers res) in
      let c := first_RetryInfo_ms (errorBody_of txt) in
      if headers_miss (headers res) && negb (readable_body (errorBody_of txt)) then
        transformResponse res = Throw (Err ETypeError "Cannot read properties of null")
      else if negb ((300 <=? status res) && (status res <=? 599)) then
        transformResponse res
        = Throw (Err ERangeError "The status provided is outside the range [200, 599]")
      else if status res =? 304 then
        transformResponse res
        = Throw (Err ETypeError "Response with null body status cannot have body")
      else
        exists result,
          transformResponse res = Ok result
          /\ retryAfterMs result = first_hit a b c
          /\ error result = parseErrorBody txt
          /\ status (response result) = status res
          /\ statusText (response result) = statusText res
          /\ body (response result) = Stream (Some txt)
          /\ match first_hit a b c with
             | Some x =>
                 Headers_get (headers (response result)) "Retry-After"
                 = Some (Number_toString (Num.ceil (Num.div x (Num.of_Z 1000))))
                 /\ Headers_get (headers (response result)) "retry-after-ms"
                    = Some (Number_toString x)
             | None => headers (response result) = with_content_type (headers res)
             end
  end
  /\ (forall delay run,
        seconds_text delay = Some run
        <-> delay = run +:+ "s" /\ run <> ""
            /\ forall c, In c (list_ascii_of_string run) ->
                 In c (list_ascii_of_string "0123456789."))
  /\ (forall errorBody before entry after,
        details_of errorBody = before ++ entry :: after ->
        forallb (fun d => negb (is_RetryInfo d)) before = true ->
        is_RetryInfo entry = true ->
        first_RetryInfo_ms errorBody
        = match field entry "retryDelay" with
          | Some (JStr delay) =>
              match seconds_text delay with
              | Some run => seconds_to_ms (parseFloat run)
              | None => None
              end
          | _ => None
          end)
  /\ (forall errorBody,
        forallb (fun d => negb (is_RetryInfo d)) (details_of errorBody) = true ->
        first_RetryInfo_ms errorBody = None).
Proof.
  intros Hok Hvalid. repeat apply conj.
  - destruct (fst (text res)) as [txt|e] eqn:Et.
    2:{ unfold transformResponse. rewrite Hok. cbn [negb].
        destruct (text res) as [read res']. cbn [fst] in Et. subst read. reflexivity. }
    specialize (Hvalid txt eq_refl).
    rewrite (transformResponse_error_branch res txt Hok Et). cbv zeta.
    destruct (headers_miss (headers res) && negb (readable_body (errorBody_of txt)));
      [reflexivity|].
    set (found := first_hit _ _ _).
    assert (Hst : status res < 200 \/ 299 < status res).
    { unfold ok in Hok. apply andb_false_iff in Hok as [H | H]; apply Z.leb_gt in H; lia. }
    unfold new_Response, null_body_status.
    destruct (Z.leb_spec 300 (status res)), (Z.leb_spec (status res) 599); cbn [andb negb].
    + destruct (Z.leb_spec 200 (status res)); [|lia]. cbn [andb negb].
      destruct (Z.eqb_spec (status res) 101); [lia|].
      destruct (Z.eqb_spec (status res) 103); [lia|].
      destruct (Z.eqb_spec (status res) 204); [lia|].
      destruct (Z.eqb_spec (status res) 205); [lia|].
      destruct (Z.eqb_spec (status res) 304); cbn [orb rbind]; [reflexivity|].
      eexists. split; [reflexivity|].
      cbn [retryAfterMs error response status statusText body headers].
      repeat apply conj; try reflexivity.
      destruct found as [x|] eqn:Ef.
      * apply retry_headers_written. exact (found_truthy _ _ _ Hvalid Ef).
      * reflexivity.
    + destruct (Z.leb_spec 200 (status res)); [reflexivity | lia].
    + destruct (Z.leb_spec 200 (status res)); [lia | reflexivity].
    + lia.
  - intros delay run. rewrite seconds_text_iff, all_units_In.
    split; intros (E & N & H); repeat split; auto; intros c Hc; specialize (H c Hc).
    + unfold digit_or_dot in H. apply existsb_exists in H as (d & Hd & Ed).
      apply Ascii.eqb_eq in Ed. now subst.
    + unfold digit_or_dot. apply existsb_exists. exists c. split; [exact H|].
      apply Ascii.eqb_refl.
  - intros errorBody before entry after Ed Hb He.
    unfold first_RetryInfo_ms. rewrite Ed, (filter_first _ _ _ _ Hb He).
    unfold delay_ms, delay_text.
    now destruct (field entry "retryDelay") as [[| | |delay| |]|].
  - intros errorBody Hn. unfold first_RetryInfo_ms. now rewrite (filter_none _ _ Hn).
Qed.

End RetryResolution.

(** The examples of the specification on the reference platform: with a
    [Retry-After: 2] header and an embedded [5.123s] the header wins and
    gives 2000 ms; without the header the detail gives 5123 ms, written
    as 6 seconds; a delay [1.2.3s] has the form and is read as 1.2
    seconds. *)
Lemma retry_after_resolution_witness :
  (exists result,
     transformResponse (P := Reference.platform) (Demo.rate_limited (Some "2")) = Ok result
     /\ retryAfterMs result = Some (Num.of_Z 2000)
     /\ Headers_get (headers (response result)) "Retry-After" = Some "2"
     /\ Headers_get (headers (response result)) "retry-after-ms" = Some "2000")
  /\ (exists result,
        transformResponse (P := Reference.platform) (Demo.rate_limited None) = Ok result
        /\ retryAfterMs result = Some (Num.of_Z 5123)
        /\ Headers_get (headers (response result)) "Retry-After" = Some "6"
        /\ Headers_get (headers (response result)) "retry-after-ms" = Some "5123")
  /\ (exists result,
        transformResponse (P := Reference.platform) Demo.dotted_retry_info = Ok result
        /\ retryAfterMs result = Some (Num.of_Z 1200)
        /\ Headers_get (headers (response result)) "Retry-After" = Some "2"
        /\ Headers_get (headers (response result)) "retry-after-ms" = Some "1200").
Proof.
  split; [|split].
  - destruct (retry_after_resolution (P := Reference.platform)
                (Demo.rate_limited (Some "2")) eq_refl) as [H _].
    + intros txt E. injection E as <-. vm_compute. reflexivity.
    + destruct H as (result & E & Hms & _ & _ & _ & _ & Hh).
      cbv zeta in Hms, Hh.
      match type of Hms with
      | _ = ?found =>
          assert (Ev : found = Some (Num.of_Z 2000)) by (vm_compute; reflexivity);
          rewrite Ev in Hms, Hh
      end.
      destruct Hh as [H1 H2]. exists result. repeat apply conj.
      * exact E.
      * exact Hms.
      * rewrite H1. vm_compute. reflexivity.
      * rewrite H2. vm_compute. reflexivity.
  - destruct (retry_after_resolution (P := Reference.platform)
                (Demo.rate_limited None) eq_refl) as [H _].
    + intros txt E. injection E as <-. vm_compute. reflexivity.
    + destruct H as (result & E & Hms & _ & _ & _ & _ & Hh).
      cbv zeta in Hms, Hh.
      match type of Hms with
      | _ = ?found =>
          assert (Ev : found = Some (Num.of_Z 5123)) by (vm_compute; reflexivity);
          rewrite Ev in Hms, Hh
      end.
      destruct Hh as [H1 H2]. exists result. repeat apply conj.
      * exact E.
      * exact Hms.
      * rewrite H1. vm_compute. reflexivity.
      * rewrite H2. vm_compute. reflexivity.
  - destruct (retry_after_resolution (P := Reference.platform)
                Demo.dotted_retry_info eq_refl) as [H _].
    + intros txt E. injection E as <-. vm_compute. reflexivity.
    + destruct H as (result & E & Hms & _ & _ & _ & _ & Hh).
      cbv zeta in Hms, Hh.
      match type of Hms with
      | _ = ?found =>
          assert (Ev : found = Some (Num.of_Z 1200)) by (vm_compute; reflexivity);
          rewrite Ev in Hms, Hh
      end.
      destruct Hh as [H1 H2]. exists result. repeat apply conj.
      * exact E.
      * exact Hms.
      * rewrite H1. vm_compute. reflexivity.
      * rewrite H2. vm_compute. reflexivity.
Defined.

(** C4 as the specification words it does not hold.  The body of this
    rate-limit error holds a RetryInfo entry with the delay [5s], so
    source (c) of the specification has a hit, 5000 ms; but an earlier
    RetryInfo entry has a delay that is not of the form, the code looks
    at that entry only, and the result has no retry-after value and no
    retry header.  And there are error responses for which nothing is
    computed: on a [null] in [error.details] the transform throws. *)
Lemma retry_info_later_entry_ignored :
  ok Demo.shadowed_retry_info = false
  /\ hit_Retry_After (P := Reference.platform) (headers Demo.shadowed_retry_info) = None
  /\ hit_retry_after_ms (P := Reference.platform) (headers Demo.shadowed_retry_info) = None
  /\ claimed_RetryInfo_ms (P := Reference.platform)
       (errorBody_of (P := Reference.platform) Demo.shadowed_retry_text)
     = Some (Num.of_Z 5000)
  /\ (exists result,
        transformResponse (P := Reference.platform) Demo.shadowed_retry_info = Ok result
        /\ retryAfterMs result = None
        /\ Headers_get (headers (response result)) "Retry-After" = None
        /\ Headers_get (headers (response result)) "retry-after-ms" = None)
  /\ ok Demo.null_detail_error = false
  /\ transformResponse (P := Reference.platform) Demo.null_detail_error
     = Throw (Err ETypeError "Cannot read properties of null").
Proof.
  repeat apply conj; try (vm_compute; reflexivity).
  eexists. repeat apply conj; [vm_compute; reflexivity | reflexivity..].
Qed.
